(** * Recall AI: the cache-first query engine

    A shallow embedding of [cache_manager.py] (class [CacheManager]) and of
    the query path of [utils.py] ([generate_embedding],
    [ensure_collection_exists], [store_in_vector_db], [search_vector_db],
    [search_vector_db_enhanced], [search_cache_first],
    [query_knowledge_base]).

    Conventions.
    - A Python [str] is the sequence of its Unicode code points, a list of
      numbers: [len] is the length of the list and a slice cuts between code
      points.  [str.isspace] is the white-space table of CPython.  The case
      table behind [str.lower] is not written out; it is a parameter of the
      development (class [Unicode]), so what is proved holds for every such
      table.
    - Python [float] (time stamps, similarity scores) is modelled by [Q].
    - A Python [dict] is a [gmap]; the [OrderedDict] of the cache manager,
      whose iteration order matters, is an association list kept in
      insertion order.
    - Exceptions are values of type [exn]; a computation is a function from
      the state to a result and the state after it.  A raised exception keeps
      the mutations made so far, as in Python.  [except Exception] catches
      every exception but the cancellation of the task. *)

From Stdlib Require Import QArith Ascii.
From stdpp Require Import gmap strings list fin_maps pretty sorting.

Local Open Scope list_scope.

(** ** Strings *)

Abbreviation str := (list N).

(** String literals.  A literal of this file is read as the list of the
    code points of its characters; only ASCII characters are accepted in a
    literal, a string with other code points is written as a list. *)
Inductive str_literal : Set :=
| LNil
| LCons (c : N) (s : str_literal).

Definition str_literal_type : Type := list N.

Fixpoint parse_literal (bytes : list Byte.byte) : option str_literal :=
  match bytes with
  | [] => Some LNil
  | b :: bs =>
      match parse_literal bs with
      | Some s => if (Byte.to_N b <? 128)%N then Some (LCons (Byte.to_N b) s) else None
      | None => None
      end
  end.

Fixpoint print_literal (s : str_literal) : option (list Byte.byte) :=
  match s with
  | LNil => Some []
  | LCons c s' =>
      match Byte.of_N c, print_literal s' with
      | Some b, Some bs =>
          if ((32 <=? c) && (c <? 127))%N then Some (b :: bs) else None
      | _, _ => None
      end
  end.

Declare Scope str_scope.
Delimit Scope str_scope with str.
#[warnings="-via-type-remapping,-via-type-mismatch"]
String Notation str_literal_type parse_literal print_literal
  (via str_literal mapping [[nil] => LNil, [cons] => LCons]) : str_scope.
Local Open Scope str_scope.

(** [str.lower()] follows the case table of the Unicode database of the
    interpreter, with its special casings.  The table is left open; the one
    fact used is that the empty string has no character to change. *)
Class Unicode : Type := mkUnicode {
  unicode_lower : str -> str;
  unicode_lower_empty : unicode_lower [] = []
}.

Module Str.

(** A string of the standard library, character by character. *)
Fixpoint of_string (s : string) : str :=
  match s with
  | EmptyString => []
  | String c s' => N_of_ascii c :: of_string s'
  end.

(** [len(s)] *)
Definition len (s : str) : Z := Z.of_nat (length s).

(** [s.lower()] *)
Definition lower {U : Unicode} (s : str) : str := unicode_lower s.

(** [c.isspace()]: TAB, LF, VT, FF, CR, the four separators 0x1c..0x1f,
    the space, NEL (0x85), the no-break space (0xa0), the Ogham space mark
    (0x1680), the spaces 0x2000..0x200a, the line and the paragraph
    separator (0x2028, 0x2029), the narrow no-break space (0x202f), the
    medium mathematical space (0x205f) and the ideographic space
    (0x3000). *)
Definition isspace (c : N) : bool :=
  ((9 <=? c) && (c <=? 13) || (28 <=? c) && (c <=? 32)
   || (c =? 133) || (c =? 160) || (c =? 5760)
   || (8192 <=? c) && (c <=? 8202)
   || (c =? 8232) || (c =? 8233) || (c =? 8239) || (c =? 8287) || (c =? 12288))%N.

Fixpoint lstrip (s : str) : str :=
  match s with
  | [] => []
  | c :: s' => if isspace c then lstrip s' else s
  end.

Fixpoint rstrip (s : str) : str :=
  match s with
  | [] => []
  | c :: s' =>
      match rstrip s' with
      | [] => if isspace c then [] else [c]
      | r => c :: r
      end
  end.

(** [s.strip()] *)
Definition strip (s : str) : str := rstrip (lstrip s).

Fixpoint all_space (s : str) : bool :=
  match s with
  | [] => true
  | c :: s' => isspace c && all_space s'
  end.

(** [hay.startswith(needle)] *)
Fixpoint startswith (needle hay : str) : bool :=
  match needle, hay with
  | [], _ => true
  | _ :: _, [] => false
  | a :: n', b :: h' => bool_decide (a = b) && startswith n' h'
  end.

(** [needle in hay] *)
Fixpoint contains (needle hay : str) : bool :=
  startswith needle hay ||
  match hay with
  | [] => false
  | _ :: h' => contains needle h'
  end.

(** [s[:n]] *)
Definition slice_to (n : nat) (s : str) : str := take n s.

(** [sep.join(parts)] *)
Fixpoint join (sep : str) (parts : list str) : str :=
  match parts with
  | [] => []
  | [p] => p
  | p :: ps => p ++ sep ++ join sep ps
  end.

Definition dquote : str := [34%N].
Definition nl : str := [10%N].

End Str.

(** [str(n)] for a number: its decimal form. *)
Definition str_of `{Pretty A} (x : A) : str := Str.of_string (pretty x).

(** ** Stable sort, descending on a rational key

    [list.sort(key=..., reverse=True)]: Python's sort is stable also when
    reversed, so entries with equal keys keep their relative order. *)

Section SortDesc.
Context {A : Type} (key : A -> Q).

Fixpoint insert_desc (x : A) (l : list A) : list A :=
  match l with
  | [] => [x]
  | y :: l' =>
      if Qle_bool (key y) (key x) then x :: y :: l' else y :: insert_desc x l'
  end.

Fixpoint sort_desc (l : list A) : list A :=
  match l with
  | [] => []
  | x :: l' => insert_desc x (sort_desc l')
  end.
End SortDesc.

(** ** Exceptions and the state-and-exception monad *)

Inductive exn : Type :=
| ValueError (msg : str)
| KeyError (msg : str)
| QdrantError (msg : str)          (* raised inside the Qdrant client *)
| BackendError (msg : str)         (* raised inside an AI backend client *)
| AIServiceError (msg : str)
| DatabaseError (msg : str)
| CancelledError.                  (* [asyncio.CancelledError], at an [await] *)

(** [str(e)]; a [KeyError] carries its message with the quotes [str] shows. *)
Definition str_exn (e : exn) : str :=
  match e with
  | ValueError m | KeyError m | QdrantError m | BackendError m
  | AIServiceError m | DatabaseError m => m
  | CancelledError => ""
  end.

(** [isinstance(e, Exception)]: the cancellation of a task derives from
    [BaseException] only. *)
Definition is_Exception (e : exn) : bool :=
  match e with
  | CancelledError => false
  | _ => true
  end.

Inductive Result (A : Type) : Type :=
| Ok (a : A)
| Raise (e : exn).
Arguments Ok {A} a.
Arguments Raise {A} e.

Definition M (S A : Type) : Type := S -> Result A * S.

Definition ret {S A} (a : A) : M S A := fun s => (Ok a, s).

Definition raise {S A} (e : exn) : M S A := fun s => (Raise e, s).

Definition bind {S A B} (m : M S A) (k : A -> M S B) : M S B :=
  fun s =>
    match m s with
    | (Ok a, s') => k a s'
    | (Raise e, s') => (Raise e, s')
    end.

(** [try: m  except Exception as e: h e] *)
Definition try_except {S A} (m : M S A) (h : exn -> M S A) : M S A :=
  fun s =>
    match m s with
    | (Ok a, s') => (Ok a, s')
    | (Raise e, s') => if is_Exception e then h e s' else (Raise e, s')
    end.

(** The exception that leaves [try: ... except Exception as e: raise mk(e)]
    when [e] was raised inside. *)
Definition rethrow (mk : exn -> exn) (e : exn) : exn :=
  if is_Exception e then mk e else e.

Definition gets {S A} (f : S -> A) : M S A := fun s => (Ok (f s), s).

Definition modify {S} (f : S -> S) : M S unit := fun s => (Ok tt, f s).

Declare Scope recall_scope.
Delimit Scope recall_scope with recall.
Notation "x <~ m ;; k" := (bind m (fun x => k))
  (at level 100, m at next level, right associativity) : recall_scope.
Notation "m ;;; k" := (bind m (fun _ => k))
  (at level 100, right associativity) : recall_scope.
Local Open Scope recall_scope.

(** ** Data model *)

(** Payload values of a stored point. *)
Inductive Value : Type :=
| VStr (s : str)
| VInt (n : Z)
| VFloat (x : Q).

(** One formatted hit, the dict built by the two search functions with the
    keys ["id"], ["score"], ["text"], ["timestamp"], ["content_type"] and
    ["metadata"]. *)
Record ScoredResult : Type := mkScoredResult {
  r_id : str;
  r_score : Q;
  r_text : Value;
  r_timestamp : Value;
  r_content_type : Value;
  r_metadata : gmap str Value
}.

(** [@dataclass SearchResult] *)
Record SearchResult : Type := mkSearchResult {
  sr_query : str;
  sr_results : list ScoredResult;
  sr_timestamp : Q;
  sr_username : str
}.

(** ** cache_manager.py *)

(** The [OrderedDict] operations used by the cache manager. *)
Module OrderedDict.

Abbreviation t := (list (str * SearchResult)).

Definition keys (d : t) : list str := d.*1.

Definition values (d : t) : list SearchResult := d.*2.

(** [k in d] *)
Definition mem (k : str) (d : t) : bool := bool_decide (k ∈ keys d).

(** [del d[k]] (the callers test [k in d] first) *)
Definition del (k : str) (d : t) : t :=
  filter (fun kv => kv.1 ≠ k) d.

(** [d[k] = v]: a present key keeps its position, a new key goes last. *)
Fixpoint setitem (k : str) (v : SearchResult) (d : t) : t :=
  match d with
  | [] => [(k, v)]
  | (k', v') :: d' =>
      if bool_decide (k' = k) then (k, v) :: d' else (k', v') :: setitem k v d'
  end.

End OrderedDict.

(** The in-memory part of [class CacheManager].  The two files written by
    [_save_search_cache] and [_save_user_modes] are write-only for the
    methods below and every failure to write is swallowed, so they are left
    out of the state. *)
Record CacheManager : Type := mkCacheManager {
  max_search_cache : Z;
  search_cache : OrderedDict.t
}.

Definition set_search_cache (d : OrderedDict.t) (cm : CacheManager) : CacheManager :=
  {| max_search_cache := max_search_cache cm; search_cache := d |}.

(** [cache_key = f"{username}:{query}"] *)
Definition cache_key (username query : str) : str :=
  username ++ ":" ++ query.

(** [CacheManager.__init__] followed by [_load_search_cache] on the decoded
    content of the cache file: the bound is not enforced while loading. *)
Definition load_search_cache (max : Z) (data : list SearchResult) : CacheManager :=
  {| max_search_cache := max;
     search_cache :=
       foldl (fun d result =>
                OrderedDict.setitem (cache_key (sr_username result) (sr_query result)) result d)
             [] data |}.

(** [while len(self.search_cache) > self.max_search_cache:
         self.search_cache.popitem(last=False)];
    [popitem] removes the first pair and raises [KeyError] on an empty
    dictionary. *)
Fixpoint evict_oldest (max : Z) (d : OrderedDict.t) : Result unit * OrderedDict.t :=
  if bool_decide (Z.of_nat (length d) > max)%Z then
    match d with
    | [] => (Raise (KeyError "'dictionary is empty'"), [])
    | _ :: d' => evict_oldest max d'
    end
  else (Ok tt, d).

(** [cache_search_result(self, query, results, username)]; [now] is the value
    read from [time.time()]. *)
Definition cache_search_result (now : Q) (query : str)
    (results : list ScoredResult) (username : str) : M CacheManager unit :=
  fun cm =>
    let cache_key := cache_key username query in
    let d := search_cache cm in
    let d := if OrderedDict.mem cache_key d then OrderedDict.del cache_key d else d in
    let result := {| sr_query := query; sr_results := results;
                     sr_timestamp := now; sr_username := username |} in
    let d := OrderedDict.setitem cache_key result d in
    let '(r, d) := evict_oldest (max_search_cache cm) d in
    (r, set_search_cache d cm).

(** [l[:n]] on a list: a negative [n] counts from the end. *)
Definition slice_to {A} (n : Z) (l : list A) : list A :=
  if bool_decide (n < 0)%Z then take (length l - Z.to_nat (- n)) l
  else take (Z.to_nat n) l.

(** [get_cached_searches(self, username, limit=5)] *)
Definition get_cached_searches (cm : CacheManager) (username : str) (limit : Z)
    : list SearchResult :=
  let user_searches :=
    filter (fun result => sr_username result = username)
           (OrderedDict.values (search_cache cm)) in
  slice_to limit (sort_desc sr_timestamp user_searches).

(** ** The Qdrant client

    [qdrant_client] is a third-party package.  Its server is modelled by a
    finite map from collection names to collections, with the behaviour the
    code relies on: [get_collection] raises for a missing collection,
    [create_collection] raises for an existing one, a point is replaced by
    an [upsert] of the same id, and a search with a [must]/[MatchValue]
    filter ranges over the points whose payload holds exactly that value. *)

Record Point : Type := mkPoint {
  p_vector : list Q;
  p_payload : gmap str Value
}.

Inductive PayloadSchemaType : Type := KEYWORD | FLOAT.

Record Collection : Type := mkCollection {
  c_size : Z;                                   (* [config.params.vectors.size] *)
  c_points : gmap str Point;                 (* by point id *)
  c_indexes : gmap str PayloadSchemaType     (* by field name *)
}.

(** A scored point returned by [client.search]. *)
Record Hit : Type := mkHit {
  h_id : str;
  h_score : Q;
  h_payload : gmap str Value
}.

Module Qdrant.

Abbreviation Server := (gmap str Collection).

Definition get_collection (name : str) : M Server Collection :=
  fun srv =>
    match srv !! name with
    | Some c => (Ok c, srv)
    | None => (Raise (QdrantError ("Collection " ++ name ++ " not found")), srv)
    end.

Definition delete_collection (name : str) : M Server unit :=
  fun srv => (Ok tt, delete name srv).

Definition create_collection (name : str) (size : Z) : M Server unit :=
  fun srv =>
    match srv !! name with
    | Some _ => (Raise (QdrantError ("Collection " ++ name ++ " already exists")), srv)
    | None => (Ok tt, <[name := {| c_size := size; c_points := ∅; c_indexes := ∅ |}]> srv)
    end.

Definition create_payload_index (name field : str) (schema : PayloadSchemaType)
    : M Server unit :=
  fun srv =>
    match srv !! name with
    | None => (Raise (QdrantError ("Collection " ++ name ++ " not found")), srv)
    | Some c =>
        (Ok tt, <[name := {| c_size := c_size c; c_points := c_points c;
                             c_indexes := <[field := schema]> (c_indexes c) |}]> srv)
    end.

Definition upsert (name id : str) (vector : list Q) (payload : gmap str Value)
    : M Server unit :=
  fun srv =>
    match srv !! name with
    | None => (Raise (QdrantError ("Collection " ++ name ++ " not found")), srv)
    | Some c =>
        if bool_decide (Z.of_nat (length vector) = c_size c) then
          (Ok tt, <[name := {| c_size := c_size c;
                               c_points := <[id := {| p_vector := vector; p_payload := payload |}]> (c_points c);
                               c_indexes := c_indexes c |}]> srv)
        else (Raise (QdrantError "Vector dimension error"), srv)
    end.

(** [FieldCondition(key=..., match=MatchValue(value=...))] on a keyword. *)
Definition field_matches (key value : str) (payload : gmap str Value) : bool :=
  match payload !! key with
  | Some (VStr s) => bool_decide (s = value)
  | _ => false
  end.

Definition above_threshold (score_threshold : option Q) (score : Q) : bool :=
  match score_threshold with
  | None => true
  | Some th => Qle_bool th score
  end.

Section Search.
Context (similarity : list Q -> list Q -> Q).

(** The hits of a filtered search: the points that pass the filter and the
    threshold, best score first, cut at [limit]. *)
Definition select (c : Collection) (query_vector : list Q) (key value : str)
    (limit : Z) (score_threshold : option Q) : list Hit :=
  let matching :=
    filter (fun ip => field_matches key value (p_payload ip.2) = true)
           (map_to_list (c_points c)) in
  let scored :=
    map (fun ip => {| h_id := ip.1;
                      h_score := similarity query_vector (p_vector ip.2);
                      h_payload := p_payload ip.2 |}) matching in
  let kept := filter (fun h => above_threshold score_threshold (h_score h) = true) scored in
  take (Z.to_nat limit) (sort_desc h_score kept).

Definition search (name : str) (query_vector : list Q) (key value : str)
    (limit : Z) (score_threshold : option Q) : M Server (list Hit) :=
  fun srv =>
    match srv !! name with
    | None => (Raise (QdrantError ("Collection " ++ name ++ " not found")), srv)
    | Some c =>
        if bool_decide (Z.of_nat (length query_vector) = c_size c) then
          (Ok (select c query_vector key value limit score_threshold), srv)
        else (Raise (QdrantError "Vector dimension error"), srv)
    end.
End Search.

End Qdrant.

(** ** The AI backends

    The wire formats are kept as request values; what a backend answers is
    left open (see the oracles of the section below). *)

Record Message : Type := mkMessage {
  role : str;
  content : str
}.

Inductive ChatRequest : Type :=
| OpenAIChat (model : str) (messages : list Message) (max_tokens : Z)
| GeminiChat (model : str) (contents : list Message) (max_output_tokens : Z)
| ClaudeChat (model : str) (system : str) (messages : list Message) (max_tokens : Z).

Inductive EmbedRequest : Type :=
| OpenAIEmbed (model : str) (input : str)
| GeminiEmbed (model : str) (text : str)
| FallbackEmbed (model : str) (input : str).

(** ** The process state *)

Record World : Type := mkWorld {
  cache_manager : CacheManager;         (* the global [cache_manager] *)
  qdrant : Qdrant.Server;               (* what [get_qdrant_client()] talks to *)
  ticks : nat;                          (* reads of [time.time()] so far *)
  uuids : nat;                          (* calls of [uuid.uuid4()] so far *)
  embed_log : list EmbedRequest;        (* requests sent to an embedding backend *)
  chat_log : list ChatRequest;          (* requests sent to a chat backend *)
  search_log : nat                      (* calls of [client.search] *)
}.

Definition set_cache_manager (cm : CacheManager) (w : World) : World :=
  {| cache_manager := cm; qdrant := qdrant w; ticks := ticks w; uuids := uuids w;
     embed_log := embed_log w; chat_log := chat_log w; search_log := search_log w |}.

Definition set_qdrant (srv : Qdrant.Server) (w : World) : World :=
  {| cache_manager := cache_manager w; qdrant := srv; ticks := ticks w; uuids := uuids w;
     embed_log := embed_log w; chat_log := chat_log w; search_log := search_log w |}.

Definition tick (w : World) : World :=
  {| cache_manager := cache_manager w; qdrant := qdrant w; ticks := S (ticks w);
     uuids := uuids w; embed_log := embed_log w; chat_log := chat_log w;
     search_log := search_log w |}.

Definition next_uuid (w : World) : World :=
  {| cache_manager := cache_manager w; qdrant := qdrant w; ticks := ticks w;
     uuids := S (uuids w); embed_log := embed_log w; chat_log := chat_log w;
     search_log := search_log w |}.

Definition log_embed (req : EmbedRequest) (w : World) : World :=
  {| cache_manager := cache_manager w; qdrant := qdrant w; ticks := ticks w;
     uuids := uuids w; embed_log := embed_log w ++ [req]; chat_log := chat_log w;
     search_log := search_log w |}.

Definition log_chat (req : ChatRequest) (w : World) : World :=
  {| cache_manager := cache_manager w; qdrant := qdrant w; ticks := ticks w;
     uuids := uuids w; embed_log := embed_log w; chat_log := chat_log w ++ [req];
     search_log := search_log w |}.

Definition log_search (w : World) : World :=
  {| cache_manager := cache_manager w; qdrant := qdrant w; ticks := ticks w;
     uuids := uuids w; embed_log := embed_log w; chat_log := chat_log w;
     search_log := S (search_log w) |}.

(** Run a computation of the Qdrant server inside the process. *)
Definition on_qdrant {A} (m : M Qdrant.Server A) : M World A :=
  fun w => let '(r, srv) := m (qdrant w) in (r, set_qdrant srv w).

(** Run a method of the global [cache_manager]. *)
Definition on_cache {A} (m : M CacheManager A) : M World A :=
  fun w => let '(r, cm) := m (cache_manager w) in (r, set_cache_manager cm w).

(** ** utils.py *)

(** [get_embedding_dimensions]: the table and its two defaults. *)
Definition dimensions_map : gmap str (gmap str Z) :=
  list_to_map
    [ ("OpenAI", list_to_map [ ("text-embedding-ada-002", 1536%Z);
                               ("text-embedding-3-small", 1536%Z);
                               ("text-embedding-3-large", 3072%Z) ]);
      ("Gemini", list_to_map [ ("text-embedding-004", 768%Z);
                               ("embedding-001", 768%Z);
                               ("embedding-gecko-001", 768%Z) ]);
      ("Claude", list_to_map [ ("text-embedding-ada-002", 1536%Z) ]);
      ("GitHub", list_to_map [ ("text-embedding-ada-002", 1536%Z);
                               ("text-embedding-3-small", 1536%Z) ]);
      ("Custom", list_to_map [ ("default", 1536%Z) ]) ].

Definition get_embedding_dimensions (provider embedding_model : str) : Z :=
  let provider_models := default ∅ (dimensions_map !! provider) in
  default 1536%Z (provider_models !! embedding_model).

(** The message returned when there is nothing to answer from. *)
Definition NO_INFORMATION : str :=
  "I couldn't find any relevant information in your knowledge base for this query.".

Definition CACHED_SYSTEM_PROMPT : str :=
  Str.join Str.nl
    [ "You are a helpful assistant that answers questions based on the user's personal knowledge base. ";
      "                            When the user asks to " ++ Str.dquote ++ "list all" ++ Str.dquote ++ " or for multiple items, provide a comprehensive list showing ALL relevant results found.";
      "                            For each item, include the website name/URL and key details.";
      "                            Provide direct, clean answers without any formatting like 'Your Question:', 'Answer:', or markdown symbols like **. ";
      "                            If referring to files or links, present them clearly with proper formatting. ";
      "                            Keep responses organized and helpful. If you don't have the information, simply say so." ].

Definition FRESH_SYSTEM_PROMPT : str :=
  Str.join Str.nl
    [ "You are a helpful assistant that answers questions based on the user's personal knowledge base. ";
      "                When the user asks to " ++ Str.dquote ++ "list all" ++ Str.dquote ++ " or for multiple items, provide a comprehensive list showing ALL relevant results found.";
      "                For each item, include the website name/URL and key details.";
      "                Provide direct, clean answers without any formatting like 'Your Question:', 'Answer:', or markdown symbols like **. ";
      "                If referring to files or links, present them clearly with proper formatting. ";
      "                Keep responses organized and helpful. If you don't have the information, simply say so.";
      "                ";
      "                Special handling:";
      "                - If a website shows 404 or access errors, mention it but still include it in the list";
      "                - Focus on providing complete information rather than just mentioning one result";
      "                - Group similar items together when appropriate" ].

(** The dict comprehension and the [payload.get] calls that format one hit. *)
Definition format_hit (hit : Hit) : ScoredResult :=
  {| r_id := h_id hit;
     r_score := h_score hit;
     r_text := default (VStr "") (h_payload hit !! "text");
     r_timestamp := default (VInt 0) (h_payload hit !! "timestamp");
     r_content_type := default (VStr "general") (h_payload hit !! "content_type");
     r_metadata :=
       filter (fun kv => kv.1 ∉ ["text"; "username"; "timestamp"; "content_type"])
              (h_payload hit) |}.

(** The condition of the loop of [search_cache_first]. *)
Definition query_matches {U : Unicode} (query : str) (cached_search : SearchResult) : bool :=
  bool_decide (Str.lower (sr_query cached_search) = Str.lower query)
  || (bool_decide (Str.len query > 10)%Z
      && Str.contains (Str.lower query) (Str.lower (sr_query cached_search)))
  || (bool_decide (Str.len (sr_query cached_search) > 10)%Z
      && Str.contains (Str.lower (sr_query cached_search)) (Str.lower query)).

(** [any(word in query.lower() for word in [...])] and the doubled limit. *)
Definition comprehensive_limit {U : Unicode} (query : str) (limit : Z) : Z :=
  if existsb (fun word => Str.contains word (Str.lower query))
             ["all"; "list"; "every"; "entire"; "complete"]
  then Z.min (limit * 2) 20
  else limit.

(** [config.ai], and what the outside world answers: the clock, the uuid
    generator, the two AI backends (the number is the count of earlier
    requests, so that a backend may answer the same request differently
    later), the similarity of the collection (cosine) and the formatting of
    floats. *)
Record Env : Type := mkEnv {
  env_provider : str;
  env_model : str;
  env_embedding_model : str;
  env_qdrant_collection_name : str;
  env_clock : nat -> Q;
  env_uuid4 : nat -> str;
  env_embedding_backend : nat -> EmbedRequest -> Result (list Q);
  env_chat_backend : nat -> ChatRequest -> Result str;
  env_similarity : list Q -> list Q -> Q;
  env_format_3f : Q -> str;
  env_str_float : Q -> str
}.

Section Engine.
Context {U : Unicode} (env : Env).

Local Abbreviation provider := (env_provider env).
Local Abbreviation model := (env_model env).
Local Abbreviation embedding_model := (env_embedding_model env).
Local Abbreviation qdrant_collection_name := (env_qdrant_collection_name env).
Local Abbreviation clock := (env_clock env).
Local Abbreviation uuid4 := (env_uuid4 env).
Local Abbreviation embedding_backend := (env_embedding_backend env).
Local Abbreviation chat_backend := (env_chat_backend env).
Local Abbreviation similarity := (env_similarity env).
Local Abbreviation format_3f := (env_format_3f env).
Local Abbreviation str_float := (env_str_float env).

(** [time.time()]; the reads that only feed log lines are not modelled. *)
Definition time_time : M World Q :=
  fun w => (Ok (clock (ticks w)), tick w).

(** [str(uuid.uuid4())] *)
Definition new_uuid : M World str :=
  fun w => (Ok (uuid4 (uuids w)), next_uuid w).

Definition send_embed (req : EmbedRequest) : M World (list Q) :=
  fun w => (embedding_backend (length (embed_log w)) req, log_embed req w).

Definition send_chat (req : ChatRequest) : M World str :=
  fun w => (chat_backend (length (chat_log w)) req, log_chat req w).

(** [str(v)] for a payload value inside an f-string. *)
Definition str_value (v : Value) : str :=
  match v with
  | VStr s => s
  | VInt n => str_of n
  | VFloat x => str_float x
  end.

Definition _ensure_indexes_exist (collection_name : str) : M World unit :=
  try_except
    (on_qdrant (Qdrant.create_payload_index collection_name "username" KEYWORD) ;;;
     on_qdrant (Qdrant.create_payload_index collection_name "content_type" KEYWORD) ;;;
     on_qdrant (Qdrant.create_payload_index collection_name "timestamp" FLOAT))
    (fun _ => ret tt).

Definition _create_collection_with_indexes (collection_name : str) (dimensions : Z)
    : M World unit :=
  on_qdrant (Qdrant.create_collection collection_name dimensions) ;;;
  _ensure_indexes_exist collection_name.

Definition ensure_collection_exists (collection_name : str) : M World unit :=
  try_except
    (collection_info <~ on_qdrant (Qdrant.get_collection collection_name) ;;
     let expected_dims := get_embedding_dimensions provider embedding_model in
     let actual_dims := c_size collection_info in
     if bool_decide (actual_dims ≠ expected_dims) then
       on_qdrant (Qdrant.delete_collection collection_name) ;;;
       _create_collection_with_indexes collection_name expected_dims
     else
       _ensure_indexes_exist collection_name)
    (fun _ =>
       let expected_dims := get_embedding_dimensions provider embedding_model in
       _create_collection_with_indexes collection_name expected_dims).

(** The Gemini wire format knows the roles [user] and [model] only. *)
Definition gemini_contents (messages : list Message) : list Message :=
  map (fun msg => {| role := if bool_decide (role msg = "user") then "user" else "model";
                     content := content msg |}) messages.

(** The Claude wire format takes the last system message apart. *)
Definition claude_system (messages : list Message) : str :=
  foldl (fun system_msg msg =>
           if bool_decide (role msg = "system") then content msg else system_msg)
        "" messages.

Definition claude_messages (messages : list Message) : list Message :=
  filter (fun msg => role msg ≠ "system") messages.

(** [chat_completion(messages, max_tokens)].  [get_ai_client()] is called
    before the [try] and has no client for a provider outside the five. *)
Definition chat_completion (messages : list Message) (max_tokens : Z) : M World str :=
  if bool_decide (provider ∈ ["OpenAI"; "GitHub"; "Custom"; "Gemini"; "Claude"]) then
    try_except
      (if bool_decide (provider ∈ ["OpenAI"; "GitHub"; "Custom"]) then
         send_chat (OpenAIChat model messages max_tokens)
       else if bool_decide (provider = "Gemini") then
         send_chat (GeminiChat model (gemini_contents messages) max_tokens)
       else
         send_chat (ClaudeChat model (claude_system messages)
                               (claude_messages messages) max_tokens))
      (fun e => raise (AIServiceError
                         ("Chat completion failed with " ++ provider ++ ": " ++ str_exn e)))
  else raise (KeyError ("'" ++ provider ++ "'")).

(** [generate_embedding(text)]; [text] is a [str], as the signature says.
    The handler also writes a log line, which is not modelled. *)
Definition generate_embedding (text : str) : M World (list Q) :=
  try_except
    (let cleaned_text := Str.strip text in
     if bool_decide (cleaned_text = "") then raise (ValueError "Text cannot be empty")
     else
       let cleaned_text :=
         if bool_decide (Str.len cleaned_text > 8000)%Z
         then Str.slice_to (Z.to_nat 8000) cleaned_text else cleaned_text in
       if bool_decide (provider ∈ ["OpenAI"; "GitHub"; "Custom"]) then
         send_embed (OpenAIEmbed embedding_model cleaned_text)
       else if bool_decide (provider = "Gemini") then
         send_embed (GeminiEmbed embedding_model cleaned_text)
       else
         send_embed (FallbackEmbed "text-embedding-ada-002" cleaned_text))
    (fun e => raise (AIServiceError
                       ("Failed to generate embedding with " ++ provider ++ ": " ++ str_exn e))).

(** [store_in_vector_db(embedding, text, username, metadata=None)];
    [payload.update(metadata)] lets the keys of [metadata] win. *)
Definition store_in_vector_db (embedding : list Q) (text username : str)
    (metadata : option (gmap str Value)) : M World str :=
  let collection_name := qdrant_collection_name in
  try_except
    (ensure_collection_exists collection_name ;;;
     point_id <~ new_uuid ;;
     now <~ time_time ;;
     let payload : gmap str Value :=
       {[ "text" := VStr text; "username" := VStr username;
          "timestamp" := VFloat now; "content_type" := VStr "general" ]} in
     let payload :=
       match metadata with
       | Some metadata => metadata ∪ payload
       | None => payload
       end in
     on_qdrant (Qdrant.upsert collection_name point_id embedding payload) ;;;
     ret point_id)
    (fun e => raise (DatabaseError
                       ("Failed to store in vector database: " ++ str_exn e))).

(** [get_qdrant_client().search(..., query_filter=user_filter, ...)] with the
    filter [must=[FieldCondition(key="username", match=MatchValue(username))]]. *)
Definition client_search (collection_name : str) (query_vector : list Q)
    (username : str) (limit : Z) (score_threshold : option Q) : M World (list Hit) :=
  modify log_search ;;;
  on_qdrant (Qdrant.search similarity collection_name query_vector
                           "username" username limit score_threshold).

(** [search_vector_db_enhanced(query_embedding, username, limit=10)] *)
Definition search_vector_db_enhanced (query_embedding : list Q) (username : str)
    (limit : Z) : M World (list ScoredResult) :=
  let collection_name := qdrant_collection_name in
  try_except
    (ensure_collection_exists collection_name ;;;
     search_result <~ client_search collection_name query_embedding username limit
                                    (Some (3 # 10)) ;;
     let results := map format_hit search_result in
     ret results)
    (fun e => raise (DatabaseError
                       ("Failed to search vector database: " ++ str_exn e))).

(** [search_vector_db(query_embedding, username, limit=5)] *)
Definition search_vector_db (query_embedding : list Q) (username : str)
    (limit : Z) : M World (list ScoredResult) :=
  let collection_name := qdrant_collection_name in
  try_except
    (ensure_collection_exists collection_name ;;;
     search_result <~ client_search collection_name query_embedding username limit None ;;
     let results := map format_hit search_result in
     ret results)
    (fun e => raise (DatabaseError
                       ("Failed to search vector database: " ++ str_exn e))).

(** The context block: one paragraph per result, numbered from 1. *)
Definition build_context (results : list ScoredResult) : str :=
  Str.join (Str.nl ++ Str.nl)
    (imap (fun i result =>
             "Content " ++ str_of (i + 1)%nat ++ " (relevance: "
             ++ format_3f (r_score result) ++ "):" ++ Str.nl
             ++ str_value (r_text result)) results).

Definition build_messages (system_prompt context query : str) : list Message :=
  [ {| role := "system"; content := system_prompt |};
    {| role := "user";
       content := "Context:" ++ Str.nl ++ context ++ Str.nl ++ Str.nl
                  ++ "Question: " ++ query |} ].

(** [cache_manager.cache_search_result(query, results, username)] on the
    global instance. *)
Definition cache_put (query : str) (results : list ScoredResult) (username : str)
    : M World unit :=
  now <~ time_time ;;
  on_cache (cache_search_result now query results username).

(** [query_knowledge_base(query, username, limit=10)] *)
Definition query_knowledge_base (query username : str) (limit : Z) : M World str :=
  try_except
    (let limit := comprehensive_limit query limit in
     query_embedding <~ generate_embedding query ;;
     search_results <~ search_vector_db_enhanced query_embedding username limit ;;
     match search_results with
     | [] => ret NO_INFORMATION
     | _ :: _ =>
         cache_put query search_results username ;;;
         let context := build_context search_results in
         let messages := build_messages FRESH_SYSTEM_PROMPT context query in
         result <~ chat_completion messages 800 ;;
         ret result
     end)
    (fun e => raise (AIServiceError
                       ("Failed to query knowledge base: " ++ str_exn e))).

(** The body of the loop of [search_cache_first] once its condition holds. *)
Definition answer_from_cache (query username : str) (cached_search : SearchResult)
    : M World str :=
  cache_put query (sr_results cached_search) username ;;;
  match sr_results cached_search with
  | _ :: _ =>
      let context := build_context (sr_results cached_search) in
      let messages := build_messages CACHED_SYSTEM_PROMPT context query in
      result <~ chat_completion messages 800 ;;
      ret result
  | [] => ret NO_INFORMATION
  end.

(** [for cached_search in cached_searches: ...] followed by the fall-back to
    the vector search. *)
Fixpoint scan_cached_searches (query username : str) (limit : Z)
    (cached_searches : list SearchResult) : M World str :=
  match cached_searches with
  | [] => query_knowledge_base query username limit
  | cached_search :: rest =>
      if query_matches query cached_search
      then answer_from_cache query username cached_search
      else scan_cached_searches query username limit rest
  end.

(** [search_cache_first(query, username, limit=10)] *)
Definition search_cache_first (query username : str) (limit : Z) : M World str :=
  try_except
    (cached_searches <~ gets (fun w => get_cached_searches (cache_manager w) username 20) ;;
     scan_cached_searches query username limit cached_searches)
    (fun e => raise (AIServiceError
                       ("Failed to search with cache-first logic: " ++ str_exn e))).

End Engine.

(** ** cache_manager.py, the remaining methods *)

(** [@dataclass UserMode] *)
Record UserMode : Type := mkUserMode {
  um_user_id : Z;
  um_mode : str;
  um_timestamp : Q
}.

(** [class CacheManager] with both of its caches; [CacheManager] above is
    its search-cache part.  [user_modes] is only looked up, updated and
    searched for one key, so its iteration order is left out. *)
Record Manager : Type := mkManager {
  searches : CacheManager;
  user_modes : gmap Z UserMode
}.

Definition set_searches (cm : CacheManager) (m : Manager) : Manager :=
  {| searches := cm; user_modes := user_modes m |}.

Definition set_user_modes (modes : gmap Z UserMode) (m : Manager) : Manager :=
  {| searches := searches m; user_modes := modes |}.

(** [x < y] on floats. *)
Definition Qlt_bool (x y : Q) : bool := negb (Qle_bool y x).

(** A string is true when it is not empty. *)
Definition truthy (s : str) : bool := negb (bool_decide (s = "")).

(** [for key in to_remove: del self.search_cache[key]]; the keys come from
    the dictionary itself. *)
Definition del_all (to_remove : list str) (d : OrderedDict.t) : OrderedDict.t :=
  foldl (fun d key => OrderedDict.del key d) d to_remove.

(** [clear_old_cache(self, max_age_days=7)]; [now] is the value read from
    [time.time()]. *)
Definition clear_old_cache (now : Q) (max_age_days : Z) (cm : CacheManager)
    : CacheManager :=
  let cutoff_time := (now - inject_Z (max_age_days * 24 * 60 * 60))%Q in
  let to_remove :=
    map fst (filter (fun kv => Qlt_bool (sr_timestamp kv.2) cutoff_time = true)
                    (search_cache cm)) in
  set_search_cache (del_all to_remove (search_cache cm)) cm.

(** [clear_user_search_cache(self, username, search_terms)] *)
Definition clear_user_search_cache {U : Unicode} (username search_terms : str)
    (cm : CacheManager) : CacheManager :=
  let search_terms_lower := Str.lower search_terms in
  let to_remove :=
    map fst
      (filter (fun kv => sr_username kv.2 = username /\
                         Str.contains search_terms_lower
                           (Str.lower (sr_query kv.2)) = true)
              (search_cache cm)) in
  set_search_cache (del_all to_remove (search_cache cm)) cm.

(** The loop of [clear_all_user_cache] that looks for the user id whose
    decimal form is the user name. *)
Definition find_user_id (username : str) (modes : gmap Z UserMode) : option Z :=
  fst <$> find (fun um => truthy (um_mode um.2) && bool_decide (str_of um.1 = username))
               (map_to_list modes).

(** [clear_all_user_cache(self, username)]; [if user_id_to_remove:] is
    false for [None] and for the id 0. *)
Definition clear_all_user_cache (username : str) (m : Manager) : Manager :=
  let to_remove :=
    map fst (filter (fun kv => sr_username kv.2 = username)
                    (search_cache (searches m))) in
  let cm := set_search_cache (del_all to_remove (search_cache (searches m))) (searches m) in
  let user_id_to_remove := find_user_id username (user_modes m) in
  let modes :=
    match user_id_to_remove with
    | Some user_id =>
        if bool_decide (user_id ≠ 0%Z) then delete user_id (user_modes m) else user_modes m
    | None => user_modes m
    end in
  {| searches := cm; user_modes := modes |}.

(** [set_user_mode(self, user_id, mode)] *)
Definition set_user_mode (now : Q) (user_id : Z) (mode : str) (m : Manager) : Manager :=
  set_user_modes
    (<[user_id := {| um_user_id := user_id; um_mode := mode; um_timestamp := now |}]>
       (user_modes m)) m.

(** [get_user_mode(self, user_id)] *)
Definition get_user_mode (user_id : Z) (m : Manager) : option str :=
  match user_modes m !! user_id with
  | Some mode => Some (um_mode mode)
  | None => None
  end.

(** [get_cache_stats(self, username=None)]: the dict it returns.  An empty
    user name is false and gives the totals. *)
Definition get_cache_stats (username : option str) (m : Manager) : gmap str Z :=
  match username with
  | Some username =>
      if truthy username then
        let user_searches :=
          Z.of_nat (length (filter (fun result => sr_username result = username)
                                   (OrderedDict.values (search_cache (searches m))))) in
        let user_mode :=
          if existsb (fun um => truthy (um_mode um.2))
                     (filter (fun um => str_of um.1 = username) (map_to_list (user_modes m)))
          then 1%Z else 0%Z in
        {[ "total_searches" := user_searches; "user_mode_saved" := user_mode ]}
      else
        {[ "total_searches" := Z.of_nat (length (search_cache (searches m)));
           "total_user_modes" := Z.of_nat (size (user_modes m)) ]}
  | None =>
      {[ "total_searches" := Z.of_nat (length (search_cache (searches m)));
         "total_user_modes" := Z.of_nat (size (user_modes m)) ]}
  end.

(** [result.get('text', '')[:200]] with the dots after a full snippet;
    [None] stands for the [TypeError] of a text that is not a string. *)
Definition chat_snippet (result : ScoredResult) : option str :=
  match r_text result with
  | VStr text =>
      let snippet := Str.slice_to 200 text in
      Some (if bool_decide (Str.len snippet = 200%Z) then snippet ++ "..." else snippet)
  | _ => None
  end.

(** The two-character sequence backslash, n that the method writes where a
    line break was meant. *)
Definition backslash_n : str := 92%N :: "n".

(** The lines of one search: its query and its first two results. *)
Definition chat_search_parts (i : nat) (search : SearchResult) : option (list str) :=
  snippets ← mapM chat_snippet (take 2 (sr_results search));
  Some ((backslash_n ++ "Search " ++ str_of (i + 1)%nat ++ ": " ++ sr_query search)
        :: imap (fun j snippet => "  Result " ++ str_of (j + 1)%nat ++ ": " ++ snippet)
                snippets).

(** [get_search_context_for_chat(self, username)] *)
Definition get_search_context_for_chat (cm : CacheManager) (username : str)
    : option str :=
  let recent_searches := get_cached_searches cm username 3 in
  match recent_searches with
  | [] => Some ""
  | _ :: _ =>
      parts ← mapM (fun p => chat_search_parts p.1 p.2) (imap pair recent_searches);
      Some (Str.join backslash_n
              ("Recent search context (for reference only):" :: concat parts))
  end.

(** ** utils.py and processors.py, further functions *)

(** [client.delete(collection_name, points_selector=point_ids)] of the
    Qdrant client: the points of these ids are removed, an id without a
    point is passed over. *)
Definition qdrant_delete (name : str) (point_ids : list str) : M Qdrant.Server unit :=
  fun srv =>
    match srv !! name with
    | None => (Raise (QdrantError ("Collection " ++ name ++ " not found")), srv)
    | Some c =>
        (Ok tt, <[name := {| c_size := c_size c;
                             c_points := foldr delete (c_points c) point_ids;
                             c_indexes := c_indexes c |}]> srv)
    end.

(** [a == b] on payload values, the comparison of the keys of a dict: an
    integer equals the float of the same value, a string only a string. *)
Definition value_eqb (a b : Value) : bool :=
  match a, b with
  | VStr s, VStr t => bool_decide (s = t)
  | VInt m, VInt n => bool_decide (m = n)
  | VFloat x, VFloat y => Qeq_bool x y
  | VInt m, VFloat y => Qeq_bool (inject_Z m) y
  | VFloat x, VInt n => Qeq_bool x (inject_Z n)
  | _, _ => false
  end.

(** [content_types[k] = content_types.get(k, 0) + 1] on a dict in insertion
    order. *)
Fixpoint count_content_type (k : Value) (d : list (Value * Z)) : list (Value * Z) :=
  match d with
  | [] => [(k, 1%Z)]
  | (k', n) :: d' =>
      if value_eqb k' k then (k', (n + 1)%Z) :: d' else (k', n) :: count_content_type k d'
  end.

(** The name of the type of a value in the message of a Python error. *)
Definition type_name (v : Value) : str :=
  match v with
  | VStr _ => "str"
  | VInt _ => "int"
  | VFloat _ => "float"
  end.

(** [hit.payload.get("text", "").lower()].  A number has no [lower]: the
    [AttributeError] is caught by the handler of the caller, which keeps its
    message only; it is carried by a [ValueError] here, the type [exn]
    having no constructor of its own for it. *)
Definition payload_text_lower {U : Unicode} (payload : gmap str Value) : Result str :=
  match default (VStr "") (payload !! "text") with
  | VStr text => Ok (Str.lower text)
  | v => Raise (ValueError ("'" ++ type_name v ++ "' object has no attribute 'lower'"))
  end.

(** The loop that keeps the hits whose text holds the search terms. *)
Fixpoint matching_hits {U : Unicode} (search_terms_lower : str) (search_results : list Hit)
    : Result (list Hit) :=
  match search_results with
  | [] => Ok []
  | hit :: rest =>
      match payload_text_lower (h_payload hit) with
      | Raise e => Raise e
      | Ok text =>
          match matching_hits search_terms_lower rest with
          | Raise e => Raise e
          | Ok matching =>
              Ok (if Str.contains search_terms_lower text then hit :: matching
                  else matching)
          end
      end
  end.

(** A pure step that may raise, inside the process. *)
Definition in_world {A} (r : Result A) : M World A := fun w => (r, w).

(** The mark that starts a line of the summary: the three code points
    U+00E2, U+20AC and U+00A2 of the source. *)
Definition summary_mark : str := [226; 8364; 162]%N.

Section Engine2.
Context {U : Unicode} (env : Env).

(** [summarize_text(text, max_length=500)] *)
Definition summarize_text (text : str) (max_length : Z) : M World str :=
  try_except
    (let messages :=
       [ {| role := "system";
            content := "Summarize the following text in no more than " ++ str_of max_length
                       ++ " characters. Keep the key information and main points." |};
         {| role := "user"; content := text |} ] in
     result <~ chat_completion env messages 150 ;;
     ret result)
    (fun e => raise (AIServiceError ("Failed to summarize text: " ++ str_exn e))).

(** [clear_all_memories(username, preview_only=True)]; the search is made
    with a vector of zeros and without payload, only the ids are used. *)
Definition clear_all_memories (username : str) (preview_only : bool) : M World Z :=
  let collection_name := env_qdrant_collection_name env in
  try_except
    (ensure_collection_exists env collection_name ;;;
     search_results <~
       client_search env collection_name
         (replicate (Z.to_nat (get_embedding_dimensions (env_provider env)
                                                        (env_embedding_model env))) 0%Q)
         username 10000 None ;;
     let total_count := Z.of_nat (length search_results) in
     if preview_only then ret total_count
     else if bool_decide (total_count = 0%Z) then ret 0%Z
     else
       let point_ids := map h_id search_results in
       on_qdrant (qdrant_delete collection_name point_ids) ;;;
       ret total_count)
    (fun e => raise (DatabaseError ("Failed to clear all memories: " ++ str_exn e))).

(** [process_text(text, username)] of processors.py: a text that starts
    with a question word is answered, any other text is stored.  There is no
    handler, exceptions leave as they are. *)
Definition process_text (text username : str) : M World str :=
  if existsb (fun prefix => Str.startswith prefix (Str.lower text))
             ["what"; "how"; "why"; "when"; "where"; "who"]
  then query_knowledge_base env text username 10
  else
    embedding <~ generate_embedding env text ;;
    store_in_vector_db env embedding text username None ;;;
    ret "Text processed and stored".

(** One line of the preview of [delete_memories_by_terms]; the text of a
    matching hit is a string, any other value could not be sliced. *)
Definition preview_line (i : nat) (hit : Hit) : Result str :=
  match default (VStr "") (h_payload hit !! "text") with
  | VStr text =>
      let text_snippet := Str.slice_to 100 text in
      let text_snippet :=
        if bool_decide (Str.len text_snippet = 100%Z) then text_snippet ++ "..."
        else text_snippet in
      let content_type := default (VStr "general") (h_payload hit !! "content_type") in
      Ok (str_of (i + 1)%nat ++ ". [" ++ str_value env content_type ++ "] "
          ++ text_snippet)
  | v => Raise (ValueError ("'" ++ type_name v ++ "' object is not subscriptable"))
  end.

Fixpoint preview_lines (i : nat) (hits : list Hit) : Result (list str) :=
  match hits with
  | [] => Ok []
  | hit :: rest =>
      match preview_line i hit with
      | Raise e => Raise e
      | Ok line =>
          match preview_lines (S i) rest with
          | Raise e => Raise e
          | Ok lines => Ok (line :: lines)
          end
      end
  end.

(** [delete_memories_by_terms(search_terms, username, preview_only=True)] *)
Definition delete_memories_by_terms (search_terms username : str)
    (preview_only : bool) : M World (Z * str) :=
  let collection_name := env_qdrant_collection_name env in
  try_except
    (ensure_collection_exists env collection_name ;;;
     query_embedding <~ generate_embedding env search_terms ;;
     search_results <~
       client_search env collection_name query_embedding username 1000 (Some (1 # 10)) ;;
     let search_terms_lower := Str.lower search_terms in
     matching_results <~ in_world (matching_hits search_terms_lower search_results) ;;
     match matching_results with
     | [] => ret (0%Z, "No matching memories found.")
     | _ :: _ =>
         if preview_only then
           lines <~ in_world (preview_lines 0 (take 5 matching_results)) ;;
           let lines :=
             if bool_decide (5 < length matching_results)%nat
             then lines ++ ["... and " ++ str_of (length matching_results - 5)%nat
                            ++ " more memories"]
             else lines in
           ret (Z.of_nat (length matching_results), Str.join Str.nl lines)
         else
           let point_ids := map h_id matching_results in
           on_qdrant (qdrant_delete collection_name point_ids) ;;;
           let content_types :=
             foldl (fun d hit =>
                      count_content_type
                        (default (VStr "general") (h_payload hit !! "content_type")) d)
                   [] matching_results in
           let summary_parts :=
             map (fun cn => summary_mark ++ " " ++ str_of cn.2 ++ " "
                            ++ str_value env cn.1 ++ " memories") content_types in
           ret (Z.of_nat (length matching_results), Str.join Str.nl summary_parts)
     end)
    (fun e => raise (DatabaseError ("Failed to delete memories: " ++ str_exn e))).

End Engine2.

(** What an [OrderedDict] filled by the cache manager looks like: no key
    twice, and every entry under the key built from its own owner and
    query. *)
Definition well_keyed (d : OrderedDict.t) : Prop :=
  NoDup (OrderedDict.keys d) /\
  Forall (fun kv => kv.1 = cache_key (sr_username kv.2) (sr_query kv.2)) d.

(** ** The fuzzy-match condition in the words of the specification

    "Exact case-insensitive equality, OR the new query (if longer than 10
    chars) is a substring of a cached query, OR a cached query (if longer
    than 10 chars) is a substring of the new query", the substring being
    taken case-insensitively as well.  Strings are compared without case
    through their lower-cased forms; characters are code points.  The
    condition is compared with [query_matches], the test of the code,
    below. *)

Definition is_substring (needle hay : str) : Prop :=
  exists before after, hay = before ++ needle ++ after.

Definition same_ignoring_case {U : Unicode} (a b : str) : Prop :=
  unicode_lower a = unicode_lower b.

Definition substring_ignoring_case {U : Unicode} (needle hay : str) : Prop :=
  is_substring (unicode_lower needle) (unicode_lower hay).

Definition longer_than (n : nat) (s : str) : Prop := (n < length s)%nat.

Definition FuzzyMatch {U : Unicode} (query : str) (cached : SearchResult) : Prop :=
  same_ignoring_case (sr_query cached) query
  \/ (longer_than 10 query /\ substring_ignoring_case query (sr_query cached))
  \/ (longer_than 10 (sr_query cached) /\ substring_ignoring_case (sr_query cached) query).

(** Newest first: no entry is followed by one with a later time stamp. *)
Definition newest_first (l : list SearchResult) : Prop :=
  StronglySorted (fun a b => (sr_timestamp b <= sr_timestamp a)%Q) l.

(** The indexes provisioned by [_ensure_indexes_exist], over those a
    collection already has. *)
Definition with_required_indexes (indexes : gmap str PayloadSchemaType)
    : gmap str PayloadSchemaType :=
  <["timestamp" := FLOAT]> (<["content_type" := KEYWORD]> (<["username" := KEYWORD]> indexes)).

(** ** Example data *)

(** The case table of the examples: the capital letters of Basic Latin and
    of Latin-1 Supplement go to their small letters, as [str.lower] has it
    for the code points below U+0100, and every other code point is kept.
    The strings of the examples stay below U+0100. *)
Definition lower_latin1 (c : N) : N :=
  if ((65 <=? c) && (c <=? 90) || (192 <=? c) && (c <=? 214)
      || (216 <=? c) && (c <=? 222))%N
  then (c + 32)%N else c.

Definition latin1 : Unicode :=
  {| unicode_lower := map lower_latin1; unicode_lower_empty := eq_refl |}.

(** The global instance [CacheManager()] when there is no cache file. *)
Definition empty_cache : CacheManager :=
  {| max_search_cache := 10; search_cache := [] |}.

(** A cache for the examples: ten entries, the oldest one of [bob], the
    others of [alice]. *)
Definition full_cache : CacheManager :=
  {| max_search_cache := 10;
     search_cache :=
       (cache_key "bob" "tax forms",
        {| sr_query := "tax forms"; sr_results := []; sr_timestamp := 1;
           sr_username := "bob" |})
       :: map (fun i : nat =>
                 (cache_key "alice" (str_of i),
                  {| sr_query := str_of i; sr_results := [];
                     sr_timestamp := inject_Z (Z.of_nat i); sr_username := "alice" |}))
              (seq 2 9) |}.

(** An OpenAI configuration whose backends always answer. *)
Definition env0 : Env :=
  {| env_provider := "OpenAI";
     env_model := "gpt-3.5-turbo";
     env_embedding_model := "text-embedding-ada-002";
     env_qdrant_collection_name := "recall_documents";
     env_clock := fun n => inject_Z (100 + Z.of_nat n);
     env_uuid4 := fun n => "point-" ++ str_of n;
     env_embedding_backend := fun _ _ => Ok (replicate 1536 1%Q);
     env_chat_backend := fun _ _ => Ok "Paris.";
     env_similarity := fun _ _ => 9 # 10;
     env_format_3f := fun _ => "0.900";
     env_str_float := fun _ => "0.0" |}.

(** The same configuration with the embedding backend out of reach. *)
Definition env_down : Env :=
  {| env_provider := "OpenAI";
     env_model := "gpt-3.5-turbo";
     env_embedding_model := "text-embedding-ada-002";
     env_qdrant_collection_name := "recall_documents";
     env_clock := fun n => inject_Z (100 + Z.of_nat n);
     env_uuid4 := fun n => "point-" ++ str_of n;
     env_embedding_backend := fun _ _ => Raise (BackendError "Connection error.");
     env_chat_backend := fun _ _ => Ok "Paris.";
     env_similarity := fun _ _ => 9 # 10;
     env_format_3f := fun _ => "0.900";
     env_str_float := fun _ => "0.0" |}.

Definition world_of (cm : CacheManager) (srv : Qdrant.Server) : World :=
  {| cache_manager := cm; qdrant := srv; ticks := 0; uuids := 0;
     embed_log := []; chat_log := []; search_log := 0 |}.

(** A fresh process: nothing cached, no collection yet. *)
Definition world0 : World := world_of empty_cache ∅.

Definition point_of (dimensions : nat) (text username : str) : Point :=
  {| p_vector := replicate dimensions 1%Q;
     p_payload := {[ "text" := VStr text; "username" := VStr username;
                     "timestamp" := VFloat 1; "content_type" := VStr "general" ]} |}.

(** One memory of [alice] and one of [bob], in a collection of the size
    given. *)
Definition two_owners (dimensions : nat) : Collection :=
  {| c_size := Z.of_nat dimensions;
     c_points := {[ "point-a" := point_of dimensions "Paris is the capital of France" "alice";
                    "point-b" := point_of dimensions "Bob's tax forms" "bob" ]};
     c_indexes := with_required_indexes ∅ |}.

(** The collection as an OpenAI model left it, and as a Gemini model did. *)
Definition world_openai : World :=
  world_of empty_cache {[ "recall_documents" := two_owners 1536 ]}.

Definition world_gemini : World :=
  world_of empty_cache {[ "recall_documents" := two_owners 768 ]}.

(** [u1] has stored one memory, asks for [python tutorials] (a miss, the
    results are cached) and then for [Python Tutorials] (answered by the
    cached entry, and cached under the new query). *)
Definition world_u1 : World :=
  world_of empty_cache
    {[ "recall_documents" :=
         {| c_size := 1536;
            c_points := {[ "point-p" := point_of 1536 "Python tutorials: docs.python.org" "u1" ]};
            c_indexes := with_required_indexes ∅ |} ]}.

Definition world_python : World :=
  snd (search_cache_first (U:=latin1) env0 "Python Tutorials" "u1" 10
         (snd (search_cache_first (U:=latin1) env0 "python tutorials" "u1" 10 world_u1))).

Definition python_results : list ScoredResult :=
  [ {| r_id := "point-p"; r_score := 9 # 10;
       r_text := VStr "Python tutorials: docs.python.org";
       r_timestamp := VFloat 1; r_content_type := VStr "general"; r_metadata := ∅ |} ].

Definition python_lower : SearchResult :=
  {| sr_query := "python tutorials"; sr_results := python_results;
     sr_timestamp := 100; sr_username := "u1" |}.

Definition python_title : SearchResult :=
  {| sr_query := "Python Tutorials"; sr_results := python_results;
     sr_timestamp := 101; sr_username := "u1" |}.

(** The manager of the examples: the ten cached searches above and the
    modes of the users 42 and 0. *)
Definition full_manager : Manager :=
  {| searches := full_cache;
     user_modes :=
       {[ 42%Z := {| um_user_id := 42; um_mode := "search"; um_timestamp := 5 |};
          0%Z := {| um_user_id := 0; um_mode := "talk"; um_timestamp := 6 |} ]} |}.

(** * Properties *)

(** Case analysis on the exceptions that meet a handler. *)
Ltac case_exn :=
  unfold rethrow in *;
  repeat match goal with
         | |- context [is_Exception ?e] => is_var e; destruct e; cbn [is_Exception]
         end.

(** ** Strings *)

Lemma startswith_spec needle hay :
  Str.startswith needle hay = true <-> exists rest, hay = needle ++ rest.
Proof.
  revert hay. induction needle as [|a n IH]; intros hay; simpl.
  - split; [intros _; by exists hay | done].
  - destruct hay as [|b h].
    + split; [done | intros [rest Hr]; discriminate Hr].
    + rewrite andb_true_iff, bool_decide_eq_true, IH. split.
      * intros [-> [rest ->]]. by exists rest.
      * intros [rest Hr]. injection Hr as -> ->. split; [done | by exists rest].
Qed.

Lemma contains_spec needle hay :
  Str.contains needle hay = true <->
  exists before after, hay = before ++ needle ++ after.
Proof.
  induction hay as [|b h IH].
  - cbn [Str.contains]. rewrite orb_false_r, startswith_spec. split.
    + intros [rest ->]. by exists [], rest.
    + intros [[|c before] [after Hr]]; [by exists after | discriminate Hr].
  - cbn [Str.contains]. rewrite orb_true_iff, IH, startswith_spec. split.
    + intros [[rest ->] | (before & after & ->)].
      * by exists [], rest.
      * by exists (b :: before), after.
    + intros [[|c before] [after Hr]].
      * left. by exists after.
      * right. injection Hr as -> ->. by exists before, after.
Qed.

Lemma of_string_inj s1 s2 : Str.of_string s1 = Str.of_string s2 -> s1 = s2.
Proof.
  revert s2. induction s1 as [|a s1 IH]; intros [|b s2]; simpl; try done.
  intros [= Hab Hs]. f_equal; [| by apply IH].
  by rewrite <- (ascii_N_embedding a), <- (ascii_N_embedding b), Hab.
Qed.

(** The decimal forms of two numbers are equal for equal numbers only. *)
Lemma str_of_Z_inj (a b : Z) : str_of a = str_of b -> a = b.
Proof. intros Heq%of_string_inj. by apply (inj pretty). Qed.

Lemma lstrip_all_space s : Str.all_space s = true -> Str.lstrip s = "".
Proof.
  induction s as [|c s IH]; simpl; [done |].
  intros [Hc Hs]%andb_true_iff. rewrite Hc. auto.
Qed.

Lemma strip_all_space s : Str.all_space s = true -> Str.strip s = "".
Proof. intros H. unfold Str.strip. by rewrite lstrip_all_space. Qed.

Lemma rstrip_empty s : Str.rstrip s = "" -> Str.all_space s = true.
Proof.
  induction s as [|c s IH]; simpl; [done |].
  destruct (Str.rstrip s) eqn:Hr; [| discriminate].
  destruct (Str.isspace c); [auto | discriminate].
Qed.

Lemma lstrip_keeps_all_space s :
  Str.all_space (Str.lstrip s) = true -> Str.all_space s = true.
Proof.
  induction s as [|c s IH]; simpl; [done |].
  destruct (Str.isspace c) eqn:Hc; simpl; [auto |].
  by rewrite Hc.
Qed.

(** [strip] leaves nothing exactly when every character is white space. *)
Lemma strip_empty_iff s : Str.strip s = "" <-> Str.all_space s = true.
Proof.
  split; [| apply strip_all_space].
  intros H. apply lstrip_keeps_all_space, rstrip_empty, H.
Qed.

(** ** The ordered dictionary *)

Lemma del_absent k (d : OrderedDict.t) :
  k ∉ OrderedDict.keys d -> OrderedDict.del k d = d.
Proof.
  unfold OrderedDict.del, OrderedDict.keys.
  induction d as [|[k' v'] d IH]; intros Hk; [done |].
  rewrite fmap_cons, not_elem_of_cons in Hk. destruct Hk as [Hne Hk].
  rewrite filter_cons_True by (simpl in *; congruence). by rewrite IH.
Qed.

Lemma del_keys k (d : OrderedDict.t) :
  k ∉ OrderedDict.keys (OrderedDict.del k d).
Proof.
  unfold OrderedDict.del, OrderedDict.keys.
  intros ([k' v'] & Hk & Hin)%list_elem_of_fmap.
  apply list_elem_of_filter in Hin as [Hne _]. simpl in *. congruence.
Qed.

Lemma setitem_fresh k v (d : OrderedDict.t) :
  k ∉ OrderedDict.keys d -> OrderedDict.setitem k v d = d ++ [(k, v)].
Proof.
  unfold OrderedDict.keys.
  induction d as [|[k' v'] d IH]; intros Hk; [done |].
  rewrite fmap_cons, not_elem_of_cons in Hk. destruct Hk as [Hne Hk].
  cbn [OrderedDict.setitem]. rewrite bool_decide_eq_false_2 by (simpl in Hne; congruence).
  by rewrite IH.
Qed.

Lemma mem_del k (d : OrderedDict.t) :
  (if OrderedDict.mem k d then OrderedDict.del k d else d) = OrderedDict.del k d.
Proof.
  unfold OrderedDict.mem. case_bool_decide; [done |]. by rewrite del_absent.
Qed.

(** The eviction loop ends without an exception when the bound is not
    negative, and keeps the newest [max] entries. *)
Lemma evict_oldest_spec max (d : OrderedDict.t) :
  (0 <= max)%Z ->
  evict_oldest max d = (Ok tt, drop (length d - Z.to_nat max) d).
Proof.
  intros Hmax. induction d as [|kv d IH]; cbn [evict_oldest].
  - rewrite bool_decide_eq_false_2 by (simpl; lia). done.
  - case_bool_decide as Hlen.
    + rewrite IH. f_equal. simpl length in *.
      replace (S (length d) - Z.to_nat max)%nat
        with (S (length d - Z.to_nat max)) by lia.
      done.
    + simpl length in *.
      replace (S (length d) - Z.to_nat max)%nat with 0%nat by lia. done.
Qed.

(** With a negative bound the loop empties the dictionary and then fails. *)
Lemma evict_oldest_negative max (d : OrderedDict.t) :
  (max < 0)%Z ->
  evict_oldest max d = (Raise (KeyError "'dictionary is empty'"), []).
Proof.
  intros Hmax. induction d as [|kv d IH]; cbn [evict_oldest].
  - by rewrite bool_decide_eq_true_2 by (simpl; lia).
  - by rewrite bool_decide_eq_true_2 by (simpl length; lia).
Qed.

(** What a put does to the dictionary, in one equation. *)
Lemma cache_search_result_spec now query results username cm :
  (0 <= max_search_cache cm)%Z ->
  let k := cache_key username query in
  let entry := {| sr_query := query; sr_results := results;
                  sr_timestamp := now; sr_username := username |} in
  let d := OrderedDict.del k (search_cache cm) ++ [(k, entry)] in
  cache_search_result now query results username cm =
    (Ok tt, set_search_cache (drop (length d - Z.to_nat (max_search_cache cm)) d) cm).
Proof.
  intros Hmax k entry d. unfold cache_search_result.
  rewrite mem_del, setitem_fresh by apply del_keys.
  fold k entry d. by rewrite evict_oldest_spec.
Qed.

(** ** The recency cache *)

(** C2. After a put the cache holds at most [max_search_cache] entries,
    whatever it held before.  The dictionary after the put is the old one
    with the entry of the key, if there was one, taken out, the new entry
    added at the end and the entries at the front dropped until the bound
    holds: the entries that go are the least recently inserted or touched
    ones.  A new key into a cache that holds exactly [max_search_cache]
    entries drops exactly the first entry.  A key that is cached already, in
    a cache within its bound, evicts nothing: its entry moves behind all
    others, which keep their order. *)
Theorem cache_search_result_bound now query results username cm :
  (0 <= max_search_cache cm)%Z ->
  exists cm',
    cache_search_result now query results username cm = (Ok tt, cm') /\
    max_search_cache cm' = max_search_cache cm /\
    (Z.of_nat (length (search_cache cm')) <= max_search_cache cm)%Z /\
    search_cache cm' =
      drop (length (filter (fun kv => kv.1 ≠ cache_key username query) (search_cache cm))
            + 1 - Z.to_nat (max_search_cache cm))
           (filter (fun kv => kv.1 ≠ cache_key username query) (search_cache cm)
            ++ [(cache_key username query,
                 {| sr_query := query; sr_results := results;
                    sr_timestamp := now; sr_username := username |})]) /\
    (Z.of_nat (length (search_cache cm)) = max_search_cache cm ->
     cache_key username query ∉ OrderedDict.keys (search_cache cm) ->
     search_cache cm' =
       drop 1 (search_cache cm ++
               [(cache_key username query,
                 {| sr_query := query; sr_results := results;
                    sr_timestamp := now; sr_username := username |})]) /\
     length (search_cache cm') = length (search_cache cm)) /\
    (forall before old after,
       search_cache cm = before ++ (cache_key username query, old) :: after ->
       NoDup (OrderedDict.keys (search_cache cm)) ->
       (Z.of_nat (length (search_cache cm)) <= max_search_cache cm)%Z ->
       search_cache cm' =
         before ++ after ++
         [(cache_key username query,
           {| sr_query := query; sr_results := results;
              sr_timestamp := now; sr_username := username |})]).
Proof.
  intros Hmax. rewrite cache_search_result_spec by done.
  eexists. split; [reflexivity |]. cbn [max_search_cache search_cache set_search_cache].
  split; [done |]. split; [rewrite length_drop; lia |].
  split; [| split].
  - unfold OrderedDict.del. rewrite length_app. by cbn [length].
  - intros Hfull Hnew. rewrite del_absent by done.
    rewrite length_app. cbn [length].
    replace (length (search_cache cm) + 1 - Z.to_nat (max_search_cache cm))%nat
      with 1%nat by lia.
    split; [done |]. rewrite length_drop, length_app. simpl. lia.
  - intros before old after Hcache Hnd Hroom. rewrite Hcache in Hnd |- *.
    unfold OrderedDict.keys in Hnd. rewrite fmap_app, fmap_cons in Hnd.
    apply NoDup_app in Hnd as (_ & Hbefore & Hafter).
    apply NoDup_cons in Hafter as [Hafter _].
    assert (Hdel : OrderedDict.del (cache_key username query)
                     (before ++ (cache_key username query, old) :: after)
                   = before ++ after).
    { unfold OrderedDict.del. rewrite filter_app, filter_cons_False by (simpl; tauto).
      fold (OrderedDict.del (cache_key username query) before).
      fold (OrderedDict.del (cache_key username query) after).
      rewrite !del_absent; [done | done |].
      intros Hin. apply (Hbefore _ Hin). by left. }
    rewrite Hdel. rewrite Hcache in Hroom.
    rewrite !length_app in *. cbn [length] in *.
    replace (length before + length after + 1 - Z.to_nat (max_search_cache cm))%nat
      with 0%nat by lia.
    by rewrite drop_0, <- app_assoc.
Qed.

Lemma cache_search_result_bound_witness :
  exists cm',
    cache_search_result 11 "python tutorials" [] "alice" full_cache = (Ok tt, cm') /\
    max_search_cache cm' = 10%Z /\
    (Z.of_nat (length (search_cache cm')) <= 10)%Z /\
    search_cache cm' =
      drop (length (filter (fun kv => kv.1 ≠ cache_key "alice" "python tutorials")
                           (search_cache full_cache))
            + 1 - Z.to_nat 10)
           (filter (fun kv => kv.1 ≠ cache_key "alice" "python tutorials")
                   (search_cache full_cache)
            ++ [(cache_key "alice" "python tutorials",
                 {| sr_query := "python tutorials"; sr_results := [];
                    sr_timestamp := 11; sr_username := "alice" |})]) /\
    (Z.of_nat (length (search_cache full_cache)) = 10%Z ->
     cache_key "alice" "python tutorials" ∉ OrderedDict.keys (search_cache full_cache) ->
     search_cache cm' =
       drop 1 (search_cache full_cache ++
               [(cache_key "alice" "python tutorials",
                 {| sr_query := "python tutorials"; sr_results := [];
                    sr_timestamp := 11; sr_username := "alice" |})]) /\
     length (search_cache cm') = length (search_cache full_cache)) /\
    (forall before old after,
       search_cache full_cache =
         before ++ (cache_key "alice" "python tutorials", old) :: after ->
       NoDup (OrderedDict.keys (search_cache full_cache)) ->
       (Z.of_nat (length (search_cache full_cache)) <= 10)%Z ->
       search_cache cm' =
         before ++ after ++
         [(cache_key "alice" "python tutorials",
           {| sr_query := "python tutorials"; sr_results := [];
              sr_timestamp := 11; sr_username := "alice" |})]).
Proof.
  apply (cache_search_result_bound 11 "python tutorials" [] "alice" full_cache).
  vm_compute. discriminate.
Defined.

(** The order of eviction is the order of the last put, not of the first
    one: in a cache of two entries that holds [a] and [b], a second put of
    [a] followed by a put of [c] drops [b] and keeps [a]. *)
Example cache_search_result_touch_then_put :
  let cm0 := {| max_search_cache := 2; search_cache := [] |} in
  let cm4 :=
    snd (cache_search_result 4 "c" [] "u"
      (snd (cache_search_result 3 "a" [] "u"
        (snd (cache_search_result 2 "b" [] "u"
          (snd (cache_search_result 1 "a" [] "u" cm0))))))) in
  OrderedDict.keys (search_cache cm4) = ["u:a"; "u:c"] /\
  sr_timestamp <$> OrderedDict.values (search_cache cm4) = [3%Q; 4%Q].
Proof. split; reflexivity. Qed.

(** The key separates owner and query by a colon, so it is one-to-one on
    the owners that hold no colon. *)
Lemma cache_key_injective u1 q1 u2 q2 :
  (forall a b, u1 ≠ a ++ ":" ++ b) ->
  (forall a b, u2 ≠ a ++ ":" ++ b) ->
  cache_key u1 q1 = cache_key u2 q2 ->
  u1 = u2 /\ q1 = q2.
Proof.
  unfold cache_key. revert u2.
  induction u1 as [|c1 u1 IH]; intros [|c2 u2] H1 H2 Heq; simpl in Heq.
  - by injection Heq as ->.
  - injection Heq as <- _. by destruct (H2 [] u2).
  - injection Heq as -> _. by destruct (H1 [] u1).
  - injection Heq as -> Heq.
    destruct (IH u2) as [-> ->]; [| | exact Heq | done].
    + intros a b ->. by apply (H1 (c2 :: a) b).
    + intros a b ->. by apply (H2 (c2 :: a) b).
Qed.

(** C6, as the code has it. The key is owner, a colon, query.  Two pairs
    with the same key share one entry: a put under the second pair
    overwrites the entry of the first, and the number of entries does not
    change. *)
Theorem cache_key_aliasing now1 now2 u1 q1 r1 u2 q2 r2 cm :
  cache_key u1 q1 = cache_key u2 q2 ->
  (0 < max_search_cache cm)%Z ->
  exists cm1 cm2 d0,
    cache_search_result now1 q1 r1 u1 cm = (Ok tt, cm1) /\
    cache_search_result now2 q2 r2 u2 cm1 = (Ok tt, cm2) /\
    (cache_key u1 q1 ∉ OrderedDict.keys d0) /\
    search_cache cm1 =
      d0 ++ [(cache_key u1 q1,
              {| sr_query := q1; sr_results := r1; sr_timestamp := now1;
                 sr_username := u1 |})] /\
    search_cache cm2 =
      d0 ++ [(cache_key u1 q1,
              {| sr_query := q2; sr_results := r2; sr_timestamp := now2;
                 sr_username := u2 |})].
Proof.
  intros Hkey Hmax.
  rewrite cache_search_result_spec by lia.
  set (k := cache_key u1 q1) in *.
  set (e1 := {| sr_query := q1 |}). set (e2 := {| sr_query := q2 |}).
  set (c := OrderedDict.del k (search_cache cm)).
  set (n := (length (c ++ [(k, e1)]) - Z.to_nat (max_search_cache cm))%nat).
  assert (Hn : (n <= length c)%nat).
  { subst n. rewrite length_app. simpl. lia. }
  assert (Hdrop : drop n (c ++ [(k, e1)]) = drop n c ++ [(k, e1)]).
  { by rewrite drop_app_le. }
  assert (Hk0 : k ∉ OrderedDict.keys (drop n c)).
  { intros Hin. apply (del_keys k (search_cache cm)). fold c.
    unfold OrderedDict.keys in *. rewrite <- (take_drop n c), fmap_app.
    apply elem_of_app. by right. }
  eexists _, _, (drop n c). split; [reflexivity |].
  rewrite cache_search_result_spec by (simpl; lia).
  cbn [max_search_cache search_cache set_search_cache].
  rewrite <- Hkey. fold k e2. rewrite Hdrop.
  assert (Hdel : OrderedDict.del k (drop n c ++ [(k, e1)]) = drop n c).
  { unfold OrderedDict.del. rewrite filter_app.
    fold (OrderedDict.del k (drop n c)). rewrite del_absent by done.
    rewrite filter_cons_False, filter_nil by (simpl; tauto). apply app_nil_r. }
  rewrite Hdel. split; [| split; [done | split; [done |]]].
  - do 2 f_equal.
  - replace (length (drop n c ++ [(k, e2)]) - Z.to_nat (max_search_cache cm))%nat
      with 0%nat; [done |].
    rewrite length_app, length_drop. subst n. rewrite length_app. simpl. lia.
Qed.

Lemma cache_key_aliasing_witness :
  exists cm1 cm2 d0,
    cache_search_result 1 "c" [] "a:b" empty_cache = (Ok tt, cm1) /\
    cache_search_result 2 "b:c" [] "a" cm1 = (Ok tt, cm2) /\
    (cache_key "a:b" "c" ∉ OrderedDict.keys d0) /\
    search_cache cm1 =
      d0 ++ [(cache_key "a:b" "c",
              {| sr_query := "c"; sr_results := []; sr_timestamp := 1;
                 sr_username := "a:b" |})] /\
    search_cache cm2 =
      d0 ++ [(cache_key "a:b" "c",
              {| sr_query := "b:c"; sr_results := []; sr_timestamp := 2;
                 sr_username := "a" |})].
Proof.
  apply (cache_key_aliasing 1 2 "a:b" "c" [] "a" "b:c" [] empty_cache).
  - reflexivity.
  - reflexivity.
Defined.

(** Against C6 as the spec words it: owner [ab] with query [c] and owner [a]
    with query [bc] get two keys and two entries. *)
Lemma cache_key_ab_c_distinct :
  cache_key "ab" "c" ≠ cache_key "a" "bc" /\
  exists cm1 cm2,
    cache_search_result 1 "c" [] "ab" empty_cache = (Ok tt, cm1) /\
    cache_search_result 2 "bc" [] "a" cm1 = (Ok tt, cm2) /\
    OrderedDict.keys (search_cache cm2) = ["ab:c"; "a:bc"].
Proof.
  split; [vm_compute; discriminate |].
  eexists _, _. split; [reflexivity |]. split; [reflexivity |]. reflexivity.
Qed.

(** [_load_search_cache] builds the same key: of two saved entries with one
    key the later one is kept, at the place of the earlier one. *)
Example load_search_cache_aliasing :
  search_cache
    (load_search_cache 10
       [ {| sr_query := "c"; sr_results := []; sr_timestamp := 1; sr_username := "a:b" |};
         {| sr_query := "b:c"; sr_results := []; sr_timestamp := 2; sr_username := "a" |} ]) =
    [ ("a:b:c",
       {| sr_query := "b:c"; sr_results := []; sr_timestamp := 2; sr_username := "a" |}) ].
Proof. reflexivity. Qed.

(** C9. The bound counts the entries of all owners together.  When the
    cache is full and its first entry belongs to another owner, a put of a
    new key drops that entry: the other owner is left with one cached search
    less. *)
Theorem eviction_crosses_owners now query results username cm k0 e0 rest :
  search_cache cm = (k0, e0) :: rest ->
  Z.of_nat (length (search_cache cm)) = max_search_cache cm ->
  NoDup (OrderedDict.keys (search_cache cm)) ->
  cache_key username query ∉ OrderedDict.keys (search_cache cm) ->
  sr_username e0 ≠ username ->
  exists cm',
    cache_search_result now query results username cm = (Ok tt, cm') /\
    search_cache cm' =
      rest ++ [(cache_key username query,
                {| sr_query := query; sr_results := results;
                   sr_timestamp := now; sr_username := username |})] /\
    (k0 ∉ OrderedDict.keys (search_cache cm')) /\
    filter (fun result => sr_username result = sr_username e0)
           (OrderedDict.values (search_cache cm)) =
      e0 :: filter (fun result => sr_username result = sr_username e0)
                   (OrderedDict.values (search_cache cm')).
Proof.
  intros Hcache Hfull Hnodup Hnew Hother.
  pose proof (cache_search_result_spec now query results username cm) as Hput.
  cbv zeta in Hput. rewrite del_absent in Hput by done.
  rewrite length_app in Hput. cbn [length] in Hput.
  replace (length (search_cache cm) + 1 - Z.to_nat (max_search_cache cm))%nat
    with 1%nat in Hput by lia.
  rewrite Hcache in Hput. simpl drop in Hput. rewrite drop_0 in Hput.
  eexists. split; [apply Hput; lia |].
  cbn [search_cache set_search_cache]. split; [done |].
  rewrite Hcache. unfold OrderedDict.keys, OrderedDict.values in *.
  rewrite Hcache in Hnodup, Hnew. rewrite !fmap_cons in *. rewrite !fmap_app. simpl.
  apply NoDup_cons in Hnodup as [Hk0 _]. apply not_elem_of_cons in Hnew as [Hne _].
  split.
  - rewrite elem_of_app, list_elem_of_singleton. intros [? | ?]; [done | simpl in *; congruence].
  - rewrite filter_cons_True by done. rewrite filter_app.
    rewrite (filter_cons_False _ _ []) by (simpl; congruence).
    by rewrite filter_nil, app_nil_r.
Qed.

Lemma eviction_crosses_owners_witness :
  exists cm',
    cache_search_result 11 "python tutorials" [] "alice" full_cache = (Ok tt, cm') /\
    search_cache cm' =
      tail (search_cache full_cache)
      ++ [(cache_key "alice" "python tutorials",
           {| sr_query := "python tutorials"; sr_results := [];
              sr_timestamp := 11; sr_username := "alice" |})] /\
    (cache_key "bob" "tax forms" ∉ OrderedDict.keys (search_cache cm')) /\
    filter (fun result => sr_username result = "bob")
           (OrderedDict.values (search_cache full_cache)) =
      {| sr_query := "tax forms"; sr_results := []; sr_timestamp := 1;
         sr_username := "bob" |}
      :: filter (fun result => sr_username result = "bob")
                (OrderedDict.values (search_cache cm')).
Proof.
  apply (eviction_crosses_owners 11 "python tutorials" [] "alice" full_cache
           (cache_key "bob" "tax forms")
           {| sr_query := "tax forms"; sr_results := []; sr_timestamp := 1;
              sr_username := "bob" |}
           (tail (search_cache full_cache))).
  - reflexivity.
  - reflexivity.
  - apply (bool_decide_unpack _). vm_compute. reflexivity.
  - apply (bool_decide_unpack _). vm_compute. reflexivity.
  - discriminate.
Defined.

(** ** Sorting *)

Section SortDescFacts.
Context {A : Type} (key : A -> Q).

Lemma insert_desc_perm x l : insert_desc key x l ≡ₚ x :: l.
Proof.
  induction l as [|y l IH]; simpl; [done |].
  destruct (Qle_bool (key y) (key x)); [done |].
  rewrite IH. apply Permutation_swap.
Qed.

Lemma sort_desc_perm l : sort_desc key l ≡ₚ l.
Proof.
  induction l as [|x l IH]; simpl; [done |].
  by rewrite insert_desc_perm, IH.
Qed.

Lemma insert_desc_sorted x l :
  StronglySorted (fun a b => (key b <= key a)%Q) l ->
  StronglySorted (fun a b => (key b <= key a)%Q) (insert_desc key x l).
Proof.
  induction l as [|y l IH]; simpl; intros Hs.
  - repeat constructor.
  - apply StronglySorted_cons in Hs as [Hy Hl].
    destruct (Qle_bool (key y) (key x)) eqn:Hle.
    + apply Qle_bool_iff in Hle.
      apply StronglySorted_cons. split; [| by apply StronglySorted_cons].
      constructor; [done |].
      eapply Forall_impl; [exact Hy |]. intros z Hz. simpl in Hz.
      by apply Qle_trans with (key y).
    + assert (Hlt : (key x < key y)%Q).
      { apply Qnot_le_lt. intros Hc. apply Qle_bool_iff in Hc. congruence. }
      apply StronglySorted_cons. split; [| by apply IH].
      rewrite insert_desc_perm. constructor; [| done].
      by apply Qlt_le_weak.
Qed.

Lemma sort_desc_sorted l :
  StronglySorted (fun a b => (key b <= key a)%Q) (sort_desc key l).
Proof.
  induction l as [|x l IH]; simpl; [constructor |].
  by apply insert_desc_sorted.
Qed.

End SortDescFacts.

(** ** The cached searches of an owner *)

Lemma slice_to_20 {A} (l : list A) : slice_to 20 l = take 20 l.
Proof. reflexivity. Qed.

(** What [get_cached_searches(username, limit=20)] returns: the first
    twenty of the cached searches of the owner when these are put newest
    first. *)
Lemma get_cached_searches_window cm username :
  let owned := filter (fun result => sr_username result = username)
                      (OrderedDict.values (search_cache cm)) in
  let window := get_cached_searches cm username 20 in
  exists rest,
    window ++ rest ≡ₚ owned /\
    newest_first (window ++ rest) /\
    length window = Nat.min 20 (length owned).
Proof.
  intros owned window. unfold window, get_cached_searches. fold owned.
  rewrite slice_to_20. exists (drop 20 (sort_desc sr_timestamp owned)).
  rewrite take_drop. split; [apply sort_desc_perm |].
  split; [apply sort_desc_sorted |].
  by rewrite length_take, (Permutation_length (sort_desc_perm _ _)).
Qed.

Section MatchFacts.
Context {U : Unicode}.

(** The condition of the code is the condition of the specification. *)
Lemma query_matches_spec query cached :
  query_matches query cached = true <-> FuzzyMatch query cached.
Proof.
  unfold query_matches, FuzzyMatch, same_ignoring_case, substring_ignoring_case,
    longer_than, is_substring, Str.lower, Str.len.
  rewrite !orb_true_iff, !andb_true_iff, !bool_decide_eq_true, !contains_spec.
  assert (Hlen : forall s : str, (Z.of_nat (length s) > 10)%Z <-> (10 < length s)%nat)
    by (intros s; lia).
  rewrite !Hlen. tauto.
Qed.

Lemma query_matches_false query cached :
  query_matches query cached = false <-> ~ FuzzyMatch query cached.
Proof. rewrite <- query_matches_spec. by destruct (query_matches query cached). Qed.

End MatchFacts.

(** ** The query engine *)

Section EngineFacts.
Context {U : Unicode} (env : Env).

(** The loop stops at the first cached search that matches. *)
Lemma scan_cached_searches_spec query username limit cached_searches :
  (exists before hit after,
     cached_searches = before ++ hit :: after /\
     Forall (fun c => query_matches query c = false) before /\
     query_matches query hit = true /\
     scan_cached_searches env query username limit cached_searches =
       answer_from_cache env query username hit)
  \/ (Forall (fun c => query_matches query c = false) cached_searches /\
      scan_cached_searches env query username limit cached_searches =
        query_knowledge_base env query username limit).
Proof.
  induction cached_searches as [|c l IH]; cbn [scan_cached_searches].
  - right. by split.
  - destruct (query_matches query c) eqn:Hc.
    + left. exists [], c, l. by repeat split.
    + destruct IH as [(before & hit & after & -> & Hb & Hh & Hscan) | [Hl Hscan]].
      * left. exists (c :: before), hit, after. repeat split; try done.
        by constructor.
      * right. split; [by constructor | done].
Qed.

Lemma search_cache_first_unfold query username limit w :
  search_cache_first env query username limit w =
    try_except
      (scan_cached_searches env query username limit
         (get_cached_searches (cache_manager w) username 20))
      (fun e => raise (AIServiceError
                         ("Failed to search with cache-first logic: " ++ str_exn e))) w.
Proof. reflexivity. Qed.

(** C3. [search_cache_first] scans a window of cached searches: the
    cached searches of the owner put newest first, cut after the twentieth.
    It answers from the first entry of the window that satisfies the
    three-way condition of the specification: the entries before it do not
    satisfy it, and no cached search of the owner that satisfies it, inside
    the window or not, is newer.  When no entry of the window satisfies the
    condition the engine falls back to the vector search. *)
Theorem search_cache_first_decision query username limit w :
  let owned := filter (fun result => sr_username result = username)
                      (OrderedDict.values (search_cache (cache_manager w))) in
  let window := get_cached_searches (cache_manager w) username 20 in
  let wrap := fun e => raise (AIServiceError
                ("Failed to search with cache-first logic: " ++ str_exn e)) in
  (exists rest,
     window ++ rest ≡ₚ owned /\
     newest_first (window ++ rest) /\
     length window = Nat.min 20 (length owned)) /\
  ((exists before hit after,
      window = before ++ hit :: after /\
      Forall (fun c => ~ FuzzyMatch query c) before /\
      FuzzyMatch query hit /\
      (forall e, e ∈ owned -> FuzzyMatch query e ->
         (sr_timestamp e <= sr_timestamp hit)%Q) /\
      search_cache_first env query username limit w =
        try_except (answer_from_cache env query username hit) wrap w)
   \/ (Forall (fun c => ~ FuzzyMatch query c) window /\
       search_cache_first env query username limit w =
         try_except (query_knowledge_base env query username limit) wrap w)).
Proof.
  intros owned window wrap.
  pose proof (get_cached_searches_window (cache_manager w) username) as Hwin.
  cbv zeta in Hwin. fold owned window in Hwin.
  split; [exact Hwin |].
  destruct Hwin as (rest & Hperm & Hsorted & _).
  rewrite search_cache_first_unfold. fold window. unfold try_except.
  destruct (scan_cached_searches_spec query username limit window)
    as [(before & hit & after & Hw & Hb & Hh & Hscan) | [Hl Hscan]].
  - left. exists before, hit, after. rewrite Hscan.
    split; [done |]. split.
    { eapply Forall_impl; [exact Hb |]. intros c. apply query_matches_false. }
    split; [by apply query_matches_spec |]. split; [| done].
    intros e Hin Hm.
    assert (Hhit : hit ∈ window).
    { rewrite Hw. apply elem_of_app. right. by left. }
    rewrite <- Hperm in Hin. unfold newest_first in Hsorted.
    apply elem_of_app in Hin as [Hin | Hin].
    2: { by apply (StronglySorted_app_1_elem_of _ _ _ hit e Hsorted). }
    apply StronglySorted_app_1_l in Hsorted. rewrite Hw in Hin, Hsorted.
    apply elem_of_app in Hin as [Hin | Hin].
    + rewrite Forall_forall in Hb. apply Hb in Hin.
      apply query_matches_false in Hin. done.
    + apply StronglySorted_app_1_r, StronglySorted_cons in Hsorted as [Hafter _].
      apply elem_of_cons in Hin as [-> | Hin]; [apply Qle_refl |].
      rewrite Forall_forall in Hafter. by apply Hafter.
  - right. rewrite Hscan. split; [| done].
    eapply Forall_impl; [exact Hl |]. intros c. apply query_matches_false.
Qed.

(** *** Collection bootstrap *)

Lemma create_payload_index_present name field schema w c :
  qdrant w !! name = Some c ->
  on_qdrant (Qdrant.create_payload_index name field schema) w =
    (Ok tt,
     set_qdrant (<[name := {| c_size := c_size c; c_points := c_points c;
                              c_indexes := <[field := schema]> (c_indexes c) |}]>
                   (qdrant w)) w).
Proof.
  intros Hc. unfold on_qdrant, Qdrant.create_payload_index. by rewrite Hc.
Qed.

Lemma _ensure_indexes_exist_present name w c :
  qdrant w !! name = Some c ->
  _ensure_indexes_exist name w =
    (Ok tt,
     set_qdrant (<[name := {| c_size := c_size c; c_points := c_points c;
                              c_indexes := with_required_indexes (c_indexes c) |}]>
                   (qdrant w)) w).
Proof.
  intros Hc. unfold _ensure_indexes_exist, try_except, bind.
  rewrite (create_payload_index_present _ _ _ _ c) by done.
  erewrite create_payload_index_present by apply lookup_insert_eq.
  erewrite create_payload_index_present by apply lookup_insert_eq.
  cbn [c_size c_points c_indexes qdrant set_qdrant].
  by rewrite !insert_insert_eq.
Qed.

Lemma _create_collection_with_indexes_absent name dimensions w :
  qdrant w !! name = None ->
  _create_collection_with_indexes name dimensions w =
    (Ok tt,
     set_qdrant (<[name := {| c_size := dimensions; c_points := ∅;
                              c_indexes := with_required_indexes ∅ |}]>
                   (qdrant w)) w).
Proof.
  intros Hc. unfold _create_collection_with_indexes, bind.
  unfold on_qdrant at 1, Qdrant.create_collection. rewrite Hc.
  erewrite _ensure_indexes_exist_present by apply lookup_insert_eq.
  cbn [c_size c_points c_indexes qdrant set_qdrant].
  by rewrite insert_insert_eq.
Qed.

(** The collection after the bootstrap, from what was there before. *)
Lemma ensure_collection_exists_spec name w :
  let expected :=
    get_embedding_dimensions (env_provider env) (env_embedding_model env) in
  exists c',
    ensure_collection_exists env name w =
      (Ok tt, set_qdrant (<[name := c']> (qdrant w)) w) /\
    c_size c' = expected /\
    match qdrant w !! name with
    | Some c =>
        if decide (c_size c = expected)
        then c_points c' = c_points c /\
             c_indexes c' = with_required_indexes (c_indexes c)
        else c_points c' = ∅ /\ c_indexes c' = with_required_indexes ∅
    | None => c_points c' = ∅ /\ c_indexes c' = with_required_indexes ∅
    end.
Proof.
  intros expected. unfold ensure_collection_exists, try_except, bind.
  unfold on_qdrant at 1, Qdrant.get_collection.
  destruct (qdrant w !! name) as [c|] eqn:Hc.
  - replace (set_qdrant (qdrant w) w) with w by by destruct w.
    fold expected. case_bool_decide as Hsize.
    + unfold on_qdrant at 1, Qdrant.delete_collection.
      rewrite _create_collection_with_indexes_absent
        by (cbn [qdrant set_qdrant]; apply lookup_delete_eq).
      cbn [qdrant set_qdrant]. rewrite insert_delete_eq.
      eexists. split; [reflexivity |]. rewrite decide_False by done. done.
    + rewrite (_ensure_indexes_exist_present _ _ c) by done.
      eexists. split; [reflexivity |].
      rewrite decide_True by done. done.
  - replace (set_qdrant (qdrant w) w) with w by by destruct w.
    fold expected. rewrite _create_collection_with_indexes_absent by done.
    eexists. split; [reflexivity |]. done.
Qed.

(** C5. A collection whose vector size is not the one expected for the
    configured provider and model is deleted and created again: afterwards
    it has the expected size, the three payload indexes and no point at
    all.  A collection of the expected size keeps its points.  Other
    collections and the rest of the process state are not touched. *)
Theorem ensure_collection_exists_dimensions collection_name w c :
  qdrant w !! collection_name = Some c ->
  let expected :=
    get_embedding_dimensions (env_provider env) (env_embedding_model env) in
  exists w' c',
    ensure_collection_exists env collection_name w = (Ok tt, w') /\
    qdrant w' !! collection_name = Some c' /\
    c_size c' = expected /\
    (c_size c ≠ expected ->
       c_points c' = ∅ /\ c_indexes c' = with_required_indexes ∅) /\
    (c_size c = expected ->
       c_points c' = c_points c /\
       c_indexes c' = with_required_indexes (c_indexes c)) /\
    (forall other, other ≠ collection_name ->
       qdrant w' !! other = qdrant w !! other) /\
    set_qdrant (qdrant w) w' = w.
Proof.
  intros Hc expected.
  destruct (ensure_collection_exists_spec collection_name w)
    as (c' & Hrun & Hsize & Hcase).
  rewrite Hc in Hcase. fold expected in Hsize, Hcase.
  eexists _, c'. split; [exact Hrun |]. cbn [qdrant set_qdrant].
  split; [apply lookup_insert_eq |]. split; [done |].
  destruct (decide (c_size c = expected)) as [Heq | Hne].
  - split; [done |]. split; [done |]. split.
    + intros other Ho. by rewrite lookup_insert_ne.
    + by destruct w.
  - split; [done |]. split; [done |]. split.
    + intros other Ho. by rewrite lookup_insert_ne.
    + by destruct w.
Qed.
(** *** Embedding *)

Lemma generate_embedding_blank text w :
  Str.strip text = "" ->
  generate_embedding env text w =
    (Raise (AIServiceError ("Failed to generate embedding with "
                            ++ env_provider env ++ ": " ++ "Text cannot be empty")), w).
Proof.
  intros Hblank. unfold generate_embedding, try_except.
  by rewrite Hblank, bool_decide_eq_true_2.
Qed.

(** A text that is not blank costs one request to an embedding backend. *)
Lemma generate_embedding_sends text w :
  Str.strip text ≠ "" ->
  exists req,
    generate_embedding env text w =
      (match env_embedding_backend env (length (embed_log w)) req with
       | Ok v => Ok v
       | Raise e =>
           Raise (rethrow (fun e => AIServiceError ("Failed to generate embedding with "
                                      ++ env_provider env ++ ": " ++ str_exn e)) e)
       end, log_embed req w).
Proof.
  intros Hblank. unfold generate_embedding, try_except.
  rewrite bool_decide_eq_false_2 by done.
  repeat case_bool_decide; unfold send_embed, raise;
    lazymatch goal with
    | |- context [env_embedding_backend env ?n ?req] =>
        exists req; by destruct (env_embedding_backend env n req) as [|[]]
    end.
Qed.

Lemma generate_embedding_frame text w r w' :
  generate_embedding env text w = (r, w') ->
  cache_manager w' = cache_manager w /\ qdrant w' = qdrant w /\
  chat_log w' = chat_log w /\ search_log w' = search_log w /\
  ticks w' = ticks w /\ uuids w' = uuids w.
Proof.
  destruct (decide (Str.strip text = "")) as [Hblank | Hblank].
  - rewrite generate_embedding_blank by done. by intros [= _ <-].
  - destruct (generate_embedding_sends text w Hblank) as [req ->].
    by intros [= _ <-].
Qed.

(** *** Vector search *)

(** The common body of [search_vector_db] and [search_vector_db_enhanced]:
    bootstrap, one filtered search, formatting. *)
Lemma search_body_spec score_threshold query_embedding username limit w :
  let name := env_qdrant_collection_name env in
  let expected :=
    get_embedding_dimensions (env_provider env) (env_embedding_model env) in
  exists c',
    (c_size c' = expected /\
     match qdrant w !! name with
     | Some c =>
         if decide (c_size c = expected)
         then c_points c' = c_points c
         else c_points c' = ∅
     | None => c_points c' = ∅
     end) /\
    try_except
      (ensure_collection_exists env name ;;;
       search_result <~ client_search env name query_embedding username limit
                                      score_threshold ;;
       ret (map format_hit search_result))
      (fun e => raise (DatabaseError
                         ("Failed to search vector database: " ++ str_exn e))) w =
      (if bool_decide (Z.of_nat (length query_embedding) = c_size c')
       then Ok (map format_hit
                    (Qdrant.select (env_similarity env) c' query_embedding
                                   "username" username limit score_threshold))
       else Raise (DatabaseError ("Failed to search vector database: "
                                  ++ "Vector dimension error")),
       log_search (set_qdrant (<[name := c']> (qdrant w)) w)).
Proof.
  intros name expected.
  destruct (ensure_collection_exists_spec name w) as (c' & Hrun & Hsize & Hcase).
  exists c'. split.
  { split; [done |]. destruct (qdrant w !! name) as [c|]; [| tauto].
    fold expected in Hcase. destruct (decide (c_size c = expected)); tauto. }
  unfold try_except, bind. rewrite Hrun.
  unfold client_search, bind, modify, on_qdrant, Qdrant.search.
  cbn [qdrant set_qdrant log_search]. rewrite lookup_insert_eq.
  by case_bool_decide.
Qed.

(** Every hit of a filtered search is a point of the collection that
    carries the value asked for. *)
Lemma select_sound similarity c query_vector key value limit score_threshold hit :
  hit ∈ Qdrant.select similarity c query_vector key value limit score_threshold ->
  exists p,
    c_points c !! h_id hit = Some p /\
    p_payload p !! key = Some (VStr value) /\
    hit = {| h_id := h_id hit;
             h_score := similarity query_vector (p_vector p);
             h_payload := p_payload p |}.
Proof.
  unfold Qdrant.select. intros Hin.
  apply subseteq_take in Hin. rewrite sort_desc_perm in Hin.
  apply list_elem_of_filter in Hin as [_ Hin].
  apply list_elem_of_fmap in Hin as ([id p] & -> & Hin).
  apply list_elem_of_filter in Hin as [Hmatch Hin].
  apply elem_of_map_to_list in Hin. simpl in *.
  exists p. split; [done |]. split; [| done].
  unfold Qdrant.field_matches in Hmatch.
  destruct (p_payload p !! key) as [[s | |]|]; try done.
  by apply bool_decide_eq_true in Hmatch as ->.
Qed.
Lemma search_vector_db_spec query_embedding username limit w :
  exists c',
    (c_size c' =
       get_embedding_dimensions (env_provider env) (env_embedding_model env) /\
     match qdrant w !! env_qdrant_collection_name env with
     | Some c =>
         if decide (c_size c =
                    get_embedding_dimensions (env_provider env) (env_embedding_model env))
         then c_points c' = c_points c
         else c_points c' = ∅
     | None => c_points c' = ∅
     end) /\
    search_vector_db env query_embedding username limit w =
      (if bool_decide (Z.of_nat (length query_embedding) = c_size c')
       then Ok (map format_hit
                    (Qdrant.select (env_similarity env) c' query_embedding
                                   "username" username limit None))
       else Raise (DatabaseError ("Failed to search vector database: "
                                  ++ "Vector dimension error")),
       log_search (set_qdrant (<[env_qdrant_collection_name env := c']> (qdrant w)) w)).
Proof. exact (search_body_spec None query_embedding username limit w). Qed.

Lemma search_vector_db_enhanced_spec query_embedding username limit w :
  exists c',
    (c_size c' =
       get_embedding_dimensions (env_provider env) (env_embedding_model env) /\
     match qdrant w !! env_qdrant_collection_name env with
     | Some c =>
         if decide (c_size c =
                    get_embedding_dimensions (env_provider env) (env_embedding_model env))
         then c_points c' = c_points c
         else c_points c' = ∅
     | None => c_points c' = ∅
     end) /\
    search_vector_db_enhanced env query_embedding username limit w =
      (if bool_decide (Z.of_nat (length query_embedding) = c_size c')
       then Ok (map format_hit
                    (Qdrant.select (env_similarity env) c' query_embedding
                                   "username" username limit (Some (3 # 10))))
       else Raise (DatabaseError ("Failed to search vector database: "
                                  ++ "Vector dimension error")),
       log_search (set_qdrant (<[env_qdrant_collection_name env := c']> (qdrant w)) w)).
Proof. exact (search_body_spec (Some (3 # 10)) query_embedding username limit w). Qed.

Lemma search_vector_db_enhanced_frame query_embedding username limit w r w' :
  search_vector_db_enhanced env query_embedding username limit w = (r, w') ->
  cache_manager w' = cache_manager w /\ chat_log w' = chat_log w /\
  embed_log w' = embed_log w /\ search_log w' = S (search_log w) /\
  ticks w' = ticks w.
Proof.
  destruct (search_vector_db_enhanced_spec query_embedding username limit w)
    as (c' & _ & ->).
  by intros [= _ <-].
Qed.

(** The results of a search under an owner, traced back to the points of
    the collection as it was before the call. *)
Lemma search_results_sound score_threshold query_embedding username w c' :
  (match qdrant w !! env_qdrant_collection_name env with
   | Some c =>
       if decide (c_size c =
                  get_embedding_dimensions (env_provider env) (env_embedding_model env))
       then c_points c' = c_points c
       else c_points c' = ∅
   | None => c_points c' = ∅
   end) ->
  forall limit r,
    r ∈ map format_hit
          (Qdrant.select (env_similarity env) c' query_embedding
                         "username" username limit score_threshold) ->
    exists c p,
      qdrant w !! env_qdrant_collection_name env = Some c /\
      c_points c !! r_id r = Some p /\
      p_payload p !! "username" = Some (VStr username) /\
      r = format_hit {| h_id := r_id r;
                        h_score := env_similarity env query_embedding (p_vector p);
                        h_payload := p_payload p |}.
Proof.
  intros Hpoints limit r Hr.
  apply list_elem_of_fmap in Hr as (hit & -> & Hhit).
  apply select_sound in Hhit as (p & Hp & Huser & Hhit).
  destruct (qdrant w !! env_qdrant_collection_name env) as [c|];
    [| by rewrite Hpoints in Hp].
  destruct (decide _); [| by rewrite Hpoints in Hp].
  rewrite Hpoints in Hp. exists c, p. cbn [r_id format_hit].
  split; [done |]. split; [done |]. split; [done |]. by rewrite <- Hhit.
Qed.

(** C1. Every result of [search_vector_db] and of
    [search_vector_db_enhanced] comes from a point of the collection whose
    payload field [username] is the owner given in the call (the formatted
    result keeps the id of the point and drops the field itself); so a point
    whose [username] is another owner is never among the results. *)
Theorem search_owner_scoped query_embedding username limit w results w' :
  search_vector_db env query_embedding username limit w = (Ok results, w') \/
  search_vector_db_enhanced env query_embedding username limit w = (Ok results, w') ->
  Forall (fun r =>
    (exists c p,
       qdrant w !! env_qdrant_collection_name env = Some c /\
       c_points c !! r_id r = Some p /\
       p_payload p !! "username" = Some (VStr username) /\
       r = format_hit {| h_id := r_id r;
                         h_score := env_similarity env query_embedding (p_vector p);
                         h_payload := p_payload p |}) /\
    (forall other c p,
       other ≠ username ->
       qdrant w !! env_qdrant_collection_name env = Some c ->
       p_payload p !! "username" = Some (VStr other) ->
       c_points c !! r_id r ≠ Some p)) results.
Proof.
  intros Hrun. apply Forall_forall. intros r Hr.
  assert (Hsound : exists c p,
    qdrant w !! env_qdrant_collection_name env = Some c /\
    c_points c !! r_id r = Some p /\
    p_payload p !! "username" = Some (VStr username) /\
    r = format_hit {| h_id := r_id r;
                      h_score := env_similarity env query_embedding (p_vector p);
                      h_payload := p_payload p |}).
  { destruct Hrun as [Hrun | Hrun].
    - destruct (search_vector_db_spec query_embedding username limit w)
        as (c' & [_ Hpoints] & Hspec).
      rewrite Hspec in Hrun. case_bool_decide; [| done].
      injection Hrun as <- _. by eapply search_results_sound.
    - destruct (search_vector_db_enhanced_spec query_embedding username limit w)
        as (c' & [_ Hpoints] & Hspec).
      rewrite Hspec in Hrun. case_bool_decide; [| done].
      injection Hrun as <- _. by eapply search_results_sound. }
  split; [exact Hsound |].
  destruct Hsound as (c & p & Hc & Hp & Huser & _).
  intros other c2 p2 Hother Hc2 Huser2 Hp2.
  rewrite Hc in Hc2. injection Hc2 as <-. rewrite Hp in Hp2. injection Hp2 as <-.
  rewrite Huser in Huser2. congruence.
Qed.

(** A point stored for an owner without a [username] key in the metadata
    carries that owner in its payload. *)
Lemma store_in_vector_db_owner embedding text username metadata w point_id w' :
  default ∅ metadata !! "username" = None ->
  store_in_vector_db env embedding text username metadata w = (Ok point_id, w') ->
  exists c p,
    qdrant w' !! env_qdrant_collection_name env = Some c /\
    c_points c !! point_id = Some p /\
    p_vector p = embedding /\
    p_payload p !! "username" = Some (VStr username).
Proof.
  intros Hmeta. unfold store_in_vector_db, try_except, bind.
  destruct (ensure_collection_exists_spec (env_qdrant_collection_name env) w)
    as (c' & -> & _ & _).
  unfold new_uuid, time_time, on_qdrant, Qdrant.upsert, ret, raise.
  cbn [qdrant set_qdrant next_uuid tick]. rewrite lookup_insert_eq.
  case_bool_decide; [| done]. intros [= <- <-]. cbn [qdrant set_qdrant].
  eexists _, _. split; [apply lookup_insert_eq |]. cbn [c_points].
  split; [apply lookup_insert_eq |]. split; [done |]. cbn [p_payload].
  destruct metadata as [md|]; simpl in Hmeta.
  - rewrite lookup_union_r by done. by simplify_map_eq.
  - by simplify_map_eq.
Qed.
(** *** Answering *)

Lemma chat_completion_frame messages max_tokens w r w' :
  chat_completion env messages max_tokens w = (r, w') ->
  cache_manager w' = cache_manager w /\ qdrant w' = qdrant w /\
  embed_log w' = embed_log w /\ search_log w' = search_log w.
Proof.
  unfold chat_completion, try_except, send_chat, raise.
  repeat case_bool_decide;
    try (destruct (env_chat_backend env _ _) as [|[]]); by intros [= _ <-].
Qed.

Lemma cache_put_frame query results username w r w' :
  cache_put env query results username w = (r, w') ->
  qdrant w' = qdrant w /\ embed_log w' = embed_log w /\
  search_log w' = search_log w /\ chat_log w' = chat_log w.
Proof.
  unfold cache_put, bind, time_time, on_cache.
  destruct (cache_search_result _ _ _ _ _) as [res cm].
  destruct res; by intros [= _ <-].
Qed.

(** What a put through the engine leaves in the cache. *)
Lemma cache_put_spec query results username w :
  (0 <= max_search_cache (cache_manager w))%Z ->
  let k := cache_key username query in
  let entry := {| sr_query := query; sr_results := results;
                  sr_timestamp := env_clock env (ticks w); sr_username := username |} in
  let d := OrderedDict.del k (search_cache (cache_manager w)) ++ [(k, entry)] in
  cache_put env query results username w =
    (Ok tt,
     set_cache_manager
       (set_search_cache
          (drop (length d - Z.to_nat (max_search_cache (cache_manager w))) d)
          (cache_manager w))
       (tick w)).
Proof.
  intros Hmax k entry d. unfold cache_put, bind, time_time, on_cache.
  cbn [cache_manager tick]. by rewrite cache_search_result_spec.
Qed.

(** Without results the engine answers with the fixed message right after
    the search. *)
Lemma query_knowledge_base_no_results query username limit w emb w1 w2 :
  generate_embedding env query w = (Ok emb, w1) ->
  search_vector_db_enhanced env emb username (comprehensive_limit query limit) w1
    = (Ok [], w2) ->
  query_knowledge_base env query username limit w = (Ok NO_INFORMATION, w2).
Proof.
  intros Hemb Hsearch. unfold query_knowledge_base, try_except, bind.
  by rewrite Hemb, Hsearch.
Qed.

(** One run of [query_knowledge_base] on a query that is not blank sends
    one embedding request, and one search when the backend has answered. *)
Lemma query_knowledge_base_calls query username limit w r w' :
  Str.strip query ≠ "" ->
  query_knowledge_base env query username limit w = (r, w') ->
  exists req,
    embed_log w' = embed_log w ++ [req] /\
    match env_embedding_backend env (length (embed_log w)) req with
    | Ok _ => search_log w' = S (search_log w)
    | Raise _ => search_log w' = search_log w
    end.
Proof.
  intros Hblank. unfold query_knowledge_base, try_except, bind.
  destruct (generate_embedding_sends query w Hblank) as [req ->].
  intros Hrun. exists req. revert Hrun.
  destruct (env_embedding_backend env (length (embed_log w)) req) as [emb | e].
  - destruct (search_vector_db_enhanced env emb username _ (log_embed req w))
      as [res w1] eqn:Hsearch.
    apply search_vector_db_enhanced_frame in Hsearch
      as (_ & _ & Hemb1 & Hsearch1 & _).
    destruct res as [[|r0 results] | e]; unfold ret, raise.
    + intros [= _ <-]. by rewrite Hemb1, Hsearch1.
    + destruct (cache_put env query (r0 :: results) username w1)
        as [res2 w2] eqn:Hput.
      apply cache_put_frame in Hput as (_ & Hemb2 & Hsearch2 & _).
      destruct res2 as [[] | e].
      * destruct (chat_completion env _ 800 w2) as [res3 w3] eqn:Hchat.
        apply chat_completion_frame in Hchat as (_ & _ & Hemb3 & Hsearch3).
        destruct res3; case_exn; intros [= _ <-];
          by rewrite Hemb3, Hsearch3, Hemb2, Hsearch2, Hemb1, Hsearch1.
      * case_exn; intros [= _ <-]; by rewrite Hemb2, Hsearch2, Hemb1, Hsearch1.
    + case_exn; intros [= _ <-]; by rewrite Hemb1, Hsearch1.
  - case_exn; by intros [= _ <-].
Qed.

(** C4. When the vector search of [query_knowledge_base] returns no result,
    the answer is the fixed message and no request has gone to the chat
    backend. *)
Theorem no_results_skips_chat query username limit w emb w1 w2 :
  generate_embedding env query w = (Ok emb, w1) ->
  search_vector_db_enhanced env emb username (comprehensive_limit query limit) w1
    = (Ok [], w2) ->
  query_knowledge_base env query username limit w = (Ok NO_INFORMATION, w2) /\
  chat_log w2 = chat_log w.
Proof.
  intros Hemb Hsearch.
  split; [by eapply query_knowledge_base_no_results |].
  apply generate_embedding_frame in Hemb as (_ & _ & Hchat1 & _).
  apply search_vector_db_enhanced_frame in Hsearch as (_ & Hchat2 & _).
  by rewrite Hchat2, Hchat1.
Qed.

(** C10. When the vector search returns no result the cache manager is
    left as it was, so the cache decides the same way on the next
    [search_cache_first]; and a repetition of the query sends a new
    embedding request and, once the backend has answered, runs a new
    search. *)
Theorem no_results_not_cached query username limit w emb w1 w2 :
  generate_embedding env query w = (Ok emb, w1) ->
  search_vector_db_enhanced env emb username (comprehensive_limit query limit) w1
    = (Ok [], w2) ->
  query_knowledge_base env query username limit w = (Ok NO_INFORMATION, w2) /\
  cache_manager w2 = cache_manager w /\
  (forall limit',
     scan_cached_searches env query username limit'
       (get_cached_searches (cache_manager w2) username 20) =
     scan_cached_searches env query username limit'
       (get_cached_searches (cache_manager w) username 20)) /\
  (forall r3 w3,
     query_knowledge_base env query username limit w2 = (r3, w3) ->
     exists req,
       embed_log w3 = embed_log w2 ++ [req] /\
       match env_embedding_backend env (length (embed_log w2)) req with
       | Ok _ => search_log w3 = S (search_log w2)
       | Raise _ => search_log w3 = search_log w2
       end).
Proof.
  intros Hemb Hsearch.
  split; [by eapply query_knowledge_base_no_results |].
  assert (Hblank : Str.strip query ≠ "").
  { intros Hblank. by rewrite generate_embedding_blank in Hemb. }
  apply generate_embedding_frame in Hemb as (Hcm1 & _).
  apply search_vector_db_enhanced_frame in Hsearch as (Hcm2 & _).
  assert (Hcm : cache_manager w2 = cache_manager w) by by rewrite Hcm2.
  split; [done |]. split; [intros; by rewrite Hcm |].
  intros r3 w3. by apply query_knowledge_base_calls.
Qed.

(** C7, as the code has it. A text without a character other than white
    space, in the sense of [str.isspace], is what [strip] empties; it makes
    [generate_embedding] fail before any request is sent; the
    [ValueError] of the empty text is caught by the handler of the function
    and leaves as an [AIServiceError] that carries its message. *)
Theorem generate_embedding_blank_text text w :
  Str.all_space text = true ->
  generate_embedding env text w =
    (Raise (AIServiceError ("Failed to generate embedding with "
                            ++ env_provider env ++ ": " ++ "Text cannot be empty")), w).
Proof. intros Hblank. by apply generate_embedding_blank, strip_all_space. Qed.

(** A failure of the backend leaves as an [AIServiceError] too, unless it
    is the cancellation of the task. *)
Lemma generate_embedding_backend_failure text w :
  Str.strip text ≠ "" ->
  (forall n req, exists e, env_embedding_backend env n req = Raise e /\
                           is_Exception e = true) ->
  exists msg w', generate_embedding env text w = (Raise (AIServiceError msg), w').
Proof.
  intros Hblank Hdown. destruct (generate_embedding_sends text w Hblank) as [req ->].
  destruct (Hdown (length (embed_log w)) req) as (e & -> & He).
  unfold rethrow. rewrite He. by eexists _, _.
Qed.
(** *** Cache hits *)

Lemma scan_cached_searches_first_hit query username limit before hit after :
  Forall (fun c => ~ FuzzyMatch query c) before ->
  FuzzyMatch query hit ->
  scan_cached_searches env query username limit (before ++ hit :: after) =
    answer_from_cache env query username hit.
Proof.
  intros Hbefore Hhit. induction Hbefore as [|c before Hc _ IH]; simpl.
  - apply query_matches_spec in Hhit. by rewrite Hhit.
  - apply query_matches_false in Hc. by rewrite Hc.
Qed.

Lemma answer_from_cache_cache query username hit w r w' :
  (0 <= max_search_cache (cache_manager w))%Z ->
  answer_from_cache env query username hit w = (r, w') ->
  let k := cache_key username query in
  let entry := {| sr_query := query; sr_results := sr_results hit;
                  sr_timestamp := env_clock env (ticks w); sr_username := username |} in
  let d := OrderedDict.del k (search_cache (cache_manager w)) ++ [(k, entry)] in
  search_cache (cache_manager w') =
    drop (length d - Z.to_nat (max_search_cache (cache_manager w))) d.
Proof.
  intros Hmax Hrun k entry d. revert Hrun.
  unfold answer_from_cache, bind. rewrite cache_put_spec by done.
  fold k entry d. destruct (sr_results hit) as [|r0 results]; unfold ret.
  - by intros [= _ <-].
  - destruct (chat_completion env _ 800 _) as [res w1] eqn:Hchat.
    apply chat_completion_frame in Hchat as (Hcm & _).
    destruct res; intros [= _ <-]; by rewrite Hcm.
Qed.

(** C8, as the code has it. On a cache hit the engine puts the new query
    with the results of the matched entry: an entry under the new key, if
    there is one, is removed, the new entry goes last, and the oldest
    entries beyond the capacity are dropped.  When no entry has the new key
    and the cache is not full, the new entry is appended and nothing else
    changes: the matched entry keeps its position and the cache holds one
    entry more. *)
Theorem fuzzy_hit_puts_new_entry query username limit w before hit after r w' :
  get_cached_searches (cache_manager w) username 20 = before ++ hit :: after ->
  Forall (fun c => ~ FuzzyMatch query c) before ->
  FuzzyMatch query hit ->
  (0 <= max_search_cache (cache_manager w))%Z ->
  search_cache_first env query username limit w = (r, w') ->
  let k := cache_key username query in
  let entry := {| sr_query := query; sr_results := sr_results hit;
                  sr_timestamp := env_clock env (ticks w); sr_username := username |} in
  let d := OrderedDict.del k (search_cache (cache_manager w)) ++ [(k, entry)] in
  search_cache (cache_manager w') =
    drop (length d - Z.to_nat (max_search_cache (cache_manager w))) d /\
  (k ∉ OrderedDict.keys (search_cache (cache_manager w)) ->
   (Z.of_nat (length (search_cache (cache_manager w)))
    < max_search_cache (cache_manager w))%Z ->
   search_cache (cache_manager w') = search_cache (cache_manager w) ++ [(k, entry)]).
Proof.
  intros Hwindow Hbefore Hhit Hmax Hrun k entry d.
  assert (Hcache : search_cache (cache_manager w') =
            drop (length d - Z.to_nat (max_search_cache (cache_manager w))) d).
  { rewrite search_cache_first_unfold, Hwindow in Hrun.
    rewrite scan_cached_searches_first_hit in Hrun by done.
    unfold try_except in Hrun.
    destruct (answer_from_cache env query username hit w) as [res w1] eqn:Hans.
    apply answer_from_cache_cache in Hans; [| done].
    destruct res as [|[]]; cbn [is_Exception] in Hrun; injection Hrun as _ <-;
      exact Hans. }
  split; [exact Hcache |].
  intros Hnew Hroom. rewrite Hcache. subst d.
  rewrite del_absent by done. rewrite length_app. simpl.
  replace (length (search_cache (cache_manager w)) + 1
           - Z.to_nat (max_search_cache (cache_manager w)))%nat with 0%nat by lia.
  done.
Qed.

End EngineFacts.

Section EngineExamples.
#[local] Existing Instance latin1.

(** The two examples of the specification: a cached [python tutorials]
    answers [python tutorials for beginners]; a cached [hi] does not answer
    [hi there], the cached query being too short for the substring rule. *)
Example query_matches_python :
  query_matches "python tutorials for beginners"
    {| sr_query := "python tutorials"; sr_results := []; sr_timestamp := 1;
       sr_username := "u1" |} = true.
Proof. reflexivity. Qed.

Example query_matches_hi :
  query_matches "hi there"
    {| sr_query := "hi"; sr_results := []; sr_timestamp := 1;
       sr_username := "u1" |} = false.
Proof. reflexivity. Qed.

(** ** The theorems at work on the example data *)

Lemma search_owner_scoped_witness :
  Forall (fun r =>
    (exists c p,
       qdrant world_openai !! env_qdrant_collection_name env0 = Some c /\
       c_points c !! r_id r = Some p /\
       p_payload p !! "username" = Some (VStr "alice") /\
       r = format_hit {| h_id := r_id r;
                         h_score := env_similarity env0 (replicate 1536 1%Q) (p_vector p);
                         h_payload := p_payload p |}) /\
    (forall other c p,
       other ≠ "alice" ->
       qdrant world_openai !! env_qdrant_collection_name env0 = Some c ->
       p_payload p !! "username" = Some (VStr other) ->
       c_points c !! r_id r ≠ Some p))
    [ format_hit {| h_id := "point-a"; h_score := 9 # 10;
                    h_payload := p_payload (point_of 1536 "Paris is the capital of France" "alice") |} ].
Proof.
  apply (search_owner_scoped env0 (replicate 1536 1%Q) "alice" 5 world_openai _
           (snd (search_vector_db env0 (replicate 1536 1%Q) "alice" 5 world_openai))).
  left. vm_compute. reflexivity.
Defined.

Lemma ensure_collection_exists_dimensions_witness :
  exists w' c',
    ensure_collection_exists env0 "recall_documents" world_gemini = (Ok tt, w') /\
    qdrant w' !! "recall_documents" = Some c' /\
    c_size c' = get_embedding_dimensions "OpenAI" "text-embedding-ada-002" /\
    (c_size (two_owners 768) ≠ get_embedding_dimensions "OpenAI" "text-embedding-ada-002" ->
       c_points c' = ∅ /\ c_indexes c' = with_required_indexes ∅) /\
    (c_size (two_owners 768) = get_embedding_dimensions "OpenAI" "text-embedding-ada-002" ->
       c_points c' = c_points (two_owners 768) /\
       c_indexes c' = with_required_indexes (c_indexes (two_owners 768))) /\
    (forall other, other ≠ "recall_documents" ->
       qdrant w' !! other = qdrant world_gemini !! other) /\
    set_qdrant (qdrant world_gemini) w' = world_gemini.
Proof.
  apply (ensure_collection_exists_dimensions env0 "recall_documents" world_gemini
           (two_owners 768)).
  vm_compute. reflexivity.
Defined.

Lemma no_results_skips_chat_witness :
  query_knowledge_base env0 "What is the capital of France?" "carol" 10 world_openai
    = (Ok NO_INFORMATION,
       snd (search_vector_db_enhanced env0 (replicate 1536 1%Q) "carol" 10
              (snd (generate_embedding env0 "What is the capital of France?" world_openai)))) /\
  chat_log (snd (search_vector_db_enhanced env0 (replicate 1536 1%Q) "carol" 10
              (snd (generate_embedding env0 "What is the capital of France?" world_openai))))
    = chat_log world_openai.
Proof.
  apply (no_results_skips_chat env0 "What is the capital of France?" "carol" 10
           world_openai (replicate 1536 1%Q)
           (snd (generate_embedding env0 "What is the capital of France?" world_openai))).
  - vm_compute. reflexivity.
  - vm_compute. reflexivity.
Defined.

Lemma no_results_not_cached_witness :
  query_knowledge_base env0 "What is the capital of France?" "carol" 10 world_openai
    = (Ok NO_INFORMATION,
       snd (query_knowledge_base env0 "What is the capital of France?" "carol" 10
              world_openai)) /\
  cache_manager (snd (query_knowledge_base env0 "What is the capital of France?" "carol" 10
                        world_openai))
    = cache_manager world_openai /\
  (forall limit',
     scan_cached_searches env0 "What is the capital of France?" "carol" limit'
       (get_cached_searches
          (cache_manager (snd (query_knowledge_base env0 "What is the capital of France?"
                                 "carol" 10 world_openai))) "carol" 20) =
     scan_cached_searches env0 "What is the capital of France?" "carol" limit'
       (get_cached_searches (cache_manager world_openai) "carol" 20)) /\
  (forall r3 w3,
     query_knowledge_base env0 "What is the capital of France?" "carol" 10
       (snd (query_knowledge_base env0 "What is the capital of France?" "carol" 10
               world_openai)) = (r3, w3) ->
     exists req,
       embed_log w3 =
         embed_log (snd (query_knowledge_base env0 "What is the capital of France?"
                           "carol" 10 world_openai)) ++ [req] /\
       match env_embedding_backend env0
               (length (embed_log (snd (query_knowledge_base env0
                                          "What is the capital of France?" "carol" 10
                                          world_openai)))) req with
       | Ok _ =>
           search_log w3 =
             S (search_log (snd (query_knowledge_base env0 "What is the capital of France?"
                                   "carol" 10 world_openai)))
       | Raise _ =>
           search_log w3 =
             search_log (snd (query_knowledge_base env0 "What is the capital of France?"
                                "carol" 10 world_openai))
       end).
Proof.
  apply (no_results_not_cached env0 "What is the capital of France?" "carol" 10
           world_openai (replicate 1536 1%Q)
           (snd (generate_embedding env0 "What is the capital of France?" world_openai))).
  - vm_compute. reflexivity.
  - vm_compute. reflexivity.
Defined.

Lemma generate_embedding_blank_text_witness :
  generate_embedding env0 "   " world0 =
    (Raise (AIServiceError ("Failed to generate embedding with "
                            ++ "OpenAI" ++ ": " ++ "Text cannot be empty")), world0).
Proof.
  apply (generate_embedding_blank_text env0 "   " world0). reflexivity.
Defined.

(** Against C7 as the spec words it: the blank text and the unreachable
    backend end in the same class of exception, and the blank text does not
    end in a [ValueError]. *)
Lemma blank_text_is_not_invalid_input :
  generate_embedding env0 "   " world0 =
    (Raise (AIServiceError "Failed to generate embedding with OpenAI: Text cannot be empty"),
     world0) /\
  fst (generate_embedding env_down "hello" world0) =
    Raise (AIServiceError "Failed to generate embedding with OpenAI: Connection error.") /\
  forall msg, fst (generate_embedding env0 "   " world0) ≠ Raise (ValueError msg).
Proof.
  split; [reflexivity |]. split; [reflexivity |]. intros msg. vm_compute. discriminate.
Qed.

Lemma fuzzy_hit_puts_new_entry_witness :
  search_cache
    (cache_manager
       (snd (search_cache_first env0 "python tutorials for beginners" "u1" 10 world_python))) =
    drop
      (length (OrderedDict.del (cache_key "u1" "python tutorials for beginners")
                 (search_cache (cache_manager world_python))
               ++ [(cache_key "u1" "python tutorials for beginners",
                    {| sr_query := "python tutorials for beginners";
                       sr_results := sr_results python_title;
                       sr_timestamp := env_clock env0 (ticks world_python);
                       sr_username := "u1" |})])
       - Z.to_nat (max_search_cache (cache_manager world_python)))
      (OrderedDict.del (cache_key "u1" "python tutorials for beginners")
         (search_cache (cache_manager world_python))
       ++ [(cache_key "u1" "python tutorials for beginners",
            {| sr_query := "python tutorials for beginners";
               sr_results := sr_results python_title;
               sr_timestamp := env_clock env0 (ticks world_python);
               sr_username := "u1" |})]) /\
  (cache_key "u1" "python tutorials for beginners"
     ∉ OrderedDict.keys (search_cache (cache_manager world_python)) ->
   (Z.of_nat (length (search_cache (cache_manager world_python)))
    < max_search_cache (cache_manager world_python))%Z ->
   search_cache
     (cache_manager
        (snd (search_cache_first env0 "python tutorials for beginners" "u1" 10 world_python))) =
     search_cache (cache_manager world_python)
     ++ [(cache_key "u1" "python tutorials for beginners",
          {| sr_query := "python tutorials for beginners";
             sr_results := sr_results python_title;
             sr_timestamp := env_clock env0 (ticks world_python);
             sr_username := "u1" |})]).
Proof.
  apply (fuzzy_hit_puts_new_entry env0 "python tutorials for beginners" "u1" 10
           world_python [] python_title [python_lower]
           (fst (search_cache_first env0 "python tutorials for beginners" "u1" 10
                   world_python))).
  - vm_compute. reflexivity.
  - constructor.
  - apply query_matches_spec. vm_compute. reflexivity.
  - vm_compute. discriminate.
  - vm_compute. reflexivity.
Defined.

(** Against C8 as it is worded: [u1] holds [python tutorials] and the newer
    [Python Tutorials]; the query [python tutorials] is answered by the
    newer entry, which differs from it in case, and the put then refreshes
    the entry that already has the key of the query.  The cache holds two
    entries as before, and the matched entry has moved from the second
    place to the first. *)
Lemma fuzzy_hit_refreshes_existing_key :
  get_cached_searches (cache_manager world_python) "u1" 20 = [python_title; python_lower] /\
  query_matches "python tutorials" python_title = true /\
  sr_query python_title ≠ "python tutorials" /\
  search_cache (cache_manager world_python) =
    [ (cache_key "u1" "python tutorials", python_lower);
      (cache_key "u1" "Python Tutorials", python_title) ] /\
  search_cache
    (cache_manager (snd (search_cache_first env0 "python tutorials" "u1" 10 world_python))) =
    [ (cache_key "u1" "Python Tutorials", python_title);
      (cache_key "u1" "python tutorials",
       {| sr_query := "python tutorials"; sr_results := python_results;
          sr_timestamp := 102; sr_username := "u1" |}) ] /\
  (Z.of_nat (length (search_cache (cache_manager world_python)))
   < max_search_cache (cache_manager world_python))%Z.
Proof.
  split; [vm_compute; reflexivity |]. split; [vm_compute; reflexivity |].
  split; [discriminate |]. split; [vm_compute; reflexivity |].
  split; [vm_compute; reflexivity |]. vm_compute. reflexivity.
Qed.

(** Characters beyond ASCII.  The no-break space (U+00A0), NEL (U+0085)
    and the em space (U+2003) are white space: a text made of them is
    blank, and around a word they are stripped before the text is sent. *)
Example generate_embedding_unicode_blank :
  generate_embedding env0 [160; 133; 8195]%N world0 =
    (Raise (AIServiceError "Failed to generate embedding with OpenAI: Text cannot be empty"),
     world0) /\
  embed_log (snd (generate_embedding env0 (160%N :: "hello" ++ [8195%N]) world0)) =
    [OpenAIEmbed "text-embedding-ada-002" "hello"].
Proof. split; reflexivity. Qed.

(** Upper and lower case beyond ASCII: the cached [ECOLE de paris] and the
    older [ecole normale], the first letter of the former being U+00C9, both
    answer the query [ecole de paris et ecole normale] that starts with
    U+00E9; the newer one is used, and its results are cached under the new
    query. *)
Example search_cache_first_accents :
  let newer := {| sr_query := 201%N :: "COLE de paris"; sr_results := python_results;
                  sr_timestamp := 2; sr_username := "u1" |} in
  let older := {| sr_query := "ecole normale"; sr_results := [];
                  sr_timestamp := 1; sr_username := "u1" |} in
  let query := 233%N :: "cole de paris et ecole normale" in
  let w := world_of (load_search_cache 10 [older; newer]) ∅ in
  get_cached_searches (cache_manager w) "u1" 20 = [newer; older] /\
  query_matches query newer = true /\
  query_matches query older = true /\
  sr_results <$> last (search_cache (cache_manager
                         (snd (search_cache_first env0 query "u1" 10 w)))).*2
    = Some python_results.
Proof. repeat split; vm_compute; reflexivity. Qed.

End EngineExamples.

(** * More of the code *)

(** ** cache_manager.py: the purges *)

Section PurgeFacts.
Context {U : Unicode}.

Lemma del_all_filter to_remove (d : OrderedDict.t) :
  del_all to_remove d = filter (fun kv => kv.1 ∉ to_remove) d.
Proof.
  unfold del_all. revert d.
  induction to_remove as [|k ks IH]; intros d; simpl.
  - symmetry. induction d as [|kv d IHd]; [done |].
    rewrite filter_cons_True by apply not_elem_of_nil. by rewrite IHd.
  - rewrite IH. unfold OrderedDict.del. rewrite list_filter_filter.
    apply list_filter_iff. intros kv. rewrite not_elem_of_cons. tauto.
Qed.

Lemma filter_ext_elem {A} (P Q : A -> Prop)
    `{!forall x, Decision (P x), !forall x, Decision (Q x)} (l : list A) :
  (forall x, x ∈ l -> (P x <-> Q x)) -> filter P l = filter Q l.
Proof.
  induction l as [|x l IH]; intros Hext; [done |].
  assert (Hl : filter P l = filter Q l).
  { apply IH. intros y Hy. apply Hext. by right. }
  destruct (decide (P x)) as [HP | HP].
  - rewrite !filter_cons_True; [by rewrite Hl | | done]. apply Hext; [by left | done].
  - rewrite !filter_cons_False; [done | | done].
    intros HQ. apply HP, Hext; [by left | done].
Qed.

Lemma key_unique (d : OrderedDict.t) k x y :
  NoDup (OrderedDict.keys d) -> (k, x) ∈ d -> (k, y) ∈ d -> x = y.
Proof.
  unfold OrderedDict.keys. induction d as [|[k' v'] d IH]; intros Hnd Hx Hy.
  - by apply elem_of_nil in Hx.
  - rewrite fmap_cons in Hnd. apply NoDup_cons in Hnd as [Hk' Hnd].
    apply elem_of_cons in Hx as [Hx | Hx]; apply elem_of_cons in Hy as [Hy | Hy].
    + congruence.
    + injection Hx as -> ->. destruct Hk'. apply list_elem_of_fmap. by exists (k', y).
    + injection Hy as -> ->. destruct Hk'. apply list_elem_of_fmap. by exists (k', x).
    + by apply IH.
Qed.

(** Deleting the keys of the selected entries removes exactly the selected
    entries, the keys of a dictionary being distinct. *)
Lemma del_all_selected (P : str * SearchResult -> Prop)
    `{!forall kv, Decision (P kv)} (d : OrderedDict.t) :
  NoDup (OrderedDict.keys d) ->
  del_all (map fst (filter P d)) d = filter (fun kv => ~ P kv) d.
Proof.
  intros Hnd. rewrite del_all_filter. apply filter_ext_elem.
  intros [k v] Hkv. simpl. split.
  - intros Hout HP. apply Hout. apply list_elem_of_fmap.
    exists (k, v). split; [done |]. by apply list_elem_of_filter.
  - intros HnP ([k2 v2] & Hk & Hin)%list_elem_of_fmap. simpl in Hk. subst k2.
    apply list_elem_of_filter in Hin as [HP Hin].
    by rewrite (key_unique d k v v2 Hnd Hkv Hin) in HnP.
Qed.

(** What an owner sees does not change when only entries of others go. *)
Lemma owner_view_filter (Q : str * SearchResult -> Prop)
    `{!forall kv, Decision (Q kv)} owner (d : OrderedDict.t) :
  (forall kv, kv ∈ d -> sr_username kv.2 = owner -> Q kv) ->
  filter (fun result => sr_username result = owner) (OrderedDict.values (filter Q d)) =
  filter (fun result => sr_username result = owner) (OrderedDict.values d).
Proof.
  unfold OrderedDict.values. induction d as [|kv d IH]; intros Hkeep; [done |].
  assert (Hd : forall kv', kv' ∈ d -> sr_username kv'.2 = owner -> Q kv').
  { intros kv' Hin. apply Hkeep. by right. }
  destruct (decide (Q kv)) as [HQ | HQ].
  - rewrite filter_cons_True by done. rewrite !fmap_cons.
    destruct (decide (sr_username kv.2 = owner)).
    + rewrite !filter_cons_True by done. by rewrite IH.
    + rewrite !filter_cons_False by done. by rewrite IH.
  - rewrite filter_cons_False by done. rewrite fmap_cons.
    rewrite (filter_cons_False _ (kv.2)); [by apply IH |].
    intros Hown. apply HQ, Hkeep; [by left | done].
Qed.

Lemma get_cached_searches_view cm cm' owner limit :
  filter (fun result => sr_username result = owner)
         (OrderedDict.values (search_cache cm')) =
  filter (fun result => sr_username result = owner)
         (OrderedDict.values (search_cache cm)) ->
  get_cached_searches cm' owner limit = get_cached_searches cm owner limit.
Proof. unfold get_cached_searches. by intros ->. Qed.

Lemma owner_gone username (d : OrderedDict.t) :
  filter (fun result => sr_username result = username)
         (OrderedDict.values (filter (fun kv => sr_username kv.2 ≠ username) d)) = [].
Proof.
  unfold OrderedDict.values. induction d as [|kv d IH]; [done |].
  destruct (decide (sr_username kv.2 ≠ username)).
  - rewrite filter_cons_True by done. rewrite fmap_cons.
    by rewrite filter_cons_False by tauto.
  - by rewrite filter_cons_False by done.
Qed.

(** X1. [clear_old_cache] keeps exactly the entries whose time stamp is not
    before the cutoff [now - max_age_days * 86400], in their order; the
    capacity is not changed. *)
Theorem clear_old_cache_keeps_recent now max_age_days cm :
  NoDup (OrderedDict.keys (search_cache cm)) ->
  let cutoff := (now - inject_Z (max_age_days * 24 * 60 * 60))%Q in
  search_cache (clear_old_cache now max_age_days cm) =
    filter (fun kv => Qle_bool cutoff (sr_timestamp kv.2) = true) (search_cache cm) /\
  (forall kv, kv ∈ search_cache (clear_old_cache now max_age_days cm) <->
              kv ∈ search_cache cm /\ (cutoff <= sr_timestamp kv.2)%Q) /\
  max_search_cache (clear_old_cache now max_age_days cm) = max_search_cache cm.
Proof.
  intros Hnd cutoff.
  assert (Heq : search_cache (clear_old_cache now max_age_days cm) =
            filter (fun kv => Qle_bool cutoff (sr_timestamp kv.2) = true) (search_cache cm)).
  { unfold clear_old_cache. cbn [search_cache set_search_cache]. fold cutoff.
    rewrite del_all_selected by done. apply list_filter_iff.
    intros kv. unfold Qlt_bool. destruct (Qle_bool cutoff (sr_timestamp kv.2)); naive_solver. }
  split; [exact Heq |]. split; [| done].
  intros kv. rewrite Heq, list_elem_of_filter, Qle_bool_iff. tauto.
Qed.

Lemma clear_user_search_cache_eq username search_terms cm :
  NoDup (OrderedDict.keys (search_cache cm)) ->
  search_cache (clear_user_search_cache username search_terms cm) =
    filter (fun kv => ~ (sr_username kv.2 = username /\
                         Str.contains (Str.lower search_terms)
                           (Str.lower (sr_query kv.2)) = true))
           (search_cache cm).
Proof.
  intros Hnd. unfold clear_user_search_cache. cbn [search_cache set_search_cache].
  by rewrite del_all_selected.
Qed.

Lemma clear_all_user_cache_eq username m :
  NoDup (OrderedDict.keys (search_cache (searches m))) ->
  search_cache (searches (clear_all_user_cache username m)) =
    filter (fun kv => sr_username kv.2 ≠ username) (search_cache (searches m)).
Proof.
  intros Hnd. unfold clear_all_user_cache. cbn [searches search_cache set_search_cache].
  by rewrite del_all_selected.
Qed.

(** X2. [clear_user_search_cache] removes exactly the entries of the owner
    whose query holds the search terms, case-insensitively; what any other
    owner gets from [get_cached_searches] is not changed. *)
Theorem clear_user_search_cache_scoped username search_terms cm :
  NoDup (OrderedDict.keys (search_cache cm)) ->
  search_cache (clear_user_search_cache username search_terms cm) =
    filter (fun kv => ~ (sr_username kv.2 = username /\
                         Str.contains (Str.lower search_terms)
                           (Str.lower (sr_query kv.2)) = true))
           (search_cache cm) /\
  (forall limit c,
     c ∈ get_cached_searches (clear_user_search_cache username search_terms cm)
           username limit ->
     ~ is_substring (Str.lower search_terms) (Str.lower (sr_query c))) /\
  (forall other limit,
     other ≠ username ->
     get_cached_searches (clear_user_search_cache username search_terms cm) other limit =
     get_cached_searches cm other limit).
Proof.
  intros Hnd.
  assert (Heq : search_cache (clear_user_search_cache username search_terms cm) =
            filter (fun kv => ~ (sr_username kv.2 = username /\
                                 Str.contains (Str.lower search_terms)
                                   (Str.lower (sr_query kv.2)) = true))
                   (search_cache cm)).
  { by apply clear_user_search_cache_eq. }
  split; [exact Heq |]. split.
  - intros limit c Hc Hsub. unfold get_cached_searches, slice_to in Hc.
    assert (Hin : c ∈ filter (fun result => sr_username result = username)
                    (OrderedDict.values
                       (search_cache (clear_user_search_cache username search_terms cm)))).
    { rewrite <- (sort_desc_perm sr_timestamp). case_bool_decide.
      - by apply subseteq_take in Hc.
      - by apply subseteq_take in Hc. }
    apply list_elem_of_filter in Hin as [Hown Hin]. rewrite Heq in Hin.
    unfold OrderedDict.values in Hin.
    apply list_elem_of_fmap in Hin as ([k v] & -> & Hin).
    apply list_elem_of_filter in Hin as [Hkeep _]. apply Hkeep.
    split; [done |]. by apply contains_spec.
  - intros other limit Hother. apply get_cached_searches_view. rewrite Heq.
    apply owner_view_filter. intros kv _ Hown [Hu _]. congruence.
Qed.

(** X3. With empty search terms [clear_user_search_cache] removes every
    cached search of the owner: the empty string is in every query. *)
Theorem clear_user_search_cache_empty_terms username cm :
  NoDup (OrderedDict.keys (search_cache cm)) ->
  search_cache (clear_user_search_cache username "" cm) =
    filter (fun kv => sr_username kv.2 ≠ username) (search_cache cm) /\
  forall limit,
    get_cached_searches (clear_user_search_cache username "" cm) username limit = [].
Proof.
  intros Hnd.
  pose proof (clear_user_search_cache_eq username "" cm Hnd) as Heq.
  assert (Heq' : search_cache (clear_user_search_cache username "" cm) =
            filter (fun kv => sr_username kv.2 ≠ username) (search_cache cm)).
  { rewrite Heq. apply list_filter_iff. intros kv.
    assert (Str.contains (Str.lower "") (Str.lower (sr_query kv.2)) = true)
      by (unfold Str.lower; rewrite unicode_lower_empty;
          by destruct (unicode_lower (sr_query kv.2))).
    tauto. }
  split; [exact Heq' |].
  intros limit. unfold get_cached_searches. rewrite Heq'.
  assert (Hnone : filter (fun result => sr_username result = username)
            (OrderedDict.values
               (filter (fun kv => sr_username kv.2 ≠ username) (search_cache cm))) = []).
  { apply owner_gone. }
  rewrite Hnone. simpl. unfold slice_to. case_bool_decide; apply take_nil.
Qed.

(** X4. [clear_all_user_cache] removes every cached search of the owner and
    no other: the owner gets nothing from [get_cached_searches] afterwards,
    every other owner gets what they got before. *)
Theorem clear_all_user_cache_scoped username m :
  NoDup (OrderedDict.keys (search_cache (searches m))) ->
  search_cache (searches (clear_all_user_cache username m)) =
    filter (fun kv => sr_username kv.2 ≠ username) (search_cache (searches m)) /\
  (forall limit,
     get_cached_searches (searches (clear_all_user_cache username m)) username limit = []) /\
  (forall other limit,
     other ≠ username ->
     get_cached_searches (searches (clear_all_user_cache username m)) other limit =
     get_cached_searches (searches m) other limit).
Proof.
  intros Hnd.
  assert (Heq : search_cache (searches (clear_all_user_cache username m)) =
            filter (fun kv => sr_username kv.2 ≠ username) (search_cache (searches m))).
  { by apply clear_all_user_cache_eq. }
  split; [exact Heq |]. split.
  - intros limit. unfold get_cached_searches. rewrite Heq, owner_gone. simpl.
    unfold slice_to. case_bool_decide; apply take_nil.
  - intros other limit Hother. apply get_cached_searches_view. rewrite Heq.
    apply owner_view_filter. intros kv _ Hown. congruence.
Qed.

Lemma find_user_id_Some username modes user_id :
  find_user_id username modes = Some user_id ->
  exists mode,
    modes !! user_id = Some mode /\ um_mode mode ≠ "" /\ str_of user_id = username.
Proof.
  unfold find_user_id. intros Hfind.
  destruct (find _ (map_to_list modes)) as [[uid mode]|] eqn:Hf; [| done].
  injection Hfind as <-. apply find_some in Hf as [Hin Htest].
  apply list_elem_of_In, elem_of_map_to_list in Hin.
  apply andb_true_iff in Htest as [Hmode Hname]. simpl in *.
  exists mode. split; [done |]. split.
  - unfold truthy in Hmode. apply negb_true_iff, bool_decide_eq_false in Hmode. done.
  - by apply bool_decide_eq_true in Hname.
Qed.

Lemma find_user_id_None username modes user_id mode :
  find_user_id username modes = None ->
  modes !! user_id = Some mode -> str_of user_id = username -> um_mode mode = "".
Proof.
  unfold find_user_id. intros Hfind Hmode Hname.
  destruct (find _ (map_to_list modes)) as [um|] eqn:Hf; [done |].
  pose proof (find_none _ _ Hf (user_id, mode)) as Htest. simpl in Htest.
  rewrite (bool_decide_eq_true_2 _ Hname), andb_true_r in Htest.
  unfold truthy in Htest.
  assert (Hin : In (user_id, mode) (map_to_list modes)).
  { by apply list_elem_of_In, elem_of_map_to_list. }
  apply Htest, negb_false_iff, bool_decide_eq_true in Hin. done.
Qed.

(** X5. The user mode that [clear_all_user_cache] removes is that of the
    user whose id, written in decimal, is the name given, if that mode is
    not empty and the id is not 0.  The mode of every other user stays, and
    so does the mode of the user 0: a name that is not the decimal form of a
    user id removes no mode at all. *)
Theorem clear_all_user_cache_modes username m :
  (forall user_id,
     str_of user_id ≠ username ->
     user_modes (clear_all_user_cache username m) !! user_id = user_modes m !! user_id) /\
  user_modes (clear_all_user_cache username m) !! 0%Z = user_modes m !! 0%Z /\
  (forall user_id mode,
     user_id ≠ 0%Z -> str_of user_id = username ->
     user_modes m !! user_id = Some mode -> um_mode mode ≠ "" ->
     user_modes (clear_all_user_cache username m) !! user_id = None).
Proof.
  unfold clear_all_user_cache. cbn [user_modes].
  destruct (find_user_id username (user_modes m)) as [uid|] eqn:Hfind.
  - apply find_user_id_Some in Hfind as (mode0 & Hmode0 & Hne0 & Hname0).
    case_bool_decide as Hzero.
    + split; [| split].
      * intros user_id Hname. apply lookup_delete_ne. congruence.
      * by apply lookup_delete_ne.
      * intros user_id mode _ Hname _ _.
        assert (user_id = uid) as -> by (apply str_of_Z_inj; congruence).
        apply lookup_delete_eq.
    + split; [done |]. split; [done |].
      intros user_id mode Hnz Hname _ _.
      assert (user_id = uid) by (apply str_of_Z_inj; congruence). congruence.
  - split; [done |]. split; [done |].
    intros user_id mode _ Hname Hmode Hne.
    by rewrite (find_user_id_None _ _ _ _ Hfind Hmode Hname) in Hne.
Qed.

(** X6. [get_user_mode] returns the mode of the last [set_user_mode] of that
    user; setting the mode of a user changes neither the mode of another
    user nor the cached searches. *)
Theorem set_user_mode_get_user_mode now user_id mode m :
  get_user_mode user_id (set_user_mode now user_id mode m) = Some mode /\
  (forall other, other ≠ user_id ->
     get_user_mode other (set_user_mode now user_id mode m) = get_user_mode other m) /\
  searches (set_user_mode now user_id mode m) = searches m.
Proof.
  unfold get_user_mode, set_user_mode. cbn [user_modes set_user_modes searches].
  split; [by rewrite lookup_insert_eq |]. split; [| done].
  intros other Hother. by rewrite lookup_insert_ne.
Qed.

Lemma owner_count username (d : OrderedDict.t) :
  length (filter (fun result => sr_username result = username) (OrderedDict.values d)) =
  length (filter (fun kv => sr_username kv.2 = username) d).
Proof.
  unfold OrderedDict.values. induction d as [|kv d IH]; [done |].
  rewrite fmap_cons. destruct (decide (sr_username kv.2 = username)).
  - rewrite !filter_cons_True by done. simpl. by rewrite IH.
  - by rewrite !filter_cons_False by done.
Qed.

(** X7. For a user name that is not empty, [get_cache_stats] reports
    under [total_searches] the number of the cached searches of that user,
    which is the number of entries that [get_cached_searches] returns for
    the user when its limit does not cut; without a name it reports the
    number of all entries.  The count of a user is never above that total,
    and it is 0 after [clear_all_user_cache] of the user. *)
Theorem get_cache_stats_counts username m :
  username ≠ "" ->
  NoDup (OrderedDict.keys (search_cache (searches m))) ->
  get_cache_stats (Some username) m !! "total_searches" =
    Some (Z.of_nat (length (filter (fun kv => sr_username kv.2 = username)
                                   (search_cache (searches m))))) /\
  (forall limit,
     (Z.of_nat (length (search_cache (searches m))) <= limit)%Z ->
     get_cache_stats (Some username) m !! "total_searches" =
       Some (Z.of_nat (length (get_cached_searches (searches m) username limit)))) /\
  get_cache_stats None m !! "total_searches" =
    Some (Z.of_nat (length (search_cache (searches m)))) /\
  (length (filter (fun kv => sr_username kv.2 = username) (search_cache (searches m)))
   <= length (search_cache (searches m)))%nat /\
  get_cache_stats (Some username) (clear_all_user_cache username m) !! "total_searches"
    = Some 0%Z.
Proof.
  intros Hname Hnd. unfold get_cache_stats, truthy.
  rewrite bool_decide_eq_false_2 by done. cbn [negb].
  set (owned := filter (fun result => sr_username result = username)
                       (OrderedDict.values (search_cache (searches m)))).
  assert (Hcount : length owned =
            length (filter (fun kv => sr_username kv.2 = username)
                           (search_cache (searches m)))).
  { subst owned. apply owner_count. }
  assert (Hle : (length owned <= length (search_cache (searches m)))%nat).
  { subst owned. etrans; [apply length_filter |].
    unfold OrderedDict.values. by rewrite length_fmap. }
  split; [| split; [| split; [| split]]].
  - rewrite lookup_insert_eq. by rewrite Hcount.
  - intros limit Hlimit. rewrite lookup_insert_eq. do 2 f_equal.
    unfold get_cached_searches, slice_to. fold owned.
    rewrite bool_decide_eq_false_2 by lia.
    rewrite take_ge; [by rewrite (Permutation_length (sort_desc_perm _ _)) |].
    rewrite (Permutation_length (sort_desc_perm _ _)). lia.
  - by rewrite lookup_insert_eq.
  - by rewrite <- Hcount.
  - clear owned Hcount Hle.
    rewrite (clear_all_user_cache_eq username m Hnd), owner_gone. by simplify_map_eq.
Qed.

Lemma slice_to_short n (s : str) :
  (length s <= n)%nat -> Str.slice_to n s = s.
Proof. apply take_ge. Qed.

Lemma slice_to_length n (s : str) :
  length (Str.slice_to n s) = Nat.min n (length s).
Proof. apply length_take. Qed.

(** X8. The snippet of a result in the chat context is the text itself when
    the text has fewer than 200 characters, and otherwise its first 200
    characters followed by three dots - also for a text of exactly 200
    characters, of which nothing was cut. *)
Theorem chat_snippet_bound result text :
  r_text result = VStr text ->
  exists snippet,
    chat_snippet result = Some snippet /\
    (Str.len snippet <= 203)%Z /\
    ((Str.len text < 200)%Z -> snippet = text) /\
    ((200 <= Str.len text)%Z -> snippet = Str.slice_to 200 text ++ "...").
Proof.
  intros Htext. unfold chat_snippet. rewrite Htext. eexists. split; [reflexivity |].
  unfold Str.len. pose proof (slice_to_length 200 text) as Hlen.
  case_bool_decide as Hfull.
  - split; [| split].
    + rewrite length_app. change (length "...") with 3%nat. lia.
    + intros Hshort. lia.
    + done.
  - split; [| split].
    + lia.
    + intros Hshort. apply slice_to_short. lia.
    + intros Hlong. lia.
Qed.

Lemma join_head_nonempty sep head parts :
  head ≠ "" -> Str.join sep (head :: parts) ≠ "".
Proof.
  intros Hhead. destruct head as [|c head]; [done |].
  destruct parts; simpl; discriminate.
Qed.

(** X9. [get_search_context_for_chat] returns the empty string exactly when
    the owner has no cached search. *)
Theorem get_search_context_for_chat_empty cm username :
  get_search_context_for_chat cm username = Some "" <->
  get_cached_searches cm username 3 = [].
Proof.
  unfold get_search_context_for_chat.
  destruct (get_cached_searches cm username 3) as [|c l]; [done |].
  split; [| done].
  destruct (mapM _ _) as [parts|]; cbn [mbind option_bind]; [| done].
  intros Hjoin. exfalso. eapply join_head_nonempty; [| exact (inj Some _ _ Hjoin)]. done.
Qed.

End PurgeFacts.

(** ** utils.py: dimensions, requests, errors *)

Lemma get_embedding_dimensions_cases provider embedding_model :
  let d := get_embedding_dimensions provider embedding_model in
  (d = 768%Z \/ d = 1536%Z \/ d = 3072%Z) /\
  (d = 768%Z -> provider = "Gemini") /\
  (d = 3072%Z -> provider = "OpenAI" /\ embedding_model = "text-embedding-3-large") /\
  (provider ∉ ["OpenAI"; "Gemini"; "Claude"; "GitHub"; "Custom"] -> d = 1536%Z).
Proof.
  unfold get_embedding_dimensions, dimensions_map. cbn [list_to_map foldr fst snd].
  repeat first
    [ rewrite lookup_insert; case_decide; subst; cbn [from_option]; unfold id
    | rewrite lookup_empty; cbn [from_option]; unfold id ];
    (split; [auto |]); (split; [done |]); (split; [done |]);
    intros Hunknown; try done; exfalso; apply Hunknown; set_solver.
Qed.

Lemma get_embedding_dimensions_nat provider embedding_model :
  Z.of_nat (Z.to_nat (get_embedding_dimensions provider embedding_model)) =
    get_embedding_dimensions provider embedding_model.
Proof.
  destruct (get_embedding_dimensions_cases provider embedding_model) as [Hd _].
  cbv zeta in Hd. lia.
Qed.

(** X10. [get_embedding_dimensions] returns 768, 1536 or 3072 for every
    provider and model: 768 only for a Gemini model, 3072 only for the large
    OpenAI model, and 1536 for whatever the table does not know. *)
Theorem get_embedding_dimensions_range provider embedding_model :
  let d := get_embedding_dimensions provider embedding_model in
  (d = 768%Z \/ d = 1536%Z \/ d = 3072%Z) /\
  (d = 768%Z -> provider = "Gemini") /\
  (d = 3072%Z -> provider = "OpenAI" /\ embedding_model = "text-embedding-3-large") /\
  (provider ∉ ["OpenAI"; "Gemini"; "Claude"; "GitHub"; "Custom"] -> d = 1536%Z).
Proof. exact (get_embedding_dimensions_cases provider embedding_model). Qed.

Section MoreEngineFacts.
Context {U : Unicode} (env : Env).

(** The system text of the Claude request is the content of the last
    system message. *)
Lemma claude_system_last messages :
  claude_system messages =
    default "" (last (map content (filter (fun msg => role msg = "system") messages))).
Proof.
  unfold claude_system.
  assert (Hgen : forall acc : str,
    foldl (fun system_msg msg =>
             if bool_decide (role msg = "system") then content msg else system_msg)
          acc messages =
    default acc (last (map content (filter (fun msg => role msg = "system") messages)))).
  { induction messages as [|m ms IH]; intros acc; [done |].
    cbn [foldl]. rewrite IH. case_bool_decide as Hm.
    - rewrite filter_cons_True by done. rewrite fmap_cons, last_cons.
      by destruct (last _).
    - by rewrite filter_cons_False by done. }
  apply Hgen.
Qed.

(** X11. For one of the five providers [chat_completion] sends exactly one
    request and returns the answer of the backend; an exception of the
    backend leaves as an [AIServiceError] that carries its text, the
    cancellation of the task leaves as it is.  The OpenAI-style providers
    get the messages as they are.  Gemini gets the messages one by one, in
    their order, every role other than [user] turned into [model].  Claude
    gets the messages that are not system messages, in their order, and as
    system text the content of the last system message (the empty text
    stands for no system text).  For any other provider nothing is sent and
    a [KeyError] leaves the function. *)
Theorem chat_completion_request messages max_tokens w :
  (env_provider env ∈ ["OpenAI"; "GitHub"; "Custom"; "Gemini"; "Claude"] ->
   exists req,
     chat_completion env messages max_tokens w =
       (match env_chat_backend env (length (chat_log w)) req with
        | Ok answer => Ok answer
        | Raise e =>
            Raise (rethrow (fun e => AIServiceError ("Chat completion failed with "
                                       ++ env_provider env ++ ": " ++ str_exn e)) e)
        end, log_chat req w) /\
     match req with
     | OpenAIChat m ms t =>
         env_provider env ∈ ["OpenAI"; "GitHub"; "Custom"] /\
         m = env_model env /\ ms = messages /\ t = max_tokens
     | GeminiChat m cs t =>
         env_provider env = "Gemini" /\
         m = env_model env /\ t = max_tokens /\
         map content cs = map content messages /\
         Forall2 (fun msg c => role c = if bool_decide (role msg = "user")
                                        then "user" else "model") messages cs
     | ClaudeChat m sys ms t =>
         env_provider env = "Claude" /\
         m = env_model env /\ t = max_tokens /\
         ms = filter (fun msg => role msg ≠ "system") messages /\
         sys = default "" (last (map content
                                   (filter (fun msg => role msg = "system") messages)))
     end) /\
  (env_provider env ∉ ["OpenAI"; "GitHub"; "Custom"; "Gemini"; "Claude"] ->
   chat_completion env messages max_tokens w =
     (Raise (KeyError ("'" ++ env_provider env ++ "'")), w)).
Proof.
  unfold chat_completion. split.
  - intros Hknown. rewrite bool_decide_eq_true_2 by done.
    unfold try_except, send_chat, raise.
    case_bool_decide as Hopenai; [| case_bool_decide as Hgemini].
    + lazymatch goal with |- context [log_chat ?req w] => exists req end.
      split; [| done].
      by destruct (env_chat_backend env (length (chat_log w)) _) as [|[]].
    + lazymatch goal with |- context [log_chat ?req w] => exists req end.
      split; [by destruct (env_chat_backend env (length (chat_log w)) _) as [|[]] |].
      split; [done |]. split; [done |]. split; [done |]. unfold gemini_contents. split.
      * rewrite <- list_fmap_compose. by apply list_fmap_ext.
      * apply Forall2_fmap_r, Forall_Forall2_diag, Forall_forall. by intros msg _.
    + lazymatch goal with |- context [log_chat ?req w] => exists req end.
      split; [by destruct (env_chat_backend env (length (chat_log w)) _) as [|[]] |].
      split.
      { repeat (apply elem_of_cons in Hknown as [Hknown | Hknown]);
          try done; try by apply elem_of_nil in Hknown.
        all: exfalso; apply Hopenai; rewrite Hknown; apply list_elem_of_In;
          simpl; auto. }
      split; [done |]. split; [done |]. split; [done | apply claude_system_last].
  - intros Hunknown. by rewrite bool_decide_eq_false_2.
Qed.

(** *** Clearing the memories of an owner *)

Lemma filter_all {A} (P : A -> Prop) `{!forall x, Decision (P x)} (l : list A) :
  (forall x, x ∈ l -> P x) -> filter P l = l.
Proof.
  induction l as [|x l IH]; intros HP; [done |].
  rewrite filter_cons_True by (apply HP; by left).
  f_equal. apply IH. intros y Hy. apply HP. by right.
Qed.

Lemma filter_none {A} (P : A -> Prop) `{!forall x, Decision (P x)} (l : list A) :
  (forall x, x ∈ l -> ~ P x) -> filter P l = [].
Proof.
  induction l as [|x l IH]; intros HP; [done |].
  rewrite filter_cons_False by (apply HP; by left).
  apply IH. intros y Hy. apply HP. by right.
Qed.

(** The points of a collection that carry the owner. *)
Lemma select_unbounded similarity c query_vector key value limit :
  (length (filter (fun ip => Qdrant.field_matches key value (p_payload ip.2) = true)
                  (map_to_list (c_points c))) <= Z.to_nat limit)%nat ->
  Qdrant.select similarity c query_vector key value limit None ≡ₚ
    map (fun ip => {| h_id := ip.1;
                      h_score := similarity query_vector (p_vector ip.2);
                      h_payload := p_payload ip.2 |})
        (filter (fun ip => Qdrant.field_matches key value (p_payload ip.2) = true)
                (map_to_list (c_points c))).
Proof.
  intros Hlen. unfold Qdrant.select.
  rewrite (filter_all (fun h => Qdrant.above_threshold None (h_score h) = true))
    by done.
  rewrite take_ge.
  - apply sort_desc_perm.
  - rewrite (Permutation_length (sort_desc_perm _ _)), length_map. done.
Qed.

Lemma select_length similarity c query_vector key value limit :
  Z.of_nat (length (Qdrant.select similarity c query_vector key value limit None)) =
    Z.min (Z.of_nat (Z.to_nat limit))
          (Z.of_nat (length (filter (fun ip => Qdrant.field_matches key value
                                                 (p_payload ip.2) = true)
                                    (map_to_list (c_points c))))).
Proof.
  unfold Qdrant.select.
  rewrite (filter_all (fun h => Qdrant.above_threshold None (h_score h) = true))
    by done.
  rewrite length_take, (Permutation_length (sort_desc_perm _ _)), length_map. lia.
Qed.

(** One run of [clear_all_memories]: it never fails, and what it deletes
    are the points it has found. *)
Lemma clear_all_memories_spec username preview_only w :
  let name := env_qdrant_collection_name env in
  let expected :=
    get_embedding_dimensions (env_provider env) (env_embedding_model env) in
  exists c',
    (c_size c' = expected /\
     match qdrant w !! name with
     | Some c =>
         if decide (c_size c = expected)
         then c_points c' = c_points c
         else c_points c' = ∅
     | None => c_points c' = ∅
     end) /\
    let hits := Qdrant.select (env_similarity env) c'
                  (replicate (Z.to_nat expected) 0%Q) "username" username 10000 None in
    clear_all_memories env username preview_only w =
      (Ok (Z.of_nat (length hits)),
       log_search
         (set_qdrant
            (<[name :=
                 if preview_only || bool_decide (Z.of_nat (length hits) = 0%Z) then c'
                 else {| c_size := c_size c';
                         c_points := foldr delete (c_points c') (map h_id hits);
                         c_indexes := c_indexes c' |}]> (qdrant w)) w)).
Proof.
  intros name expected.
  destruct (ensure_collection_exists_spec env name w) as (c' & Hrun & Hsize & Hcase).
  exists c'. split.
  { split; [done |]. destruct (qdrant w !! name) as [c|]; [| tauto].
    fold expected in Hcase. destruct (decide (c_size c = expected)); tauto. }
  intros hits. unfold clear_all_memories, try_except, bind. fold name. rewrite Hrun.
  unfold client_search, bind, modify, on_qdrant, Qdrant.search.
  cbn [qdrant set_qdrant log_search]. rewrite lookup_insert_eq. fold expected.
  rewrite bool_decide_eq_true_2
    by (rewrite length_replicate, Hsize; apply get_embedding_dimensions_nat).
  fold hits. destruct preview_only; [reflexivity |]. cbn [orb].
  case_bool_decide as Hzero.
  - rewrite Hzero. reflexivity.
  - unfold qdrant_delete, ret. cbn [qdrant set_qdrant log_search].
    rewrite lookup_insert_eq, insert_insert_eq. reflexivity.
Qed.

(** X14. A preview of [clear_all_memories] never fails, deletes nothing and
    returns the number of points of the owner, at most 10000. *)
Theorem clear_all_memories_preview username w c :
  qdrant w !! env_qdrant_collection_name env = Some c ->
  c_size c = get_embedding_dimensions (env_provider env) (env_embedding_model env) ->
  exists w' c',
    clear_all_memories env username true w =
      (Ok (Z.min 10000
             (Z.of_nat (length (filter (fun ip => Qdrant.field_matches "username" username
                                                    (p_payload ip.2) = true)
                                       (map_to_list (c_points c)))))), w') /\
    qdrant w' !! env_qdrant_collection_name env = Some c' /\
    c_points c' = c_points c /\
    c_size c' = c_size c /\
    cache_manager w' = cache_manager w.
Proof.
  intros Hc Hsize.
  destruct (clear_all_memories_spec username true w) as (c' & [Hsize' Hpoints] & Hrun).
  rewrite Hc, decide_True in Hpoints by done.
  cbv zeta in Hrun. rewrite Hrun. cbn [orb].
  eexists _, c'. split.
  { rewrite select_length, Hpoints. reflexivity. }
  cbn [qdrant cache_manager set_qdrant log_search].
  split; [apply lookup_insert_eq |]. split; [done |]. split; [congruence | done].
Qed.

(** X15. [clear_all_memories] without preview, for an owner with at most
    10000 points, removes every point of the owner and no other, returns
    their number, and a preview after it returns 0. *)
Theorem clear_all_memories_deletes_owner username w c :
  qdrant w !! env_qdrant_collection_name env = Some c ->
  c_size c = get_embedding_dimensions (env_provider env) (env_embedding_model env) ->
  (Z.of_nat (length (filter (fun ip => Qdrant.field_matches "username" username
                                         (p_payload ip.2) = true)
                            (map_to_list (c_points c)))) <= 10000)%Z ->
  exists w' c',
    clear_all_memories env username false w =
      (Ok (Z.of_nat (length (filter (fun ip => Qdrant.field_matches "username" username
                                                 (p_payload ip.2) = true)
                                    (map_to_list (c_points c))))), w') /\
    qdrant w' !! env_qdrant_collection_name env = Some c' /\
    (forall id p,
       c_points c' !! id = Some p <->
       c_points c !! id = Some p /\
       Qdrant.field_matches "username" username (p_payload p) = false) /\
    exists w'', clear_all_memories env username true w' = (Ok 0%Z, w'').
Proof.
  intros Hc Hsize Hcount.
  set (name := env_qdrant_collection_name env) in *.
  set (expected := get_embedding_dimensions (env_provider env) (env_embedding_model env)) in *.
  set (owned := filter (fun ip => Qdrant.field_matches "username" username
                                    (p_payload ip.2) = true)
                       (map_to_list (c_points c))) in *.
  destruct (clear_all_memories_spec username false w) as (c1 & [Hsize1 Hpoints1] & Hrun).
  fold name expected in Hsize1, Hpoints1, Hrun.
  rewrite Hc, decide_True in Hpoints1 by done.
  cbv zeta in Hrun. cbn [orb] in Hrun.
  set (hits := Qdrant.select (env_similarity env) c1 (replicate (Z.to_nat expected) 0%Q)
                 "username" username 10000 None) in *.
  assert (Hperm : hits ≡ₚ map (fun ip => {| h_id := ip.1;
                      h_score := env_similarity env (replicate (Z.to_nat expected) 0%Q)
                                   (p_vector ip.2);
                      h_payload := p_payload ip.2 |}) owned).
  { subst hits owned. rewrite <- Hpoints1. apply select_unbounded.
    rewrite Hpoints1. lia. }
  assert (Hids : forall id, id ∈ map h_id hits <->
            exists p, c_points c !! id = Some p /\
                      Qdrant.field_matches "username" username (p_payload p) = true).
  { intros id. rewrite Hperm, <- list_fmap_compose. subst owned. split.
    - intros ([id' p] & -> & Hin)%list_elem_of_fmap.
      apply list_elem_of_filter in Hin as [Hm Hin].
      apply elem_of_map_to_list in Hin. by exists p.
    - intros (p & Hp & Hm). apply list_elem_of_fmap. exists (id, p).
      split; [done |]. apply list_elem_of_filter. split; [done |].
      by apply elem_of_map_to_list. }
  assert (Hlen : length hits = length owned).
  { by rewrite Hperm, length_map. }
  set (c2 := if bool_decide (Z.of_nat (length hits) = 0%Z) then c1
             else {| c_size := c_size c1;
                     c_points := foldr delete (c_points c1) (map h_id hits);
                     c_indexes := c_indexes c1 |}) in *.
  assert (Hsize2 : c_size c2 = expected).
  { subst c2. by case_bool_decide. }
  assert (Hpoints2 : forall id p,
            c_points c2 !! id = Some p <->
            c_points c !! id = Some p /\
            Qdrant.field_matches "username" username (p_payload p) = false).
  { intros id p. subst c2. case_bool_decide as Hzero.
    - rewrite Hpoints1. split; [| tauto].
      intros Hp. split; [done |].
      destruct (Qdrant.field_matches "username" username (p_payload p)) eqn:Hm; [| done].
      assert (Hin : id ∈ map h_id hits) by (apply Hids; by exists p).
      destruct hits; [by apply elem_of_nil in Hin | simpl in Hzero; lia].
    - cbn [c_points]. rewrite lookup_foldr_delete_Some, Hpoints1, Hids. split.
      + intros [Hout Hp]. split; [done |].
        destruct (Qdrant.field_matches "username" username (p_payload p)) eqn:Hm; [| done].
        destruct Hout. by exists p.
      + intros [Hp Hm]. split; [| done].
        intros (p' & Hp' & Hm'). congruence. }
  eexists _, c2. split; [by rewrite Hrun, Hlen |].
  cbn [qdrant set_qdrant log_search].
  split; [apply lookup_insert_eq |]. split; [exact Hpoints2 |].
  match goal with |- exists w'', clear_all_memories env username true ?w1 = _ =>
    destruct (clear_all_memories_spec username true w1) as (c3 & [Hsize3 Hpoints3] & Hrun3)
  end.
  fold name expected in Hsize3, Hpoints3, Hrun3.
  cbn [qdrant set_qdrant log_search] in Hpoints3.
  rewrite lookup_insert_eq, decide_True in Hpoints3 by done.
  cbv zeta in Hrun3. rewrite Hrun3. eexists. f_equal. f_equal.
  rewrite select_length, Hpoints3.
  rewrite (filter_none (fun ip => Qdrant.field_matches "username" username
                                    (p_payload ip.2) = true)).
  - simpl. lia.
  - intros [id p] Hin%elem_of_map_to_list. apply Hpoints2 in Hin as [_ Hm].
    simpl. by rewrite Hm.
Qed.

(** *** Storing *)

(** One run of [store_in_vector_db]. *)
Lemma store_in_vector_db_spec embedding text username metadata w :
  let name := env_qdrant_collection_name env in
  let expected :=
    get_embedding_dimensions (env_provider env) (env_embedding_model env) in
  let point_id := env_uuid4 env (uuids w) in
  let base : gmap str Value :=
    {[ "text" := VStr text; "username" := VStr username;
       "timestamp" := VFloat (env_clock env (ticks w));
       "content_type" := VStr "general" ]} in
  let payload := match metadata with Some md => md ∪ base | None => base end in
  exists c',
    (c_size c' = expected /\
     match qdrant w !! name with
     | Some c =>
         if decide (c_size c = expected)
         then c_points c' = c_points c
         else c_points c' = ∅
     | None => c_points c' = ∅
     end) /\
    store_in_vector_db env embedding text username metadata w =
      if bool_decide (Z.of_nat (length embedding) = expected)
      then (Ok point_id,
            set_qdrant
              (<[name := {| c_size := c_size c';
                            c_points := <[point_id := {| p_vector := embedding;
                                                         p_payload := payload |}]>
                                          (c_points c');
                            c_indexes := c_indexes c' |}]> (qdrant w))
              (tick (next_uuid w)))
      else (Raise (DatabaseError ("Failed to store in vector database: "
                                  ++ "Vector dimension error")),
            set_qdrant (<[name := c']> (qdrant w)) (tick (next_uuid w))).
Proof.
  intros name expected point_id base payload.
  destruct (ensure_collection_exists_spec env name w) as (c' & Hrun & Hsize & Hcase).
  exists c'. split.
  { split; [done |]. destruct (qdrant w !! name) as [c|]; [| tauto].
    fold expected in Hcase. destruct (decide (c_size c = expected)); tauto. }
  unfold store_in_vector_db, try_except, bind. fold name. rewrite Hrun.
  unfold new_uuid, time_time, on_qdrant, Qdrant.upsert, ret, raise.
  cbn [qdrant set_qdrant next_uuid tick uuids ticks]. rewrite lookup_insert_eq.
  fold expected in Hsize. rewrite Hsize.
  case_bool_decide; [| done].
  cbn [qdrant set_qdrant]. by rewrite insert_insert_eq.
Qed.

(** X16. An embedding whose length is not the dimension of the configured
    model is refused: [store_in_vector_db] raises a [DatabaseError] and a
    collection of the right size keeps exactly the points it had. *)
Theorem store_in_vector_db_wrong_dimension embedding text username metadata w :
  Z.of_nat (length embedding) ≠
    get_embedding_dimensions (env_provider env) (env_embedding_model env) ->
  exists msg w' c',
    store_in_vector_db env embedding text username metadata w
      = (Raise (DatabaseError msg), w') /\
    qdrant w' !! env_qdrant_collection_name env = Some c' /\
    (forall c,
       qdrant w !! env_qdrant_collection_name env = Some c ->
       c_size c = get_embedding_dimensions (env_provider env) (env_embedding_model env) ->
       c_points c' = c_points c).
Proof.
  intros Hdim.
  destruct (store_in_vector_db_spec embedding text username metadata w)
    as (c' & [_ Hpoints] & Hrun).
  cbv zeta in Hrun. rewrite bool_decide_eq_false_2 in Hrun by done.
  eexists _, _, c'. split; [exact Hrun |]. cbn [qdrant set_qdrant].
  split; [apply lookup_insert_eq |].
  intros c Hc Hsize. by rewrite Hc, decide_True in Hpoints.
Qed.

(** X17. What is stored for an owner is found again: after a successful
    [store_in_vector_db] whose metadata overrides neither [username] nor
    [text], a [search_vector_db] of that owner with a query of the right
    dimension and a limit not below the number of the owner's points
    returns a result with the id and the text of the stored point. *)
Theorem store_then_search embedding text username metadata w point_id w1 c1
    query_embedding limit :
  store_in_vector_db env embedding text username metadata w = (Ok point_id, w1) ->
  default ∅ metadata !! "username" = None ->
  default ∅ metadata !! "text" = None ->
  Z.of_nat (length query_embedding) =
    get_embedding_dimensions (env_provider env) (env_embedding_model env) ->
  qdrant w1 !! env_qdrant_collection_name env = Some c1 ->
  (length (filter (fun ip => Qdrant.field_matches "username" username
                               (p_payload ip.2) = true)
                  (map_to_list (c_points c1))) <= Z.to_nat limit)%nat ->
  exists results w2 r,
    search_vector_db env query_embedding username limit w1 = (Ok results, w2) /\
    r ∈ results /\ r_id r = point_id /\ r_text r = VStr text.
Proof.
  intros Hstore Huser Htext Hdim Hc1 Hcount.
  destruct (store_in_vector_db_spec embedding text username metadata w)
    as (c' & [Hsize' _] & Hrun).
  cbv zeta in Hrun. rewrite Hrun in Hstore. case_bool_decide; [| done].
  injection Hstore as <- <-. cbn [qdrant set_qdrant] in Hc1.
  rewrite lookup_insert_eq in Hc1. injection Hc1 as <-.
  match goal with |- context [search_vector_db env _ _ _ ?w1] =>
    destruct (search_vector_db_spec env query_embedding username limit w1)
      as (c2 & [Hsize2 Hpoints2] & Hsearch)
  end.
  cbn [qdrant set_qdrant] in Hpoints2.
  rewrite lookup_insert_eq in Hpoints2. cbn [c_size] in Hpoints2.
  rewrite decide_True in Hpoints2 by done. cbn [c_points] in Hpoints2, Hcount.
  rewrite Hsearch, bool_decide_eq_true_2 by congruence.
  set (payload := match metadata with
                  | Some md => md ∪ _
                  | None => _
                  end) in *.
  assert (Hpu : payload !! "username" = Some (VStr username)).
  { subst payload. destruct metadata as [md|]; simpl in Huser.
    - rewrite lookup_union_r by done. by simplify_map_eq.
    - by simplify_map_eq. }
  assert (Hpt : payload !! "text" = Some (VStr text)).
  { subst payload. destruct metadata as [md|]; simpl in Htext.
    - rewrite lookup_union_r by done. by simplify_map_eq.
    - by simplify_map_eq. }
  set (p := {| p_vector := embedding; p_payload := payload |}) in *.
  eexists _, _, (format_hit {| h_id := env_uuid4 env (uuids w);
                               h_score := env_similarity env query_embedding (p_vector p);
                               h_payload := p_payload p |}).
  split; [reflexivity |]. split; [| split].
  - apply list_elem_of_fmap. eexists. split; [reflexivity |].
    rewrite select_unbounded by (rewrite Hpoints2; exact Hcount).
    apply list_elem_of_fmap. exists (env_uuid4 env (uuids w), p). split; [done |].
    apply list_elem_of_filter. split.
    + unfold Qdrant.field_matches. simpl. rewrite Hpu. by apply bool_decide_eq_true.
    + apply elem_of_map_to_list. rewrite Hpoints2. apply lookup_insert_eq.
  - done.
  - cbn [format_hit r_text h_payload p_payload p]. by rewrite Hpt.
Qed.

(** *** Text messages *)

Lemma chat_completion_uuids messages max_tokens w r w' :
  chat_completion env messages max_tokens w = (r, w') -> uuids w' = uuids w.
Proof.
  unfold chat_completion, try_except, send_chat, raise.
  repeat case_bool_decide;
    try (destruct (env_chat_backend env _ _) as [|[]]); by intros [= _ <-].
Qed.

Lemma cache_put_uuids query results username w r w' :
  cache_put env query results username w = (r, w') -> uuids w' = uuids w.
Proof.
  unfold cache_put, bind, time_time, on_cache.
  destruct (cache_search_result _ _ _ _ _) as [res cm].
  destruct res; by intros [= _ <-].
Qed.

(** A query stores nothing: no id is drawn, and every point of the
    collection after it was there before. *)
Lemma query_knowledge_base_adds_no_point query username limit w r w' :
  query_knowledge_base env query username limit w = (r, w') ->
  uuids w' = uuids w /\
  forall c' id p,
    qdrant w' !! env_qdrant_collection_name env = Some c' ->
    c_points c' !! id = Some p ->
    exists c, qdrant w !! env_qdrant_collection_name env = Some c /\
              c_points c !! id = Some p.
Proof.
  unfold query_knowledge_base, try_except, bind.
  destruct (generate_embedding env query w) as [[emb | e] w1] eqn:Hemb.
  2: { apply generate_embedding_frame in Hemb as (_ & Hq & _ & _ & _ & Hu).
       case_exn; intros [= _ <-]; rewrite Hq; (split; [done |]);
         intros c' id p Hc' Hp; by exists c'. }
  apply generate_embedding_frame in Hemb as (_ & Hq1 & _ & _ & _ & Hu1).
  destruct (search_vector_db_enhanced_spec env emb username
              (comprehensive_limit query limit) w1) as (c2 & [_ Hpoints] & ->).
  set (w2 := log_search (set_qdrant _ w1)).
  assert (Hw2 : uuids w2 = uuids w /\
    forall c' id p,
      qdrant w2 !! env_qdrant_collection_name env = Some c' ->
      c_points c' !! id = Some p ->
      exists c, qdrant w !! env_qdrant_collection_name env = Some c /\
                c_points c !! id = Some p).
  { split; [done |]. intros c' id p. subst w2. cbn [qdrant set_qdrant log_search].
    rewrite lookup_insert_eq. intros [= <-] Hp. rewrite Hq1 in Hpoints.
    destruct (qdrant w !! env_qdrant_collection_name env) as [c|];
      [| by rewrite Hpoints in Hp].
    destruct (decide _); [| by rewrite Hpoints in Hp].
    exists c. split; [done |]. by rewrite <- Hpoints. }
  clearbody w2. destruct Hw2 as [Hu2 Hp2].
  case_bool_decide; [| by intros [= _ <-]].
  destruct (map format_hit _) as [|r0 results]; unfold ret, raise.
  - by intros [= _ <-].
  - destruct (cache_put env query (r0 :: results) username w2) as [res3 w3] eqn:Hput.
    pose proof (cache_put_uuids _ _ _ _ _ _ Hput) as Hu3.
    apply cache_put_frame in Hput as (Hq3 & _).
    destruct res3 as [[] | e].
    + destruct (chat_completion env _ 800 w3) as [res4 w4] eqn:Hchat.
      pose proof (chat_completion_uuids _ _ _ _ _ Hchat) as Hu4.
      apply chat_completion_frame in Hchat as (_ & Hq4 & _).
      destruct res4; case_exn; intros [= _ <-]; rewrite Hq4, Hq3, Hu4, Hu3; by split.
    + case_exn; intros [= _ <-]; rewrite Hq3, Hu3; by split.
Qed.

(** X18. [process_text] either answers or stores, by the first letters of
    the text alone.  A text that starts with [what], [how], [why], [when],
    [where] or [who], in any case and also as the beginning of a longer
    word, is treated as a question: no point is stored and no id is drawn.
    Any other text is stored without a chat request and without a change of
    the cache, and the reply is the fixed sentence unless an exception
    leaves. *)
Theorem process_text_dichotomy text username w r w' :
  process_text env text username w = (r, w') ->
  (existsb (fun prefix => Str.startswith prefix (Str.lower text))
           ["what"; "how"; "why"; "when"; "where"; "who"] = true ->
   query_knowledge_base env text username 10 w = (r, w') /\
   uuids w' = uuids w /\
   forall c' id p,
     qdrant w' !! env_qdrant_collection_name env = Some c' ->
     c_points c' !! id = Some p ->
     exists c, qdrant w !! env_qdrant_collection_name env = Some c /\
               c_points c !! id = Some p) /\
  (existsb (fun prefix => Str.startswith prefix (Str.lower text))
           ["what"; "how"; "why"; "when"; "where"; "who"] = false ->
   chat_log w' = chat_log w /\
   cache_manager w' = cache_manager w /\
   (r = Ok "Text processed and stored" \/ exists e, r = Raise e)).
Proof.
  unfold process_text. intros Hrun. split; intros Hq; rewrite Hq in Hrun.
  - split; [done |]. by eapply query_knowledge_base_adds_no_point.
  - unfold bind in Hrun.
    destruct (generate_embedding env text w) as [[emb | e] w1] eqn:Hemb.
    2: { apply generate_embedding_frame in Hemb as (Hcm & _ & Hchat & _).
         injection Hrun as <- <-. split; [done |]. split; [done |]. right. by eexists. }
    apply generate_embedding_frame in Hemb as (Hcm & _ & Hchat & _).
    destruct (store_in_vector_db_spec emb text username None w1) as (c' & _ & Hstore).
    cbv zeta in Hstore. rewrite Hstore in Hrun.
    case_bool_decide; injection Hrun as <- <-; cbn [chat_log cache_manager set_qdrant tick next_uuid].
    + split; [done |]. split; [done |]. by left.
    + split; [done |]. split; [done |]. right. by eexists.
Qed.

End MoreEngineFacts.

(** ** utils.py: deleting by terms *)

Section DeleteFacts.
Context {U : Unicode} (env : Env).

Lemma matching_hits_sound search_terms_lower search_results matching :
  matching_hits search_terms_lower search_results = Ok matching ->
  forall hit, hit ∈ matching ->
    hit ∈ search_results /\
    exists text,
      default (VStr "") (h_payload hit !! "text") = VStr text /\
      Str.contains search_terms_lower (Str.lower text) = true.
Proof.
  revert matching. induction search_results as [|h rest IH]; intros matching; simpl.
  - intros [= <-] hit Hin. by apply elem_of_nil in Hin.
  - unfold payload_text_lower.
    destruct (default (VStr "") (h_payload h !! "text")) as [text | |] eqn:Htext;
      try done.
    destruct (matching_hits search_terms_lower rest) as [m | e]; [| done].
    specialize (IH m eq_refl).
    destruct (Str.contains search_terms_lower (Str.lower text)) eqn:Hc;
      intros [= <-] hit Hin.
    + apply elem_of_cons in Hin as [-> | Hin].
      * split; [by left |]. by exists text.
      * destruct (IH hit Hin) as [Hrest Htxt]. split; [by right | done].
    + destruct (IH hit Hin) as [Hrest Htxt]. split; [by right | done].
Qed.

Lemma matching_hits_length search_terms_lower search_results matching :
  matching_hits search_terms_lower search_results = Ok matching ->
  (length matching <= length search_results)%nat.
Proof.
  revert matching. induction search_results as [|h rest IH]; intros matching; simpl.
  - intros [= <-]. done.
  - destruct (payload_text_lower (h_payload h)) as [text | e]; [| done].
    destruct (matching_hits search_terms_lower rest) as [m | e]; [| done].
    specialize (IH m eq_refl).
    destruct (Str.contains search_terms_lower text); intros [= <-]; simpl; lia.
Qed.

Lemma select_length_le similarity c query_vector key value limit score_threshold :
  (Z.of_nat (length (Qdrant.select similarity c query_vector key value limit
                                   score_threshold)) <= Z.max 0 limit)%Z.
Proof. unfold Qdrant.select. rewrite length_take. lia. Qed.

(** One run of [delete_memories_by_terms], seen from the server: either the
    collection is as the bootstrap left it, or the run was a deletion that
    removed the points of the matching hits. *)
Lemma delete_memories_by_terms_server search_terms username preview_only w r w' :
  delete_memories_by_terms env search_terms username preview_only w = (r, w') ->
  let name := env_qdrant_collection_name env in
  exists c1,
    ensure_collection_exists env name w =
      (Ok tt, set_qdrant (<[name := c1]> (qdrant w)) w) /\
    (forall count summary, r = Ok (count, summary) -> (0 <= count <= 1000)%Z) /\
    (qdrant w' = <[name := c1]> (qdrant w) \/
     preview_only = false /\
     exists query_embedding matching,
       matching_hits (Str.lower search_terms)
         (Qdrant.select (env_similarity env) c1 query_embedding "username" username
                        1000 (Some (1 # 10))) = Ok matching /\
       qdrant w' =
         <[name := {| c_size := c_size c1;
                      c_points := foldr delete (c_points c1) (map h_id matching);
                      c_indexes := c_indexes c1 |}]> (qdrant w)).
Proof.
  intros Hrun name.
  destruct (ensure_collection_exists_spec env name w) as (c1 & Hens & _ & _).
  exists c1. split; [exact Hens |]. revert Hrun.
  unfold delete_memories_by_terms, try_except, bind. fold name. rewrite Hens.
  set (w1 := set_qdrant (<[name := c1]> (qdrant w)) w).
  destruct (generate_embedding env search_terms w1) as [[emb | e] w2] eqn:Hemb;
    apply generate_embedding_frame in Hemb as (_ & Hq2 & _).
  2: { unfold raise. case_exn; intros [= <- <-]; (split; [done |]); left;
         by rewrite Hq2. }
  unfold client_search, bind, modify, on_qdrant, Qdrant.search.
  cbn [qdrant log_search]. rewrite Hq2. subst w1. cbn [qdrant set_qdrant].
  rewrite lookup_insert_eq.
  case_bool_decide;
    [| unfold raise; cbn [is_Exception]; intros [= <- <-]; split; [done | by left]].
  unfold in_world.
  destruct (matching_hits _ _) as [matching | e] eqn:Hmatch;
    [| unfold raise; case_exn; intros [= <- <-]; (split; [done | by left])].
  assert (Hbound : (0 <= Z.of_nat (length matching) <= 1000)%Z).
  { pose proof (matching_hits_length _ _ _ Hmatch) as Hlen.
    pose proof (select_length_le (env_similarity env) c1 emb "username" username
                  1000 (Some (1 # 10))) as Hsel.
    lia. }
  destruct matching as [|h matching].
  { unfold ret. intros [= <- <-]. split; [| by left]. intros ? ? [= <- _]. lia. }
  destruct preview_only.
  - destruct (preview_lines env 0 _); unfold ret, raise; case_exn; intros [= <- <-].
    1: { split; [| by left]. by intros ? ? [= <- _]. }
    all: (split; [done | by left]).
  - unfold qdrant_delete, ret. cbn [qdrant set_qdrant log_search].
    rewrite lookup_insert_eq, insert_insert_eq. intros [= <- <-].
    split; [by intros ? ? [= <- _] |].
    right. split; [done |]. exists emb, (h :: matching).
    split; [exact Hmatch | reflexivity].
Qed.

(** The collection after the bootstrap is determined by the run. *)
Lemma ensure_collection_exists_same name w c1 c2 :
  ensure_collection_exists env name w = (Ok tt, set_qdrant (<[name := c1]> (qdrant w)) w) ->
  ensure_collection_exists env name w = (Ok tt, set_qdrant (<[name := c2]> (qdrant w)) w) ->
  c1 = c2.
Proof.
  intros -> [= Heq].
  apply (f_equal (fun m => m !! name)) in Heq.
  rewrite !lookup_insert_eq in Heq. congruence.
Qed.

(** X19. Blank search terms delete nothing: [delete_memories_by_terms]
    stops at the embedding, after the bootstrap of the collection and before
    any search, with a [DatabaseError] that carries the message of the empty
    text. *)
Theorem delete_memories_by_terms_blank search_terms username preview_only w :
  Str.all_space search_terms = true ->
  delete_memories_by_terms env search_terms username preview_only w =
    (Raise (DatabaseError ("Failed to delete memories: "
                           ++ "Failed to generate embedding with "
                           ++ env_provider env ++ ": " ++ "Text cannot be empty")),
     snd (ensure_collection_exists env (env_qdrant_collection_name env) w)).
Proof.
  intros Hblank.
  destruct (ensure_collection_exists_spec env (env_qdrant_collection_name env) w)
    as (c1 & Hens & _ & _).
  unfold delete_memories_by_terms, try_except, bind. rewrite Hens.
  rewrite generate_embedding_blank by by apply strip_all_space.
  reflexivity.
Qed.

(** X20. A preview of [delete_memories_by_terms] deletes nothing, however
    it ends: the server is as the bootstrap of the collection left it, and a
    collection of the right size keeps its points. *)
Theorem delete_memories_by_terms_preview search_terms username w r w' :
  delete_memories_by_terms env search_terms username true w = (r, w') ->
  qdrant w' = qdrant (snd (ensure_collection_exists env (env_qdrant_collection_name env) w)) /\
  forall c,
    qdrant w !! env_qdrant_collection_name env = Some c ->
    c_size c = get_embedding_dimensions (env_provider env) (env_embedding_model env) ->
    exists c', qdrant w' !! env_qdrant_collection_name env = Some c' /\
               c_points c' = c_points c.
Proof.
  intros Hrun.
  destruct (delete_memories_by_terms_server _ _ _ _ _ _ Hrun)
    as (c1 & Hens & _ & [Hq | [Hfalse _]]); [| done].
  rewrite Hens. cbn [snd qdrant set_qdrant]. split; [done |].
  intros c Hc Hsize.
  destruct (ensure_collection_exists_spec env (env_qdrant_collection_name env) w)
    as (c1' & Hens' & _ & Hcase).
  rewrite (ensure_collection_exists_same _ _ _ _ Hens' Hens) in Hcase.
  rewrite Hc, decide_True in Hcase by done.
  exists c1. rewrite Hq. split; [apply lookup_insert_eq | tauto].
Qed.

(** X21. A deletion by terms removes points of the owner only, and only
    points whose text holds the search terms, case-insensitively: every
    point of a collection of the right size is still there afterwards or is
    such a point, no point is added, and the count returned is at most
    1000. *)
Theorem delete_memories_by_terms_scope search_terms username w count summary w' c :
  delete_memories_by_terms env search_terms username false w
    = (Ok (count, summary), w') ->
  qdrant w !! env_qdrant_collection_name env = Some c ->
  c_size c = get_embedding_dimensions (env_provider env) (env_embedding_model env) ->
  exists c',
    qdrant w' !! env_qdrant_collection_name env = Some c' /\
    (forall id p, c_points c' !! id = Some p -> c_points c !! id = Some p) /\
    (forall id p,
       c_points c !! id = Some p ->
       c_points c' !! id = Some p \/
       (p_payload p !! "username" = Some (VStr username) /\
        exists text,
          default (VStr "") (p_payload p !! "text") = VStr text /\
          is_substring (Str.lower search_terms) (Str.lower text))) /\
    (0 <= count <= 1000)%Z.
Proof.
  intros Hrun Hc Hsize.
  destruct (ensure_collection_exists_spec env (env_qdrant_collection_name env) w)
    as (c1' & Hens' & _ & Hcase).
  rewrite Hc, decide_True in Hcase by done. destruct Hcase as [Hpoints _].
  destruct (delete_memories_by_terms_server _ _ _ _ _ _ Hrun)
    as (c1 & Hens & Hcount & Hcases).
  rewrite (ensure_collection_exists_same _ _ _ _ Hens' Hens) in Hpoints.
  specialize (Hcount count summary eq_refl).
  destruct Hcases as [Hq | (_ & emb & matching & Hmatch & Hq)].
  - exists c1. rewrite Hq. split; [apply lookup_insert_eq |].
    split; [intros id p; by rewrite Hpoints |].
    split; [intros id p Hp; left; by rewrite Hpoints | done].
  - eexists. rewrite Hq. split; [apply lookup_insert_eq |]. cbn [c_points].
    pose proof (matching_hits_sound _ _ _ Hmatch) as Hsound.
    split; [| split; [| done]].
    + intros id p Hp. apply lookup_foldr_delete_Some in Hp as [_ Hp].
      by rewrite <- Hpoints.
    + intros id p Hp.
      destruct (decide (id ∈ map h_id matching)) as [Hin | Hout].
      * right. apply list_elem_of_fmap in Hin as (hit & -> & Hin).
        destruct (Hsound hit Hin) as [Hsel (text & Htext & Hcontains)].
        apply select_sound in Hsel as (p' & Hp' & Huser & Hhit).
        rewrite Hpoints, Hp in Hp'. injection Hp' as <-.
        rewrite Hhit in Htext. cbn [h_payload] in Htext.
        split; [done |]. exists text. split; [done |]. by apply contains_spec.
      * left. apply lookup_foldr_delete_Some. split; [done |]. by rewrite Hpoints.
Qed.

End DeleteFacts.

(** ** The further theorems at work on the example data *)

Section MoreExamples.
#[local] Existing Instance latin1.

Lemma clear_old_cache_keeps_recent_witness :
  search_cache (clear_old_cache 8 0 full_cache) =
    filter (fun kv => Qle_bool (8 - inject_Z (0 * 24 * 60 * 60))%Q (sr_timestamp kv.2) = true)
           (search_cache full_cache) /\
  (forall kv, kv ∈ search_cache (clear_old_cache 8 0 full_cache) <->
              kv ∈ search_cache full_cache /\
              (8 - inject_Z (0 * 24 * 60 * 60) <= sr_timestamp kv.2)%Q) /\
  max_search_cache (clear_old_cache 8 0 full_cache) = max_search_cache full_cache.
Proof.
  apply (clear_old_cache_keeps_recent 8 0 full_cache).
  apply (bool_decide_unpack _). vm_compute. reflexivity.
Defined.

Lemma clear_user_search_cache_scoped_witness :
  search_cache (clear_user_search_cache "alice" "1" full_cache) =
    filter (fun kv => ~ (sr_username kv.2 = "alice" /\
                         Str.contains (Str.lower "1") (Str.lower (sr_query kv.2)) = true))
           (search_cache full_cache) /\
  (forall limit c,
     c ∈ get_cached_searches (clear_user_search_cache "alice" "1" full_cache) "alice" limit ->
     ~ is_substring (Str.lower "1") (Str.lower (sr_query c))) /\
  (forall other limit,
     other ≠ "alice" ->
     get_cached_searches (clear_user_search_cache "alice" "1" full_cache) other limit =
     get_cached_searches full_cache other limit).
Proof.
  apply (clear_user_search_cache_scoped "alice" "1" full_cache).
  apply (bool_decide_unpack _). vm_compute. reflexivity.
Defined.

Lemma clear_user_search_cache_empty_terms_witness :
  search_cache (clear_user_search_cache "alice" "" full_cache) =
    filter (fun kv => sr_username kv.2 ≠ "alice") (search_cache full_cache) /\
  forall limit,
    get_cached_searches (clear_user_search_cache "alice" "" full_cache) "alice" limit = [].
Proof.
  apply (clear_user_search_cache_empty_terms "alice" full_cache).
  apply (bool_decide_unpack _). vm_compute. reflexivity.
Defined.

Lemma clear_all_user_cache_scoped_witness :
  search_cache (searches (clear_all_user_cache "alice" full_manager)) =
    filter (fun kv => sr_username kv.2 ≠ "alice") (search_cache (searches full_manager)) /\
  (forall limit,
     get_cached_searches (searches (clear_all_user_cache "alice" full_manager))
       "alice" limit = []) /\
  (forall other limit,
     other ≠ "alice" ->
     get_cached_searches (searches (clear_all_user_cache "alice" full_manager)) other limit =
     get_cached_searches (searches full_manager) other limit).
Proof.
  apply (clear_all_user_cache_scoped "alice" full_manager).
  apply (bool_decide_unpack _). vm_compute. reflexivity.
Defined.

Lemma get_cache_stats_counts_witness :
  get_cache_stats (Some "alice") full_manager !! "total_searches" =
    Some (Z.of_nat (length (filter (fun kv => sr_username kv.2 = "alice")
                                   (search_cache (searches full_manager))))) /\
  (forall limit,
     (Z.of_nat (length (search_cache (searches full_manager))) <= limit)%Z ->
     get_cache_stats (Some "alice") full_manager !! "total_searches" =
       Some (Z.of_nat (length (get_cached_searches (searches full_manager)
                                 "alice" limit)))) /\
  get_cache_stats None full_manager !! "total_searches" =
    Some (Z.of_nat (length (search_cache (searches full_manager)))) /\
  (length (filter (fun kv => sr_username kv.2 = "alice")
                  (search_cache (searches full_manager)))
   <= length (search_cache (searches full_manager)))%nat /\
  get_cache_stats (Some "alice") (clear_all_user_cache "alice" full_manager)
    !! "total_searches" = Some 0%Z.
Proof.
  apply (get_cache_stats_counts "alice" full_manager).
  - discriminate.
  - apply (bool_decide_unpack _). vm_compute. reflexivity.
Defined.

(** The manager of the examples holds nine searches of [alice] among its
    ten. *)
Example get_cache_stats_alice :
  get_cache_stats (Some "alice") full_manager =
    {[ "total_searches" := 9%Z; "user_mode_saved" := 0%Z ]} /\
  get_cache_stats (Some "42") full_manager =
    {[ "total_searches" := 0%Z; "user_mode_saved" := 1%Z ]} /\
  get_cache_stats None full_manager =
    {[ "total_searches" := 10%Z; "total_user_modes" := 2%Z ]}.
Proof. split; [| split]; by vm_compute. Qed.

Lemma chat_snippet_bound_witness :
  exists snippet,
    chat_snippet {| r_id := "point-p"; r_score := 9 # 10;
                    r_text := VStr "Python tutorials: docs.python.org";
                    r_timestamp := VFloat 1; r_content_type := VStr "general";
                    r_metadata := ∅ |} = Some snippet /\
    (Str.len snippet <= 203)%Z /\
    ((Str.len "Python tutorials: docs.python.org" < 200)%Z ->
     snippet = "Python tutorials: docs.python.org") /\
    ((200 <= Str.len "Python tutorials: docs.python.org")%Z ->
     snippet = Str.slice_to 200 "Python tutorials: docs.python.org" ++ "...").
Proof.
  apply (chat_snippet_bound
           {| r_id := "point-p"; r_score := 9 # 10;
              r_text := VStr "Python tutorials: docs.python.org";
              r_timestamp := VFloat 1; r_content_type := VStr "general";
              r_metadata := ∅ |} "Python tutorials: docs.python.org").
  reflexivity.
Defined.

Lemma clear_all_memories_preview_witness :
  exists w' c',
    clear_all_memories env0 "alice" true world_openai =
      (Ok (Z.min 10000
             (Z.of_nat (length (filter (fun ip => Qdrant.field_matches "username" "alice"
                                                    (p_payload ip.2) = true)
                                       (map_to_list (c_points (two_owners 1536))))))), w') /\
    qdrant w' !! env_qdrant_collection_name env0 = Some c' /\
    c_points c' = c_points (two_owners 1536) /\
    c_size c' = c_size (two_owners 1536) /\
    cache_manager w' = cache_manager world_openai.
Proof.
  apply (clear_all_memories_preview env0 "alice" world_openai (two_owners 1536)).
  - vm_compute. reflexivity.
  - vm_compute. reflexivity.
Defined.

Lemma clear_all_memories_deletes_owner_witness :
  exists w' c',
    clear_all_memories env0 "alice" false world_openai =
      (Ok (Z.of_nat (length (filter (fun ip => Qdrant.field_matches "username" "alice"
                                                 (p_payload ip.2) = true)
                                    (map_to_list (c_points (two_owners 1536)))))), w') /\
    qdrant w' !! env_qdrant_collection_name env0 = Some c' /\
    (forall id p,
       c_points c' !! id = Some p <->
       c_points (two_owners 1536) !! id = Some p /\
       Qdrant.field_matches "username" "alice" (p_payload p) = false) /\
    exists w'', clear_all_memories env0 "alice" true w' = (Ok 0%Z, w'').
Proof.
  apply (clear_all_memories_deletes_owner env0 "alice" world_openai (two_owners 1536)).
  - vm_compute. reflexivity.
  - vm_compute. reflexivity.
  - vm_compute. discriminate.
Defined.

Lemma store_in_vector_db_wrong_dimension_witness :
  exists msg w' c',
    store_in_vector_db env0 [1%Q] "a note" "alice" None world_openai
      = (Raise (DatabaseError msg), w') /\
    qdrant w' !! env_qdrant_collection_name env0 = Some c' /\
    (forall c,
       qdrant world_openai !! env_qdrant_collection_name env0 = Some c ->
       c_size c = get_embedding_dimensions (env_provider env0) (env_embedding_model env0) ->
       c_points c' = c_points c).
Proof.
  apply (store_in_vector_db_wrong_dimension env0 [1%Q] "a note" "alice" None world_openai).
  vm_compute. discriminate.
Defined.

Lemma store_then_search_witness :
  exists results w2 r,
    search_vector_db env0 (replicate 1536 1%Q) "alice" 5
      (snd (store_in_vector_db env0 (replicate 1536 1%Q) "a note" "alice" None world_openai))
      = (Ok results, w2) /\
    r ∈ results /\ r_id r = "point-0" /\ r_text r = VStr "a note".
Proof.
  apply (store_then_search env0 (replicate 1536 1%Q) "a note" "alice" None world_openai
           "point-0"
           (snd (store_in_vector_db env0 (replicate 1536 1%Q) "a note" "alice" None
                   world_openai))
           (default (two_owners 1536)
              (qdrant (snd (store_in_vector_db env0 (replicate 1536 1%Q) "a note" "alice"
                              None world_openai)) !! "recall_documents"))
           (replicate 1536 1%Q) 5).
  - vm_compute. reflexivity.
  - reflexivity.
  - reflexivity.
  - vm_compute. reflexivity.
  - vm_compute. reflexivity.
  - vm_compute. lia.
Defined.

Lemma process_text_dichotomy_witness :
  (existsb (fun prefix => Str.startswith prefix (Str.lower "Howard likes tea"))
           ["what"; "how"; "why"; "when"; "where"; "who"] = true ->
   query_knowledge_base env0 "Howard likes tea" "alice" 10 world_openai =
     (fst (process_text env0 "Howard likes tea" "alice" world_openai),
      snd (process_text env0 "Howard likes tea" "alice" world_openai)) /\
   uuids (snd (process_text env0 "Howard likes tea" "alice" world_openai))
     = uuids world_openai /\
   forall c' id p,
     qdrant (snd (process_text env0 "Howard likes tea" "alice" world_openai))
       !! env_qdrant_collection_name env0 = Some c' ->
     c_points c' !! id = Some p ->
     exists c, qdrant world_openai !! env_qdrant_collection_name env0 = Some c /\
               c_points c !! id = Some p) /\
  (existsb (fun prefix => Str.startswith prefix (Str.lower "Howard likes tea"))
           ["what"; "how"; "why"; "when"; "where"; "who"] = false ->
   chat_log (snd (process_text env0 "Howard likes tea" "alice" world_openai))
     = chat_log world_openai /\
   cache_manager (snd (process_text env0 "Howard likes tea" "alice" world_openai))
     = cache_manager world_openai /\
   (fst (process_text env0 "Howard likes tea" "alice" world_openai)
      = Ok "Text processed and stored" \/
    exists e, fst (process_text env0 "Howard likes tea" "alice" world_openai) = Raise e)).
Proof.
  apply (process_text_dichotomy env0 "Howard likes tea" "alice" world_openai).
  apply surjective_pairing.
Defined.

Lemma delete_memories_by_terms_blank_witness :
  delete_memories_by_terms env0 "  " "alice" false world_openai =
    (Raise (DatabaseError ("Failed to delete memories: "
                           ++ "Failed to generate embedding with "
                           ++ env_provider env0 ++ ": " ++ "Text cannot be empty")),
     snd (ensure_collection_exists env0 (env_qdrant_collection_name env0) world_openai)).
Proof.
  apply (delete_memories_by_terms_blank env0 "  " "alice" false world_openai).
  reflexivity.
Defined.

Lemma delete_memories_by_terms_preview_witness :
  qdrant (snd (delete_memories_by_terms env0 "paris" "alice" true world_openai)) =
    qdrant (snd (ensure_collection_exists env0 (env_qdrant_collection_name env0)
                   world_openai)) /\
  forall c,
    qdrant world_openai !! env_qdrant_collection_name env0 = Some c ->
    c_size c = get_embedding_dimensions (env_provider env0) (env_embedding_model env0) ->
    exists c',
      qdrant (snd (delete_memories_by_terms env0 "paris" "alice" true world_openai))
        !! env_qdrant_collection_name env0 = Some c' /\
      c_points c' = c_points c.
Proof.
  apply (delete_memories_by_terms_preview env0 "paris" "alice" world_openai
           (fst (delete_memories_by_terms env0 "paris" "alice" true world_openai))).
  apply surjective_pairing.
Defined.

Lemma delete_memories_by_terms_scope_witness :
  exists c',
    qdrant (snd (delete_memories_by_terms env0 "paris" "alice" false world_openai))
      !! env_qdrant_collection_name env0 = Some c' /\
    (forall id p, c_points c' !! id = Some p -> c_points (two_owners 1536) !! id = Some p) /\
    (forall id p,
       c_points (two_owners 1536) !! id = Some p ->
       c_points c' !! id = Some p \/
       (p_payload p !! "username" = Some (VStr "alice") /\
        exists text,
          default (VStr "") (p_payload p !! "text") = VStr text /\
          is_substring (Str.lower "paris") (Str.lower text))) /\
    (0 <= 1 <= 1000)%Z.
Proof.
  apply (delete_memories_by_terms_scope env0 "paris" "alice" world_openai 1%Z
           (summary_mark ++ " 1 general memories")
           (snd (delete_memories_by_terms env0 "paris" "alice" false world_openai))
           (two_owners 1536)).
  - vm_compute. reflexivity.
  - vm_compute. reflexivity.
  - vm_compute. reflexivity.
Defined.

(** Characters are code points: a text of 150 letters U+00E9 is shorter
    than 200 characters and is kept whole, and a cached query U+00E9 holds
    the search term U+00C9 when case is ignored. *)
Example chat_snippet_code_points :
  chat_snippet {| r_id := "point-p"; r_score := 9 # 10;
                  r_text := VStr (replicate 150 233%N);
                  r_timestamp := VFloat 1; r_content_type := VStr "general";
                  r_metadata := ∅ |} = Some (replicate 150 233%N) /\
  search_cache
    (clear_user_search_cache "u1" [201%N]
       (load_search_cache 10
          [ {| sr_query := [233%N]; sr_results := []; sr_timestamp := 1;
               sr_username := "u1" |} ])) = [].
Proof. split; vm_compute; reflexivity. Qed.

End MoreExamples.

(** ** Invariants and further compositions *)

Section InvariantFacts.
Context {U : Unicode}.

Lemma setitem_keys k v (d : OrderedDict.t) :
  OrderedDict.keys (OrderedDict.setitem k v d) =
    if bool_decide (k ∈ OrderedDict.keys d) then OrderedDict.keys d
    else OrderedDict.keys d ++ [k].
Proof.
  unfold OrderedDict.keys. induction d as [|[k' v'] d IH]; [done |].
  cbn [OrderedDict.setitem]. rewrite fmap_cons. cbn [fst].
  destruct (decide (k' = k)) as [-> | Hk].
  - rewrite (bool_decide_eq_true_2 (k = k)) by done.
    rewrite (bool_decide_eq_true_2 (k ∈ k :: d.*1)) by by left.
    done.
  - rewrite (bool_decide_eq_false_2 (k' = k)) by done.
    rewrite fmap_cons, IH. cbn [fst].
    destruct (decide (k ∈ d.*1)) as [Hin | Hin].
    + rewrite (bool_decide_eq_true_2 (k ∈ d.*1)) by done.
      rewrite (bool_decide_eq_true_2 (k ∈ k' :: d.*1)) by by right.
      done.
    + rewrite (bool_decide_eq_false_2 (k ∈ d.*1)) by done.
      rewrite (bool_decide_eq_false_2 (k ∈ k' :: d.*1)); [done |].
      rewrite not_elem_of_cons. split; [congruence | done].
Qed.

Lemma setitem_well_keyed v (d : OrderedDict.t) :
  well_keyed d ->
  well_keyed (OrderedDict.setitem (cache_key (sr_username v) (sr_query v)) v d).
Proof.
  intros [Hnd Hall]. split.
  - rewrite setitem_keys. case_bool_decide as Hin; [done |].
    apply NoDup_app. split; [done |]. split; [| apply NoDup_singleton].
    intros k Hk ->%list_elem_of_singleton. done.
  - clear Hnd. induction Hall as [|[k' v'] d Hkv Hall IH]; cbn [OrderedDict.setitem].
    + by repeat constructor.
    + case_bool_decide; constructor; done.
Qed.

Lemma filter_well_keyed (P : str * SearchResult -> Prop)
    `{!forall kv, Decision (P kv)} (d : OrderedDict.t) :
  well_keyed d -> well_keyed (filter P d).
Proof.
  intros [Hnd Hall]. split.
  - unfold OrderedDict.keys in *. eapply sublist_NoDup; [exact Hnd |].
    apply fmap_sublist, sublist_filter.
  - apply Forall_forall. intros kv [_ Hin]%list_elem_of_filter.
    rewrite Forall_forall in Hall. by apply Hall.
Qed.

Lemma drop_well_keyed n (d : OrderedDict.t) : well_keyed d -> well_keyed (drop n d).
Proof.
  intros [Hnd Hall]. split.
  - unfold OrderedDict.keys in *. eapply sublist_NoDup; [exact Hnd |].
    apply fmap_sublist, sublist_drop.
  - by apply Forall_drop.
Qed.

Lemma evict_oldest_well_keyed max (d : OrderedDict.t) :
  well_keyed d -> well_keyed (evict_oldest max d).2.
Proof.
  intros Hwk. destruct (decide (0 <= max)%Z).
  - rewrite evict_oldest_spec by done. by apply drop_well_keyed.
  - rewrite evict_oldest_negative by lia. split; [apply NoDup_nil_2 | constructor].
Qed.

Lemma del_all_well_keyed to_remove (d : OrderedDict.t) :
  well_keyed d -> well_keyed (del_all to_remove d).
Proof. intros Hwk. rewrite del_all_filter. by apply filter_well_keyed. Qed.

(** X22. The search cache keeps its shape: after loading the cache file and
    after every put and every purge no key occurs twice, and every entry
    sits under the key built from its own owner and query. *)
Theorem search_cache_well_keyed :
  (forall max data, well_keyed (search_cache (load_search_cache max data))) /\
  (forall now query results username cm,
     well_keyed (search_cache cm) ->
     well_keyed (search_cache (cache_search_result now query results username cm).2)) /\
  (forall now max_age_days cm,
     well_keyed (search_cache cm) ->
     well_keyed (search_cache (clear_old_cache now max_age_days cm))) /\
  (forall username search_terms cm,
     well_keyed (search_cache cm) ->
     well_keyed (search_cache (clear_user_search_cache username search_terms cm))) /\
  (forall username m,
     well_keyed (search_cache (searches m)) ->
     well_keyed (search_cache (searches (clear_all_user_cache username m)))).
Proof.
  split; [| split; [| split; [| split]]].
  - intros max data. unfold load_search_cache. cbn [search_cache].
    assert (Hgen : forall d0, well_keyed d0 ->
      well_keyed (foldl (fun d result =>
        OrderedDict.setitem (cache_key (sr_username result) (sr_query result)) result d)
        d0 data)).
    { induction data as [|v data IH]; intros d0 Hd0; [done |].
      simpl. apply IH. by apply setitem_well_keyed. }
    apply Hgen. split; [apply NoDup_nil_2 | constructor].
  - intros now query results username cm Hwk. unfold cache_search_result.
    rewrite mem_del.
    set (entry := {| sr_query := query |}).
    pose proof (setitem_well_keyed entry
                  (OrderedDict.del (cache_key username query) (search_cache cm))) as Hset.
    cbn [sr_username sr_query entry] in Hset.
    specialize (Hset (filter_well_keyed _ _ Hwk)).
    pose proof (evict_oldest_well_keyed (max_search_cache cm) _ Hset) as Hev.
    destruct (evict_oldest _ _) as [res d']. done.
  - intros now max_age_days cm Hwk. by apply del_all_well_keyed.
  - intros username search_terms cm Hwk. by apply del_all_well_keyed.
  - intros username m Hwk. by apply del_all_well_keyed.
Qed.

End InvariantFacts.

Lemma with_required_indexes_twice indexes :
  with_required_indexes (with_required_indexes indexes) = with_required_indexes indexes.
Proof.
  unfold with_required_indexes. apply map_eq. intros field.
  rewrite !lookup_insert. repeat case_decide; done.
Qed.

Section CompositionFacts.
Context {U : Unicode} (env : Env).

(** X23. The metadata of [store_in_vector_db] win over the payload the
    function builds: every key of the metadata is stored with the value of
    the metadata - also [username], [text], [timestamp] and [content_type] -
    and every other key with the value built from the arguments. *)
Theorem store_in_vector_db_payload embedding text username metadata w point_id w1 :
  store_in_vector_db env embedding text username metadata w = (Ok point_id, w1) ->
  exists c p,
    qdrant w1 !! env_qdrant_collection_name env = Some c /\
    c_points c !! point_id = Some p /\
    p_vector p = embedding /\
    (forall key v, default ∅ metadata !! key = Some v -> p_payload p !! key = Some v) /\
    (forall key,
       default ∅ metadata !! key = None ->
       p_payload p !! key =
         ({[ "text" := VStr text; "username" := VStr username;
             "timestamp" := VFloat (env_clock env (ticks w));
             "content_type" := VStr "general" ]} : gmap str Value) !! key).
Proof.
  intros Hstore.
  destruct (store_in_vector_db_spec env embedding text username metadata w)
    as (c' & _ & Hrun).
  cbv zeta in Hrun. rewrite Hrun in Hstore. case_bool_decide; [| done].
  injection Hstore as <- <-. cbn [qdrant set_qdrant].
  eexists _, _. split; [apply lookup_insert_eq |]. cbn [c_points].
  split; [apply lookup_insert_eq |]. split; [done |]. cbn [p_payload].
  destruct metadata as [md|]; simpl.
  - split.
    + intros key v Hkey. by apply lookup_union_Some_l.
    + intros key Hkey. by apply lookup_union_r.
  - split; [| done]. intros key v Hkey. by rewrite lookup_empty in Hkey.
Qed.

(** X24. [ensure_collection_exists] never fails and is idempotent: a second
    call changes nothing.  A collection that was missing is created empty,
    with the dimension of the configured model and the three payload
    indexes. *)
Theorem ensure_collection_exists_idempotent name w :
  exists w1,
    ensure_collection_exists env name w = (Ok tt, w1) /\
    ensure_collection_exists env name w1 = (Ok tt, w1) /\
    (qdrant w !! name = None ->
     qdrant w1 !! name =
       Some {| c_size := get_embedding_dimensions (env_provider env)
                                                  (env_embedding_model env);
               c_points := ∅;
               c_indexes := with_required_indexes ∅ |}).
Proof.
  destruct (ensure_collection_exists_spec env name w) as (c1 & Hrun1 & Hsize1 & Hcase1).
  eexists. split; [exact Hrun1 |].
  set (w1 := set_qdrant (<[name := c1]> (qdrant w)) w).
  destruct (ensure_collection_exists_spec env name w1) as (c2 & Hrun2 & Hsize2 & Hcase2).
  subst w1. cbn [qdrant set_qdrant] in Hcase2, Hrun2.
  rewrite lookup_insert_eq, decide_True in Hcase2 by done.
  destruct Hcase2 as [Hpoints2 Hindexes2].
  assert (Hidx1 : exists base, c_indexes c1 = with_required_indexes base).
  { destruct (qdrant w !! name) as [c|].
    - destruct (decide _); destruct Hcase1 as [_ ->]; by eexists.
    - destruct Hcase1 as [_ ->]. by eexists. }
  destruct Hidx1 as [base Hidx1].
  assert (c2 = c1) as ->.
  { destruct c1, c2. simpl in *. subst.
    by rewrite with_required_indexes_twice. }
  split.
  - rewrite Hrun2. by rewrite insert_insert_eq.
  - intros Hnone. rewrite Hnone in Hcase1. destruct Hcase1 as [Hp Hi].
    cbn [qdrant set_qdrant]. rewrite lookup_insert_eq.
    destruct c1. simpl in *. by subst.
Qed.

(** X25. The text that [generate_embedding] sends is the stripped text cut
    to its first 8000 characters, never more; the OpenAI-style providers and
    Gemini get the configured embedding model, any other provider is served
    by the fallback model [text-embedding-ada-002]. *)
Theorem generate_embedding_request text w r w' :
  Str.strip text ≠ "" ->
  generate_embedding env text w = (r, w') ->
  let input := Str.slice_to (Z.to_nat 8000) (Str.strip text) in
  (Str.len input <= 8000)%Z /\
  embed_log w' =
    embed_log w ++
    [ if bool_decide (env_provider env ∈ ["OpenAI"; "GitHub"; "Custom"])
      then OpenAIEmbed (env_embedding_model env) input
      else if bool_decide (env_provider env = "Gemini")
           then GeminiEmbed (env_embedding_model env) input
           else FallbackEmbed "text-embedding-ada-002" input ].
Proof.
  intros Hblank Hrun input. split.
  { unfold Str.len, input. rewrite slice_to_length. lia. }
  revert Hrun. unfold generate_embedding, try_except.
  rewrite bool_decide_eq_false_2 by done.
  assert (Hinput : (if bool_decide (Str.len (Str.strip text) > 8000)%Z
                    then Str.slice_to (Z.to_nat 8000) (Str.strip text)
                    else Str.strip text) = input).
  { case_bool_decide as Hlen; [done |].
    unfold input. symmetry. apply slice_to_short. unfold Str.len in Hlen. lia. }
  rewrite Hinput.
  repeat case_bool_decide; unfold send_embed, raise;
    destruct (env_embedding_backend env _ _) as [|[]]; by intros [= _ <-].
Qed.

End CompositionFacts.

Section CompositionExamples.
#[local] Existing Instance latin1.

Lemma store_in_vector_db_payload_witness :
  exists c p,
    qdrant (snd (store_in_vector_db env0 (replicate 1536 1%Q) "a note" "bob"
                   (Some {[ "username" := VStr "alice"; "content_type" := VStr "txt" ]})
                   world_openai))
      !! env_qdrant_collection_name env0 = Some c /\
    c_points c !! "point-0" = Some p /\
    p_vector p = replicate 1536 1%Q /\
    (forall key v,
       default ∅ (Some ({[ "username" := VStr "alice"; "content_type" := VStr "txt" ]}
                        : gmap str Value)) !! key = Some v ->
       p_payload p !! key = Some v) /\
    (forall key,
       default ∅ (Some ({[ "username" := VStr "alice"; "content_type" := VStr "txt" ]}
                        : gmap str Value)) !! key = None ->
       p_payload p !! key =
         ({[ "text" := VStr "a note"; "username" := VStr "bob";
             "timestamp" := VFloat (env_clock env0 (ticks world_openai));
             "content_type" := VStr "general" ]} : gmap str Value) !! key).
Proof.
  apply (store_in_vector_db_payload env0 (replicate 1536 1%Q) "a note" "bob"
           (Some {[ "username" := VStr "alice"; "content_type" := VStr "txt" ]})
           world_openai "point-0").
  vm_compute. reflexivity.
Defined.

Lemma generate_embedding_request_witness :
  (Str.len (Str.slice_to (Z.to_nat 8000) (Str.strip "  What is the capital of France? "))
   <= 8000)%Z /\
  embed_log (snd (generate_embedding env0 "  What is the capital of France? " world0)) =
    embed_log world0 ++
    [ if bool_decide (env_provider env0 ∈ ["OpenAI"; "GitHub"; "Custom"])
      then OpenAIEmbed (env_embedding_model env0)
             (Str.slice_to (Z.to_nat 8000) (Str.strip "  What is the capital of France? "))
      else if bool_decide (env_provider env0 = "Gemini")
           then GeminiEmbed (env_embedding_model env0)
                  (Str.slice_to (Z.to_nat 8000)
                     (Str.strip "  What is the capital of France? "))
           else FallbackEmbed "text-embedding-ada-002"
                  (Str.slice_to (Z.to_nat 8000)
                     (Str.strip "  What is the capital of France? ")) ].
Proof.
  apply (generate_embedding_request env0 "  What is the capital of France? " world0
           (fst (generate_embedding env0 "  What is the capital of France? " world0))).
  - vm_compute. discriminate.
  - apply surjective_pairing.
Defined.

End CompositionExamples.
